(** * smartcal1: sustained-warmth check and task lifecycle

    A shallow embedding of [src/app.py].  The program is a cron job around one
    SQLite connection: it logs a temperature reading, counts the warm readings
    of the trailing window, asks a language model whether to open a task, and
    offers a second mode that snoozes a task.

    Conventions of the embedding.
    - A [datetime] is the number of microseconds since [datetime.min]
      (0001-01-01 00:00:00); a [timedelta] is a number of microseconds.  Both
      Python types have a bounded range and raise [OverflowError] outside it;
      the bounds are written out below.
    - SQLite stores a DATETIME as ISO text and compares it as text.  The texts
      written here all have the fixed-width shape YYYY-MM-DD HH:MM:SS with an
      optional .ffffff, for which text order is the order of the instants, so
      the comparison is modelled on the microsecond count.
    - A REAL value (a finite temperature) is a rational number.
    - A [str] is the string of the bytes of its UTF-8 encoding.  White
      space, case and decimal digits are those of Unicode, as [str.strip],
      [str.upper] and [int] know them.
    - A table is the list of its rows in insertion order, with the
      AUTOINCREMENT counter beside it.
    - Every statement that writes is followed at once by [conn.commit()], so
      the state threaded through the operations is the committed database. *)

From Stdlib Require Import ZArith NArith QArith List String Ascii Bool Lia.
From Stdlib Require Import Sorting.Sorted Sorting.Permutation.
From Stdlib Require Import Numbers.DecimalString Numbers.DecimalFacts.
From Stdlib Require Import Numbers.DecimalPos Numbers.DecimalN Numbers.DecimalZ.
Import ListNotations.

Local Open Scope string_scope.
Local Open Scope list_scope.
Local Open Scope Z_scope.

(** ** Exceptions and results *)

(** The Python exceptions the modelled code can raise. *)
Inductive exn : Type :=
| ValueError      (* int() on a text that is no integer literal *)
| OverflowError   (* timedelta / datetime out of range, int too large for SQLite *)
| TypeError.      (* subscripting the None that fetchone() returns on no row *)

Inductive result (A : Type) : Type :=
| Ok (a : A)
| Raise (e : exn).

Arguments Ok {A} a.
Arguments Raise {A} e.

Definition result_bind {A B} (r : result A) (k : A -> result B) : result B :=
  match r with
  | Ok a => k a
  | Raise e => Raise e
  end.

(** ** Time: [datetime] and [timedelta] *)

Definition datetime := Z.
Definition timedelta := Z.

Definition us_per_second : Z := 1000000.
Definition us_per_minute : Z := 60 * us_per_second.
Definition us_per_hour : Z := 60 * us_per_minute.
Definition us_per_day : Z := 24 * us_per_hour.

(** [timedelta.max.days]; a timedelta is normalised to days, seconds,
    microseconds with [0 <= seconds < 86400], so its day count is the floor
    of the quotient. *)
Definition MAX_DELTA_DAYS : Z := 999999999.

(** [datetime.max] is 9999-12-31 23:59:59.999999, whose date has ordinal
    3652059: the representable instants are [0 <= t < datetime_end]. *)
Definition MAXORDINAL : Z := 3652059.
Definition datetime_end : Z := MAXORDINAL * us_per_day.

Definition timedelta_in_range (us : Z) : bool :=
  (- MAX_DELTA_DAYS <=? us / us_per_day) && (us / us_per_day <=? MAX_DELTA_DAYS).

Definition datetime_in_range (t : Z) : bool :=
  (0 <=? t) && (t <? datetime_end).

(** The [timedelta(...)] constructor on a total number of microseconds. *)
Definition timedelta_new (us : Z) : result timedelta :=
  if timedelta_in_range us then Ok us else Raise OverflowError.

Definition timedelta_days (n : Z) : result timedelta := timedelta_new (n * us_per_day).
Definition timedelta_hours (n : Z) : result timedelta := timedelta_new (n * us_per_hour).
Definition timedelta_minutes (n : Z) : result timedelta := timedelta_new (n * us_per_minute).

(** [datetime + timedelta] and [datetime - timedelta]. *)
Definition datetime_add (t : datetime) (d : timedelta) : result datetime :=
  if datetime_in_range (t + d) then Ok (t + d) else Raise OverflowError.

Definition datetime_sub (t : datetime) (d : timedelta) : result datetime :=
  if datetime_in_range (t - d) then Ok (t - d) else Raise OverflowError.

(** ** Strings: the [str] methods the program calls *)

(** A [str] is held as its UTF-8 encoding, one to four bytes for each
    character.  The methods below read a text character by character; what
    they do to a character is the Unicode data of CPython 3.11
    (Unicode 14.0), written out as tables of code points. *)

Definition ascii_in (lo hi : nat) (c : ascii) : bool :=
  (lo <=? nat_of_ascii c)%nat && (nat_of_ascii c <=? hi)%nat.

Definition is_digit (c : ascii) : bool := ascii_in 48 57 c.

(** The white space of C's [isspace], which [int()] skips around a
    literal: tab to carriage return, and the space. *)
Definition is_literal_space (c : ascii) : bool :=
  ascii_in 9 13 c || Ascii.eqb c " ".

(** Some byte of [s] satisfies [p]. *)
Fixpoint mentions (p : ascii -> bool) (s : string) : bool :=
  match s with
  | EmptyString => false
  | String c r => p c || mentions p r
  end.

(** Every character of [s] is an ASCII character. *)
Definition ascii_text (s : string) : bool :=
  negb (mentions (fun c => negb (ascii_in 0 127 c)) s).

(** [sub in s]: [sub] starts at some offset of [s]. *)
Fixpoint contains (sub s : string) : bool :=
  prefix sub s ||
  match s with
  | EmptyString => false
  | String _ r => contains sub r
  end.

(** The texts of [l], one after the other. *)
Fixpoint join (l : list string) : string :=
  match l with
  | [] => EmptyString
  | t :: r => (t ++ join r)%string
  end.

(** *** The characters of a text *)

(** The UTF-8 encoding of the code point [c]. *)
Definition utf8 (c : N) : string :=
  let byte (n : N) : ascii := ascii_of_N n in
  (if c <? 0x80 then String (byte c) ""
   else if c <? 0x800 then
     String (byte (0xC0 + c / 0x40)) (String (byte (0x80 + c mod 0x40)) "")
   else if c <? 0x10000 then
     String (byte (0xE0 + c / 0x1000))
       (String (byte (0x80 + (c / 0x40) mod 0x40))
          (String (byte (0x80 + c mod 0x40)) ""))
   else
     String (byte (0xF0 + c / 0x40000))
       (String (byte (0x80 + (c / 0x1000) mod 0x40))
          (String (byte (0x80 + (c / 0x40) mod 0x40))
             (String (byte (0x80 + c mod 0x40)) ""))))%N.

(** A byte 10xxxxxx continues a character. *)
Definition is_continuation (b : ascii) : bool := ascii_in 128 191 b.

(** How many continuation bytes the first byte of a character announces:
    none for an ASCII character, one after 110xxxxx, two after 1110xxxx,
    three after 11110xxx. *)
Definition trail_length (b : ascii) : nat :=
  if ascii_in 192 223 b then 1
  else if ascii_in 224 239 b then 2
  else if ascii_in 240 247 b then 3
  else 0.

(** Every byte of [s] on its own. *)
Fixpoint singles (s : string) : list string :=
  match s with
  | EmptyString => []
  | String b r => String b "" :: singles r
  end.

(** The first [n] bytes of [s], and the rest. *)
Fixpoint split_at (n : nat) (s : string) : string * string :=
  match n, s with
  | S n', String b r => let (a, c) := split_at n' r in (String b a, c)
  | _, _ => (EmptyString, s)
  end.

(** The byte [b], which continues no character, before the continuation
    bytes [following]: [b] takes the bytes it announces.  A sequence that
    encodes no character (too few continuation bytes, or one too many; no
    [str] has such an encoding) is kept byte by byte. *)
Definition attach (b : ascii) (following : string) : list string :=
  if (trail_length b <=? String.length following)%nat
  then let (taken, left) := split_at (trail_length b) following in
       String b taken :: singles left
  else String b "" :: singles following.

(** The continuation bytes at the head of [s], which belong to what stands
    before [s], and the characters after them. *)
Fixpoint split_chars (s : string) : string * list string :=
  match s with
  | EmptyString => (EmptyString, [])
  | String b r =>
      let (following, cs) := split_chars r in
      if is_continuation b then (String b following, cs)
      else (EmptyString, attach b following ++ cs)
  end.

(** The characters of [s], each as its bytes. *)
Definition chars (s : string) : list string :=
  let (following, cs) := split_chars s in singles following ++ cs.

(** *** The Unicode data *)

(** The characters for which [str.isspace()] holds. *)
Definition whitespace_code_points : list N :=
  [0x0009; 0x000A; 0x000B; 0x000C; 0x000D; 0x001C; 0x001D; 0x001E; 0x001F; 0x0020;
   0x0085; 0x00A0; 0x1680; 0x2000; 0x2001; 0x2002; 0x2003; 0x2004; 0x2005; 0x2006;
   0x2007; 0x2008; 0x2009; 0x200A; 0x2028; 0x2029; 0x202F; 0x205F; 0x3000]%N.

(** The characters with decimal value 0; the nine code points after each
    have the values 1 to 9. *)
Definition decimal_zero_code_points : list N :=
  [0x0030; 0x0660; 0x06F0; 0x07C0; 0x0966; 0x09E6; 0x0A66; 0x0AE6; 0x0B66; 0x0BE6;
   0x0C66; 0x0CE6; 0x0D66; 0x0DE6; 0x0E50; 0x0ED0; 0x0F20; 0x1040; 0x1090; 0x17E0;
   0x1810; 0x1946; 0x19D0; 0x1A80; 0x1A90; 0x1B50; 0x1BB0; 0x1C40; 0x1C50; 0xA620;
   0xA8D0; 0xA900; 0xA9D0; 0xA9F0; 0xAA50; 0xABF0; 0xFF10; 0x104A0; 0x10D30; 0x11066;
   0x110F0; 0x11136; 0x111D0; 0x112F0; 0x11450; 0x114D0; 0x11650; 0x116C0; 0x11730; 0x118E0;
   0x11950; 0x11C50; 0x11D50; 0x11DA0; 0x16A60; 0x16AC0; 0x16B50; 0x1D7CE; 0x1D7D8; 0x1D7E2;
   0x1D7EC; 0x1D7F6; 0x1E140; 0x1E2F0; 0x1E950; 0x1FBF0]%N.

(** The characters that [str.upper()] changes, each with the characters it
    becomes. *)
Definition uppercase_code_points : list (N * list N) :=
  [(0x0061, [0x0041]); (0x0062, [0x0042]); (0x0063, [0x0043]); (0x0064, [0x0044]);
   (0x0065, [0x0045]); (0x0066, [0x0046]); (0x0067, [0x0047]); (0x0068, [0x0048]);
   (0x0069, [0x0049]); (0x006A, [0x004A]); (0x006B, [0x004B]); (0x006C, [0x004C]);
   (0x006D, [0x004D]); (0x006E, [0x004E]); (0x006F, [0x004F]); (0x0070, [0x0050]);
   (0x0071, [0x0051]); (0x0072, [0x0052]); (0x0073, [0x0053]); (0x0074, [0x0054]);
   (0x0075, [0x0055]); (0x0076, [0x0056]); (0x0077, [0x0057]); (0x0078, [0x0058]);
   (0x0079, [0x0059]); (0x007A, [0x005A]); (0x00B5, [0x039C]); (0x00DF, [0x0053; 0x0053]);
   (0x00E0, [0x00C0]); (0x00E1, [0x00C1]); (0x00E2, [0x00C2]); (0x00E3, [0x00C3]);
   (0x00E4, [0x00C4]); (0x00E5, [0x00C5]); (0x00E6, [0x00C6]); (0x00E7, [0x00C7]);
   (0x00E8, [0x00C8]); (0x00E9, [0x00C9]); (0x00EA, [0x00CA]); (0x00EB, [0x00CB]);
   (0x00EC, [0x00CC]); (0x00ED, [0x00CD]); (0x00EE, [0x00CE]); (0x00EF, [0x00CF]);
   (0x00F0, [0x00D0]); (0x00F1, [0x00D1]); (0x00F2, [0x00D2]); (0x00F3, [0x00D3]);
   (0x00F4, [0x00D4]); (0x00F5, [0x00D5]); (0x00F6, [0x00D6]); (0x00F8, [0x00D8]);
   (0x00F9, [0x00D9]); (0x00FA, [0x00DA]); (0x00FB, [0x00DB]); (0x00FC, [0x00DC]);
   (0x00FD, [0x00DD]); (0x00FE, [0x00DE]); (0x00FF, [0x0178]); (0x0101, [0x0100]);
   (0x0103, [0x0102]); (0x0105, [0x0104]); (0x0107, [0x0106]); (0x0109, [0x0108]);
   (0x010B, [0x010A]); (0x010D, [0x010C]); (0x010F, [0x010E]); (0x0111, [0x0110]);
   (0x0113, [0x0112]); (0x0115, [0x0114]); (0x0117, [0x0116]); (0x0119, [0x0118]);
   (0x011B, [0x011A]); (0x011D, [0x011C]); (0x011F, [0x011E]); (0x0121, [0x0120]);
   (0x0123, [0x0122]); (0x0125, [0x0124]); (0x0127, [0x0126]); (0x0129, [0x0128]);
   (0x012B, [0x012A]); (0x012D, [0x012C]); (0x012F, [0x012E]); (0x0131, [0x0049]);
   (0x0133, [0x0132]); (0x0135, [0x0134]); (0x0137, [0x0136]); (0x013A, [0x0139]);
   (0x013C, [0x013B]); (0x013E, [0x013D]); (0x0140, [0x013F]); (0x0142, [0x0141]);
   (0x0144, [0x0143]); (0x0146, [0x0145]); (0x0148, [0x0147]); (0x0149, [0x02BC; 0x004E]);
   (0x014B, [0x014A]); (0x014D, [0x014C]); (0x014F, [0x014E]); (0x0151, [0x0150]);
   (0x0153, [0x0152]); (0x0155, [0x0154]); (0x0157, [0x0156]); (0x0159, [0x0158]);
   (0x015B, [0x015A]); (0x015D, [0x015C]); (0x015F, [0x015E]); (0x0161, [0x0160]);
   (0x0163, [0x0162]); (0x0165, [0x0164]); (0x0167, [0x0166]); (0x0169, [0x0168]);
   (0x016B, [0x016A]); (0x016D, [0x016C]); (0x016F, [0x016E]); (0x0171, [0x0170]);
   (0x0173, [0x0172]); (0x0175, [0x0174]); (0x0177, [0x0176]); (0x017A, [0x0179]);
   (0x017C, [0x017B]); (0x017E, [0x017D]); (0x017F, [0x0053]); (0x0180, [0x0243]);
   (0x0183, [0x0182]); (0x0185, [0x0184]); (0x0188, [0x0187]); (0x018C, [0x018B]);
   (0x0192, [0x0191]); (0x0195, [0x01F6]); (0x0199, [0x0198]); (0x019A, [0x023D]);
   (0x019E, [0x0220]); (0x01A1, [0x01A0]); (0x01A3, [0x01A2]); (0x01A5, [0x01A4]);
   (0x01A8, [0x01A7]); (0x01AD, [0x01AC]); (0x01B0, [0x01AF]); (0x01B4, [0x01B3]);
   (0x01B6, [0x01B5]); (0x01B9, [0x01B8]); (0x01BD, [0x01BC]); (0x01BF, [0x01F7]);
   (0x01C5, [0x01C4]); (0x01C6, [0x01C4]); (0x01C8, [0x01C7]); (0x01C9, [0x01C7]);
   (0x01CB, [0x01CA]); (0x01CC, [0x01CA]); (0x01CE, [0x01CD]); (0x01D0, [0x01CF]);
   (0x01D2, [0x01D1]); (0x01D4, [0x01D3]); (0x01D6, [0x01D5]); (0x01D8, [0x01D7]);
   (0x01DA, [0x01D9]); (0x01DC, [0x01DB]); (0x01DD, [0x018E]); (0x01DF, [0x01DE]);
   (0x01E1, [0x01E0]); (0x01E3, [0x01E2]); (0x01E5, [0x01E4]); (0x01E7, [0x01E6]);
   (0x01E9, [0x01E8]); (0x01EB, [0x01EA]); (0x01ED, [0x01EC]); (0x01EF, [0x01EE]);
   (0x01F0, [0x004A; 0x030C]); (0x01F2, [0x01F1]); (0x01F3, [0x01F1]); (0x01F5, [0x01F4]);
   (0x01F9, [0x01F8]); (0x01FB, [0x01FA]); (0x01FD, [0x01FC]); (0x01FF, [0x01FE]);
   (0x0201, [0x0200]); (0x0203, [0x0202]); (0x0205, [0x0204]); (0x0207, [0x0206]);
   (0x0209, [0x0208]); (0x020B, [0x020A]); (0x020D, [0x020C]); (0x020F, [0x020E]);
   (0x0211, [0x0210]); (0x0213, [0x0212]); (0x0215, [0x0214]); (0x0217, [0x0216]);
   (0x0219, [0x0218]); (0x021B, [0x021A]); (0x021D, [0x021C]); (0x021F, [0x021E]);
   (0x0223, [0x0222]); (0x0225, [0x0224]); (0x0227, [0x0226]); (0x0229, [0x0228]);
   (0x022B, [0x022A]); (0x022D, [0x022C]); (0x022F, [0x022E]); (0x0231, [0x0230]);
   (0x0233, [0x0232]); (0x023C, [0x023B]); (0x023F, [0x2C7E]); (0x0240, [0x2C7F]);
   (0x0242, [0x0241]); (0x0247, [0x0246]); (0x0249, [0x0248]); (0x024B, [0x024A]);
   (0x024D, [0x024C]); (0x024F, [0x024E]); (0x0250, [0x2C6F]); (0x0251, [0x2C6D]);
   (0x0252, [0x2C70]); (0x0253, [0x0181]); (0x0254, [0x0186]); (0x0256, [0x0189]);
   (0x0257, [0x018A]); (0x0259, [0x018F]); (0x025B, [0x0190]); (0x025C, [0xA7AB]);
   (0x0260, [0x0193]); (0x0261, [0xA7AC]); (0x0263, [0x0194]); (0x0265, [0xA78D]);
   (0x0266, [0xA7AA]); (0x0268, [0x0197]); (0x0269, [0x0196]); (0x026A, [0xA7AE]);
   (0x026B, [0x2C62]); (0x026C, [0xA7AD]); (0x026F, [0x019C]); (0x0271, [0x2C6E]);
   (0x0272, [0x019D]); (0x0275, [0x019F]); (0x027D, [0x2C64]); (0x0280, [0x01A6]);
   (0x0282, [0xA7C5]); (0x0283, [0x01A9]); (0x0287, [0xA7B1]); (0x0288, [0x01AE]);
   (0x0289, [0x0244]); (0x028A, [0x01B1]); (0x028B, [0x01B2]); (0x028C, [0x0245]);
   (0x0292, [0x01B7]); (0x029D, [0xA7B2]); (0x029E, [0xA7B0]); (0x0345, [0x0399]);
   (0x0371, [0x0370]); (0x0373, [0x0372]); (0x0377, [0x0376]); (0x037B, [0x03FD]);
   (0x037C, [0x03FE]); (0x037D, [0x03FF]); (0x0390, [0x0399; 0x0308; 0x0301]); (0x03AC, [0x0386]);
   (0x03AD, [0x0388]); (0x03AE, [0x0389]); (0x03AF, [0x038A]); (0x03B0, [0x03A5; 0x0308; 0x0301]);
   (0x03B1, [0x0391]); (0x03B2, [0x0392]); (0x03B3, [0x0393]); (0x03B4, [0x0394]);
   (0x03B5, [0x0395]); (0x03B6, [0x0396]); (0x03B7, [0x0397]); (0x03B8, [0x0398]);
   (0x03B9, [0x0399]); (0x03BA, [0x039A]); (0x03BB, [0x039B]); (0x03BC, [0x039C]);
   (0x03BD, [0x039D]); (0x03BE, [0x039E]); (0x03BF, [0x039F]); (0x03C0, [0x03A0]);
   (0x03C1, [0x03A1]); (0x03C2, [0x03A3]); (0x03C3, [0x03A3]); (0x03C4, [0x03A4]);
   (0x03C5, [0x03A5]); (0x03C6, [0x03A6]); (0x03C7, [0x03A7]); (0x03C8, [0x03A8]);
   (0x03C9, [0x03A9]); (0x03CA, [0x03AA]); (0x03CB, [0x03AB]); (0x03CC, [0x038C]);
   (0x03CD, [0x038E]); (0x03CE, [0x038F]); (0x03D0, [0x0392]); (0x03D1, [0x0398]);
   (0x03D5, [0x03A6]); (0x03D6, [0x03A0]); (0x03D7, [0x03CF]); (0x03D9, [0x03D8]);
   (0x03DB, [0x03DA]); (0x03DD, [0x03DC]); (0x03DF, [0x03DE]); (0x03E1, [0x03E0]);
   (0x03E3, [0x03E2]); (0x03E5, [0x03E4]); (0x03E7, [0x03E6]); (0x03E9, [0x03E8]);
   (0x03EB, [0x03EA]); (0x03ED, [0x03EC]); (0x03EF, [0x03EE]); (0x03F0, [0x039A]);
   (0x03F1, [0x03A1]); (0x03F2, [0x03F9]); (0x03F3, [0x037F]); (0x03F5, [0x0395]);
   (0x03F8, [0x03F7]); (0x03FB, [0x03FA]); (0x0430, [0x0410]); (0x0431, [0x0411]);
   (0x0432, [0x0412]); (0x0433, [0x0413]); (0x0434, [0x0414]); (0x0435, [0x0415]);
   (0x0436, [0x0416]); (0x0437, [0x0417]); (0x0438, [0x0418]); (0x0439, [0x0419]);
   (0x043A, [0x041A]); (0x043B, [0x041B]); (0x043C, [0x041C]); (0x043D, [0x041D]);
   (0x043E, [0x041E]); (0x043F, [0x041F]); (0x0440, [0x0420]); (0x0441, [0x0421]);
   (0x0442, [0x0422]); (0x0443, [0x0423]); (0x0444, [0x0424]); (0x0445, [0x0425]);
   (0x0446, [0x0426]); (0x0447, [0x0427]); (0x0448, [0x0428]); (0x0449, [0x0429]);
   (0x044A, [0x042A]); (0x044B, [0x042B]); (0x044C, [0x042C]); (0x044D, [0x042D]);
   (0x044E, [0x042E]); (0x044F, [0x042F]); (0x0450, [0x0400]); (0x0451, [0x0401]);
   (0x0452, [0x0402]); (0x0453, [0x0403]); (0x0454, [0x0404]); (0x0455, [0x0405]);
   (0x0456, [0x0406]); (0x0457, [0x0407]); (0x0458, [0x0408]); (0x0459, [0x0409]);
   (0x045A, [0x040A]); (0x045B, [0x040B]); (0x045C, [0x040C]); (0x045D, [0x040D]);
   (0x045E, [0x040E]); (0x045F, [0x040F]); (0x0461, [0x0460]); (0x0463, [0x0462]);
   (0x0465, [0x0464]); (0x0467, [0x0466]); (0x0469, [0x0468]); (0x046B, [0x046A]);
   (0x046D, [0x046C]); (0x046F, [0x046E]); (0x0471, [0x0470]); (0x0473, [0x0472]);
   (0x0475, [0x0474]); (0x0477, [0x0476]); (0x0479, [0x0478]); (0x047B, [0x047A]);
   (0x047D, [0x047C]); (0x047F, [0x047E]); (0x0481, [0x0480]); (0x048B, [0x048A]);
   (0x048D, [0x048C]); (0x048F, [0x048E]); (0x0491, [0x0490]); (0x0493, [0x0492]);
   (0x0495, [0x0494]); (0x0497, [0x0496]); (0x0499, [0x0498]); (0x049B, [0x049A]);
   (0x049D, [0x049C]); (0x049F, [0x049E]); (0x04A1, [0x04A0]); (0x04A3, [0x04A2]);
   (0x04A5, [0x04A4]); (0x04A7, [0x04A6]); (0x04A9, [0x04A8]); (0x04AB, [0x04AA]);
   (0x04AD, [0x04AC]); (0x04AF, [0x04AE]); (0x04B1, [0x04B0]); (0x04B3, [0x04B2]);
   (0x04B5, [0x04B4]); (0x04B7, [0x04B6]); (0x04B9, [0x04B8]); (0x04BB, [0x04BA]);
   (0x04BD, [0x04BC]); (0x04BF, [0x04BE]); (0x04C2, [0x04C1]); (0x04C4, [0x04C3]);
   (0x04C6, [0x04C5]); (0x04C8, [0x04C7]); (0x04CA, [0x04C9]); (0x04CC, [0x04CB]);
   (0x04CE, [0x04CD]); (0x04CF, [0x04C0]); (0x04D1, [0x04D0]); (0x04D3, [0x04D2]);
   (0x04D5, [0x04D4]); (0x04D7, [0x04D6]); (0x04D9, [0x04D8]); (0x04DB, [0x04DA]);
   (0x04DD, [0x04DC]); (0x04DF, [0x04DE]); (0x04E1, [0x04E0]); (0x04E3, [0x04E2]);
   (0x04E5, [0x04E4]); (0x04E7, [0x04E6]); (0x04E9, [0x04E8]); (0x04EB, [0x04EA]);
   (0x04ED, [0x04EC]); (0x04EF, [0x04EE]); (0x04F1, [0x04F0]); (0x04F3, [0x04F2]);
   (0x04F5, [0x04F4]); (0x04F7, [0x04F6]); (0x04F9, [0x04F8]); (0x04FB, [0x04FA]);
   (0x04FD, [0x04FC]); (0x04FF, [0x04FE]); (0x0501, [0x0500]); (0x0503, [0x0502]);
   (0x0505, [0x0504]); (0x0507, [0x0506]); (0x0509, [0x0508]); (0x050B, [0x050A]);
   (0x050D, [0x050C]); (0x050F, [0x050E]); (0x0511, [0x0510]); (0x0513, [0x0512]);
   (0x0515, [0x0514]); (0x0517, [0x0516]); (0x0519, [0x0518]); (0x051B, [0x051A]);
   (0x051D, [0x051C]); (0x051F, [0x051E]); (0x0521, [0x0520]); (0x0523, [0x0522]);
   (0x0525, [0x0524]); (0x0527, [0x0526]); (0x0529, [0x0528]); (0x052B, [0x052A]);
   (0x052D, [0x052C]); (0x052F, [0x052E]); (0x0561, [0x0531]); (0x0562, [0x0532]);
   (0x0563, [0x0533]); (0x0564, [0x0534]); (0x0565, [0x0535]); (0x0566, [0x0536]);
   (0x0567, [0x0537]); (0x0568, [0x0538]); (0x0569, [0x0539]); (0x056A, [0x053A]);
   (0x056B, [0x053B]); (0x056C, [0x053C]); (0x056D, [0x053D]); (0x056E, [0x053E]);
   (0x056F, [0x053F]); (0x0570, [0x0540]); (0x0571, [0x0541]); (0x0572, [0x0542]);
   (0x0573, [0x0543]); (0x0574, [0x0544]); (0x0575, [0x0545]); (0x0576, [0x0546]);
   (0x0577, [0x0547]); (0x0578, [0x0548]); (0x0579, [0x0549]); (0x057A, [0x054A]);
   (0x057B, [0x054B]); (0x057C, [0x054C]); (0x057D, [0x054D]); (0x057E, [0x054E]);
   (0x057F, [0x054F]); (0x0580, [0x0550]); (0x0581, [0x0551]); (0x0582, [0x0552]);
   (0x0583, [0x0553]); (0x0584, [0x0554]); (0x0585, [0x0555]); (0x0586, [0x0556]);
   (0x0587, [0x0535; 0x0552]); (0x10D0, [0x1C90]); (0x10D1, [0x1C91]); (0x10D2, [0x1C92]);
   (0x10D3, [0x1C93]); (0x10D4, [0x1C94]); (0x10D5, [0x1C95]); (0x10D6, [0x1C96]);
   (0x10D7, [0x1C97]); (0x10D8, [0x1C98]); (0x10D9, [0x1C99]); (0x10DA, [0x1C9A]);
   (0x10DB, [0x1C9B]); (0x10DC, [0x1C9C]); (0x10DD, [0x1C9D]); (0x10DE, [0x1C9E]);
   (0x10DF, [0x1C9F]); (0x10E0, [0x1CA0]); (0x10E1, [0x1CA1]); (0x10E2, [0x1CA2]);
   (0x10E3, [0x1CA3]); (0x10E4, [0x1CA4]); (0x10E5, [0x1CA5]); (0x10E6, [0x1CA6]);
   (0x10E7, [0x1CA7]); (0x10E8, [0x1CA8]); (0x10E9, [0x1CA9]); (0x10EA, [0x1CAA]);
   (0x10EB, [0x1CAB]); (0x10EC, [0x1CAC]); (0x10ED, [0x1CAD]); (0x10EE, [0x1CAE]);
   (0x10EF, [0x1CAF]); (0x10F0, [0x1CB0]); (0x10F1, [0x1CB1]); (0x10F2, [0x1CB2]);
   (0x10F3, [0x1CB3]); (0x10F4, [0x1CB4]); (0x10F5, [0x1CB5]); (0x10F6, [0x1CB6]);
   (0x10F7, [0x1CB7]); (0x10F8, [0x1CB8]); (0x10F9, [0x1CB9]); (0x10FA, [0x1CBA]);
   (0x10FD, [0x1CBD]); (0x10FE, [0x1CBE]); (0x10FF, [0x1CBF]); (0x13F8, [0x13F0]);
   (0x13F9, [0x13F1]); (0x13FA, [0x13F2]); (0x13FB, [0x13F3]); (0x13FC, [0x13F4]);
   (0x13FD, [0x13F5]); (0x1C80, [0x0412]); (0x1C81, [0x0414]); (0x1C82, [0x041E]);
   (0x1C83, [0x0421]); (0x1C84, [0x0422]); (0x1C85, [0x0422]); (0x1C86, [0x042A]);
   (0x1C87, [0x0462]); (0x1C88, [0xA64A]); (0x1D79, [0xA77D]); (0x1D7D, [0x2C63]);
   (0x1D8E, [0xA7C6]); (0x1E01, [0x1E00]); (0x1E03, [0x1E02]); (0x1E05, [0x1E04]);
   (0x1E07, [0x1E06]); (0x1E09, [0x1E08]); (0x1E0B, [0x1E0A]); (0x1E0D, [0x1E0C]);
   (0x1E0F, [0x1E0E]); (0x1E11, [0x1E10]); (0x1E13, [0x1E12]); (0x1E15, [0x1E14]);
   (0x1E17, [0x1E16]); (0x1E19, [0x1E18]); (0x1E1B, [0x1E1A]); (0x1E1D, [0x1E1C]);
   (0x1E1F, [0x1E1E]); (0x1E21, [0x1E20]); (0x1E23, [0x1E22]); (0x1E25, [0x1E24]);
   (0x1E27, [0x1E26]); (0x1E29, [0x1E28]); (0x1E2B, [0x1E2A]); (0x1E2D, [0x1E2C]);
   (0x1E2F, [0x1E2E]); (0x1E31, [0x1E30]); (0x1E33, [0x1E32]); (0x1E35, [0x1E34]);
   (0x1E37, [0x1E36]); (0x1E39, [0x1E38]); (0x1E3B, [0x1E3A]); (0x1E3D, [0x1E3C]);
   (0x1E3F, [0x1E3E]); (0x1E41, [0x1E40]); (0x1E43, [0x1E42]); (0x1E45, [0x1E44]);
   (0x1E47, [0x1E46]); (0x1E49, [0x1E48]); (0x1E4B, [0x1E4A]); (0x1E4D, [0x1E4C]);
   (0x1E4F, [0x1E4E]); (0x1E51, [0x1E50]); (0x1E53, [0x1E52]); (0x1E55, [0x1E54]);
   (0x1E57, [0x1E56]); (0x1E59, [0x1E58]); (0x1E5B, [0x1E5A]); (0x1E5D, [0x1E5C]);
   (0x1E5F, [0x1E5E]); (0x1E61, [0x1E60]); (0x1E63, [0x1E62]); (0x1E65, [0x1E64]);
   (0x1E67, [0x1E66]); (0x1E69, [0x1E68]); (0x1E6B, [0x1E6A]); (0x1E6D, [0x1E6C]);
   (0x1E6F, [0x1E6E]); (0x1E71, [0x1E70]); (0x1E73, [0x1E72]); (0x1E75, [0x1E74]);
   (0x1E77, [0x1E76]); (0x1E79, [0x1E78]); (0x1E7B, [0x1E7A]); (0x1E7D, [0x1E7C]);
   (0x1E7F, [0x1E7E]); (0x1E81, [0x1E80]); (0x1E83, [0x1E82]); (0x1E85, [0x1E84]);
   (0x1E87, [0x1E86]); (0x1E89, [0x1E88]); (0x1E8B, [0x1E8A]); (0x1E8D, [0x1E8C]);
   (0x1E8F, [0x1E8E]); (0x1E91, [0x1E90]); (0x1E93, [0x1E92]); (0x1E95, [0x1E94]);
   (0x1E96, [0x0048; 0x0331]); (0x1E97, [0x0054; 0x0308]); (0x1E98, [0x0057; 0x030A]); (0x1E99, [0x0059; 0x030A]);
   (0x1E9A, [0x0041; 0x02BE]); (0x1E9B, [0x1E60]); (0x1EA1, [0x1EA0]); (0x1EA3, [0x1EA2]);
   (0x1EA5, [0x1EA4]); (0x1EA7, [0x1EA6]); (0x1EA9, [0x1EA8]); (0x1EAB, [0x1EAA]);
   (0x1EAD, [0x1EAC]); (0x1EAF, [0x1EAE]); (0x1EB1, [0x1EB0]); (0x1EB3, [0x1EB2]);
   (0x1EB5, [0x1EB4]); (0x1EB7, [0x1EB6]); (0x1EB9, [0x1EB8]); (0x1EBB, [0x1EBA]);
   (0x1EBD, [0x1EBC]); (0x1EBF, [0x1EBE]); (0x1EC1, [0x1EC0]); (0x1EC3, [0x1EC2]);
   (0x1EC5, [0x1EC4]); (0x1EC7, [0x1EC6]); (0x1EC9, [0x1EC8]); (0x1ECB, [0x1ECA]);
   (0x1ECD, [0x1ECC]); (0x1ECF, [0x1ECE]); (0x1ED1, [0x1ED0]); (0x1ED3, [0x1ED2]);
   (0x1ED5, [0x1ED4]); (0x1ED7, [0x1ED6]); (0x1ED9, [0x1ED8]); (0x1EDB, [0x1EDA]);
   (0x1EDD, [0x1EDC]); (0x1EDF, [0x1EDE]); (0x1EE1, [0x1EE0]); (0x1EE3, [0x1EE2]);
   (0x1EE5, [0x1EE4]); (0x1EE7, [0x1EE6]); (0x1EE9, [0x1EE8]); (0x1EEB, [0x1EEA]);
   (0x1EED, [0x1EEC]); (0x1EEF, [0x1EEE]); (0x1EF1, [0x1EF0]); (0x1EF3, [0x1EF2]);
   (0x1EF5, [0x1EF4]); (0x1EF7, [0x1EF6]); (0x1EF9, [0x1EF8]); (0x1EFB, [0x1EFA]);
   (0x1EFD, [0x1EFC]); (0x1EFF, [0x1EFE]); (0x1F00, [0x1F08]); (0x1F01, [0x1F09]);
   (0x1F02, [0x1F0A]); (0x1F03, [0x1F0B]); (0x1F04, [0x1F0C]); (0x1F05, [0x1F0D]);
   (0x1F06, [0x1F0E]); (0x1F07, [0x1F0F]); (0x1F10, [0x1F18]); (0x1F11, [0x1F19]);
   (0x1F12, [0x1F1A]); (0x1F13, [0x1F1B]); (0x1F14, [0x1F1C]); (0x1F15, [0x1F1D]);
   (0x1F20, [0x1F28]); (0x1F21, [0x1F29]); (0x1F22, [0x1F2A]); (0x1F23, [0x1F2B]);
   (0x1F24, [0x1F2C]); (0x1F25, [0x1F2D]); (0x1F26, [0x1F2E]); (0x1F27, [0x1F2F]);
   (0x1F30, [0x1F38]); (0x1F31, [0x1F39]); (0x1F32, [0x1F3A]); (0x1F33, [0x1F3B]);
   (0x1F34, [0x1F3C]); (0x1F35, [0x1F3D]); (0x1F36, [0x1F3E]); (0x1F37, [0x1F3F]);
   (0x1F40, [0x1F48]); (0x1F41, [0x1F49]); (0x1F42, [0x1F4A]); (0x1F43, [0x1F4B]);
   (0x1F44, [0x1F4C]); (0x1F45, [0x1F4D]); (0x1F50, [0x03A5; 0x0313]); (0x1F51, [0x1F59]);
   (0x1F52, [0x03A5; 0x0313; 0x0300]); (0x1F53, [0x1F5B]); (0x1F54, [0x03A5; 0x0313; 0x0301]); (0x1F55, [0x1F5D]);
   (0x1F56, [0x03A5; 0x0313; 0x0342]); (0x1F57, [0x1F5F]); (0x1F60, [0x1F68]); (0x1F61, [0x1F69]);
   (0x1F62, [0x1F6A]); (0x1F63, [0x1F6B]); (0x1F64, [0x1F6C]); (0x1F65, [0x1F6D]);
   (0x1F66, [0x1F6E]); (0x1F67, [0x1F6F]); (0x1F70, [0x1FBA]); (0x1F71, [0x1FBB]);
   (0x1F72, [0x1FC8]); (0x1F73, [0x1FC9]); (0x1F74, [0x1FCA]); (0x1F75, [0x1FCB]);
   (0x1F76, [0x1FDA]); (0x1F77, [0x1FDB]); (0x1F78, [0x1FF8]); (0x1F79, [0x1FF9]);
   (0x1F7A, [0x1FEA]); (0x1F7B, [0x1FEB]); (0x1F7C, [0x1FFA]); (0x1F7D, [0x1FFB]);
   (0x1F80, [0x1F08; 0x0399]); (0x1F81, [0x1F09; 0x0399]); (0x1F82, [0x1F0A; 0x0399]); (0x1F83, [0x1F0B; 0x0399]);
   (0x1F84, [0x1F0C; 0x0399]); (0x1F85, [0x1F0D; 0x0399]); (0x1F86, [0x1F0E; 0x0399]); (0x1F87, [0x1F0F; 0x0399]);
   (0x1F88, [0x1F08; 0x0399]); (0x1F89, [0x1F09; 0x0399]); (0x1F8A, [0x1F0A; 0x0399]); (0x1F8B, [0x1F0B; 0x0399]);
   (0x1F8C, [0x1F0C; 0x0399]); (0x1F8D, [0x1F0D; 0x0399]); (0x1F8E, [0x1F0E; 0x0399]); (0x1F8F, [0x1F0F; 0x0399]);
   (0x1F90, [0x1F28; 0x0399]); (0x1F91, [0x1F29; 0x0399]); (0x1F92, [0x1F2A; 0x0399]); (0x1F93, [0x1F2B; 0x0399]);
   (0x1F94, [0x1F2C; 0x0399]); (0x1F95, [0x1F2D; 0x0399]); (0x1F96, [0x1F2E; 0x0399]); (0x1F97, [0x1F2F; 0x0399]);
   (0x1F98, [0x1F28; 0x0399]); (0x1F99, [0x1F29; 0x0399]); (0x1F9A, [0x1F2A; 0x0399]); (0x1F9B, [0x1F2B; 0x0399]);
   (0x1F9C, [0x1F2C; 0x0399]); (0x1F9D, [0x1F2D; 0x0399]); (0x1F9E, [0x1F2E; 0x0399]); (0x1F9F, [0x1F2F; 0x0399]);
   (0x1FA0, [0x1F68; 0x0399]); (0x1FA1, [0x1F69; 0x0399]); (0x1FA2, [0x1F6A; 0x0399]); (0x1FA3, [0x1F6B; 0x0399]);
   (0x1FA4, [0x1F6C; 0x0399]); (0x1FA5, [0x1F6D; 0x0399]); (0x1FA6, [0x1F6E; 0x0399]); (0x1FA7, [0x1F6F; 0x0399]);
   (0x1FA8, [0x1F68; 0x0399]); (0x1FA9, [0x1F69; 0x0399]); (0x1FAA, [0x1F6A; 0x0399]); (0x1FAB, [0x1F6B; 0x0399]);
   (0x1FAC, [0x1F6C; 0x0399]); (0x1FAD, [0x1F6D; 0x0399]); (0x1FAE, [0x1F6E; 0x0399]); (0x1FAF, [0x1F6F; 0x0399]);
   (0x1FB0, [0x1FB8]); (0x1FB1, [0x1FB9]); (0x1FB2, [0x1FBA; 0x0399]); (0x1FB3, [0x0391; 0x0399]);
   (0x1FB4, [0x0386; 0x0399]); (0x1FB6, [0x0391; 0x0342]); (0x1FB7, [0x0391; 0x0342; 0x0399]); (0x1FBC, [0x0391; 0x0399]);
   (0x1FBE, [0x0399]); (0x1FC2, [0x1FCA; 0x0399]); (0x1FC3, [0x0397; 0x0399]); (0x1FC4, [0x0389; 0x0399]);
   (0x1FC6, [0x0397; 0x0342]); (0x1FC7, [0x0397; 0x0342; 0x0399]); (0x1FCC, [0x0397; 0x0399]); (0x1FD0, [0x1FD8]);
   (0x1FD1, [0x1FD9]); (0x1FD2, [0x0399; 0x0308; 0x0300]); (0x1FD3, [0x0399; 0x0308; 0x0301]); (0x1FD6, [0x0399; 0x0342]);
   (0x1FD7, [0x0399; 0x0308; 0x0342]); (0x1FE0, [0x1FE8]); (0x1FE1, [0x1FE9]); (0x1FE2, [0x03A5; 0x0308; 0x0300]);
   (0x1FE3, [0x03A5; 0x0308; 0x0301]); (0x1FE4, [0x03A1; 0x0313]); (0x1FE5, [0x1FEC]); (0x1FE6, [0x03A5; 0x0342]);
   (0x1FE7, [0x03A5; 0x0308; 0x0342]); (0x1FF2, [0x1FFA; 0x0399]); (0x1FF3, [0x03A9; 0x0399]); (0x1FF4, [0x038F; 0x0399]);
   (0x1FF6, [0x03A9; 0x0342]); (0x1FF7, [0x03A9; 0x0342; 0x0399]); (0x1FFC, [0x03A9; 0x0399]); (0x214E, [0x2132]);
   (0x2170, [0x2160]); (0x2171, [0x2161]); (0x2172, [0x2162]); (0x2173, [0x2163]);
   (0x2174, [0x2164]); (0x2175, [0x2165]); (0x2176, [0x2166]); (0x2177, [0x2167]);
   (0x2178, [0x2168]); (0x2179, [0x2169]); (0x217A, [0x216A]); (0x217B, [0x216B]);
   (0x217C, [0x216C]); (0x217D, [0x216D]); (0x217E, [0x216E]); (0x217F, [0x216F]);
   (0x2184, [0x2183]); (0x24D0, [0x24B6]); (0x24D1, [0x24B7]); (0x24D2, [0x24B8]);
   (0x24D3, [0x24B9]); (0x24D4, [0x24BA]); (0x24D5, [0x24BB]); (0x24D6, [0x24BC]);
   (0x24D7, [0x24BD]); (0x24D8, [0x24BE]); (0x24D9, [0x24BF]); (0x24DA, [0x24C0]);
   (0x24DB, [0x24C1]); (0x24DC, [0x24C2]); (0x24DD, [0x24C3]); (0x24DE, [0x24C4]);
   (0x24DF, [0x24C5]); (0x24E0, [0x24C6]); (0x24E1, [0x24C7]); (0x24E2, [0x24C8]);
   (0x24E3, [0x24C9]); (0x24E4, [0x24CA]); (0x24E5, [0x24CB]); (0x24E6, [0x24CC]);
   (0x24E7, [0x24CD]); (0x24E8, [0x24CE]); (0x24E9, [0x24CF]); (0x2C30, [0x2C00]);
   (0x2C31, [0x2C01]); (0x2C32, [0x2C02]); (0x2C33, [0x2C03]); (0x2C34, [0x2C04]);
   (0x2C35, [0x2C05]); (0x2C36, [0x2C06]); (0x2C37, [0x2C07]); (0x2C38, [0x2C08]);
   (0x2C39, [0x2C09]); (0x2C3A, [0x2C0A]); (0x2C3B, [0x2C0B]); (0x2C3C, [0x2C0C]);
   (0x2C3D, [0x2C0D]); (0x2C3E, [0x2C0E]); (0x2C3F, [0x2C0F]); (0x2C40, [0x2C10]);
   (0x2C41, [0x2C11]); (0x2C42, [0x2C12]); (0x2C43, [0x2C13]); (0x2C44, [0x2C14]);
   (0x2C45, [0x2C15]); (0x2C46, [0x2C16]); (0x2C47, [0x2C17]); (0x2C48, [0x2C18]);
   (0x2C49, [0x2C19]); (0x2C4A, [0x2C1A]); (0x2C4B, [0x2C1B]); (0x2C4C, [0x2C1C]);
   (0x2C4D, [0x2C1D]); (0x2C4E, [0x2C1E]); (0x2C4F, [0x2C1F]); (0x2C50, [0x2C20]);
   (0x2C51, [0x2C21]); (0x2C52, [0x2C22]); (0x2C53, [0x2C23]); (0x2C54, [0x2C24]);
   (0x2C55, [0x2C25]); (0x2C56, [0x2C26]); (0x2C57, [0x2C27]); (0x2C58, [0x2C28]);
   (0x2C59, [0x2C29]); (0x2C5A, [0x2C2A]); (0x2C5B, [0x2C2B]); (0x2C5C, [0x2C2C]);
   (0x2C5D, [0x2C2D]); (0x2C5E, [0x2C2E]); (0x2C5F, [0x2C2F]); (0x2C61, [0x2C60]);
   (0x2C65, [0x023A]); (0x2C66, [0x023E]); (0x2C68, [0x2C67]); (0x2C6A, [0x2C69]);
   (0x2C6C, [0x2C6B]); (0x2C73, [0x2C72]); (0x2C76, [0x2C75]); (0x2C81, [0x2C80]);
   (0x2C83, [0x2C82]); (0x2C85, [0x2C84]); (0x2C87, [0x2C86]); (0x2C89, [0x2C88]);
   (0x2C8B, [0x2C8A]); (0x2C8D, [0x2C8C]); (0x2C8F, [0x2C8E]); (0x2C91, [0x2C90]);
   (0x2C93, [0x2C92]); (0x2C95, [0x2C94]); (0x2C97, [0x2C96]); (0x2C99, [0x2C98]);
   (0x2C9B, [0x2C9A]); (0x2C9D, [0x2C9C]); (0x2C9F, [0x2C9E]); (0x2CA1, [0x2CA0]);
   (0x2CA3, [0x2CA2]); (0x2CA5, [0x2CA4]); (0x2CA7, [0x2CA6]); (0x2CA9, [0x2CA8]);
   (0x2CAB, [0x2CAA]); (0x2CAD, [0x2CAC]); (0x2CAF, [0x2CAE]); (0x2CB1, [0x2CB0]);
   (0x2CB3, [0x2CB2]); (0x2CB5, [0x2CB4]); (0x2CB7, [0x2CB6]); (0x2CB9, [0x2CB8]);
   (0x2CBB, [0x2CBA]); (0x2CBD, [0x2CBC]); (0x2CBF, [0x2CBE]); (0x2CC1, [0x2CC0]);
   (0x2CC3, [0x2CC2]); (0x2CC5, [0x2CC4]); (0x2CC7, [0x2CC6]); (0x2CC9, [0x2CC8]);
   (0x2CCB, [0x2CCA]); (0x2CCD, [0x2CCC]); (0x2CCF, [0x2CCE]); (0x2CD1, [0x2CD0]);
   (0x2CD3, [0x2CD2]); (0x2CD5, [0x2CD4]); (0x2CD7, [0x2CD6]); (0x2CD9, [0x2CD8]);
   (0x2CDB, [0x2CDA]); (0x2CDD, [0x2CDC]); (0x2CDF, [0x2CDE]); (0x2CE1, [0x2CE0]);
   (0x2CE3, [0x2CE2]); (0x2CEC, [0x2CEB]); (0x2CEE, [0x2CED]); (0x2CF3, [0x2CF2]);
   (0x2D00, [0x10A0]); (0x2D01, [0x10A1]); (0x2D02, [0x10A2]); (0x2D03, [0x10A3]);
   (0x2D04, [0x10A4]); (0x2D05, [0x10A5]); (0x2D06, [0x10A6]); (0x2D07, [0x10A7]);
   (0x2D08, [0x10A8]); (0x2D09, [0x10A9]); (0x2D0A, [0x10AA]); (0x2D0B, [0x10AB]);
   (0x2D0C, [0x10AC]); (0x2D0D, [0x10AD]); (0x2D0E, [0x10AE]); (0x2D0F, [0x10AF]);
   (0x2D10, [0x10B0]); (0x2D11, [0x10B1]); (0x2D12, [0x10B2]); (0x2D13, [0x10B3]);
   (0x2D14, [0x10B4]); (0x2D15, [0x10B5]); (0x2D16, [0x10B6]); (0x2D17, [0x10B7]);
   (0x2D18, [0x10B8]); (0x2D19, [0x10B9]); (0x2D1A, [0x10BA]); (0x2D1B, [0x10BB]);
   (0x2D1C, [0x10BC]); (0x2D1D, [0x10BD]); (0x2D1E, [0x10BE]); (0x2D1F, [0x10BF]);
   (0x2D20, [0x10C0]); (0x2D21, [0x10C1]); (0x2D22, [0x10C2]); (0x2D23, [0x10C3]);
   (0x2D24, [0x10C4]); (0x2D25, [0x10C5]); (0x2D27, [0x10C7]); (0x2D2D, [0x10CD]);
   (0xA641, [0xA640]); (0xA643, [0xA642]); (0xA645, [0xA644]); (0xA647, [0xA646]);
   (0xA649, [0xA648]); (0xA64B, [0xA64A]); (0xA64D, [0xA64C]); (0xA64F, [0xA64E]);
   (0xA651, [0xA650]); (0xA653, [0xA652]); (0xA655, [0xA654]); (0xA657, [0xA656]);
   (0xA659, [0xA658]); (0xA65B, [0xA65A]); (0xA65D, [0xA65C]); (0xA65F, [0xA65E]);
   (0xA661, [0xA660]); (0xA663, [0xA662]); (0xA665, [0xA664]); (0xA667, [0xA666]);
   (0xA669, [0xA668]); (0xA66B, [0xA66A]); (0xA66D, [0xA66C]); (0xA681, [0xA680]);
   (0xA683, [0xA682]); (0xA685, [0xA684]); (0xA687, [0xA686]); (0xA689, [0xA688]);
   (0xA68B, [0xA68A]); (0xA68D, [0xA68C]); (0xA68F, [0xA68E]); (0xA691, [0xA690]);
   (0xA693, [0xA692]); (0xA695, [0xA694]); (0xA697, [0xA696]); (0xA699, [0xA698]);
   (0xA69B, [0xA69A]); (0xA723, [0xA722]); (0xA725, [0xA724]); (0xA727, [0xA726]);
   (0xA729, [0xA728]); (0xA72B, [0xA72A]); (0xA72D, [0xA72C]); (0xA72F, [0xA72E]);
   (0xA733, [0xA732]); (0xA735, [0xA734]); (0xA737, [0xA736]); (0xA739, [0xA738]);
   (0xA73B, [0xA73A]); (0xA73D, [0xA73C]); (0xA73F, [0xA73E]); (0xA741, [0xA740]);
   (0xA743, [0xA742]); (0xA745, [0xA744]); (0xA747, [0xA746]); (0xA749, [0xA748]);
   (0xA74B, [0xA74A]); (0xA74D, [0xA74C]); (0xA74F, [0xA74E]); (0xA751, [0xA750]);
   (0xA753, [0xA752]); (0xA755, [0xA754]); (0xA757, [0xA756]); (0xA759, [0xA758]);
   (0xA75B, [0xA75A]); (0xA75D, [0xA75C]); (0xA75F, [0xA75E]); (0xA761, [0xA760]);
   (0xA763, [0xA762]); (0xA765, [0xA764]); (0xA767, [0xA766]); (0xA769, [0xA768]);
   (0xA76B, [0xA76A]); (0xA76D, [0xA76C]); (0xA76F, [0xA76E]); (0xA77A, [0xA779]);
   (0xA77C, [0xA77B]); (0xA77F, [0xA77E]); (0xA781, [0xA780]); (0xA783, [0xA782]);
   (0xA785, [0xA784]); (0xA787, [0xA786]); (0xA78C, [0xA78B]); (0xA791, [0xA790]);
   (0xA793, [0xA792]); (0xA794, [0xA7C4]); (0xA797, [0xA796]); (0xA799, [0xA798]);
   (0xA79B, [0xA79A]); (0xA79D, [0xA79C]); (0xA79F, [0xA79E]); (0xA7A1, [0xA7A0]);
   (0xA7A3, [0xA7A2]); (0xA7A5, [0xA7A4]); (0xA7A7, [0xA7A6]); (0xA7A9, [0xA7A8]);
   (0xA7B5, [0xA7B4]); (0xA7B7, [0xA7B6]); (0xA7B9, [0xA7B8]); (0xA7BB, [0xA7BA]);
   (0xA7BD, [0xA7BC]); (0xA7BF, [0xA7BE]); (0xA7C1, [0xA7C0]); (0xA7C3, [0xA7C2]);
   (0xA7C8, [0xA7C7]); (0xA7CA, [0xA7C9]); (0xA7D1, [0xA7D0]); (0xA7D7, [0xA7D6]);
   (0xA7D9, [0xA7D8]); (0xA7F6, [0xA7F5]); (0xAB53, [0xA7B3]); (0xAB70, [0x13A0]);
   (0xAB71, [0x13A1]); (0xAB72, [0x13A2]); (0xAB73, [0x13A3]); (0xAB74, [0x13A4]);
   (0xAB75, [0x13A5]); (0xAB76, [0x13A6]); (0xAB77, [0x13A7]); (0xAB78, [0x13A8]);
   (0xAB79, [0x13A9]); (0xAB7A, [0x13AA]); (0xAB7B, [0x13AB]); (0xAB7C, [0x13AC]);
   (0xAB7D, [0x13AD]); (0xAB7E, [0x13AE]); (0xAB7F, [0x13AF]); (0xAB80, [0x13B0]);
   (0xAB81, [0x13B1]); (0xAB82, [0x13B2]); (0xAB83, [0x13B3]); (0xAB84, [0x13B4]);
   (0xAB85, [0x13B5]); (0xAB86, [0x13B6]); (0xAB87, [0x13B7]); (0xAB88, [0x13B8]);
   (0xAB89, [0x13B9]); (0xAB8A, [0x13BA]); (0xAB8B, [0x13BB]); (0xAB8C, [0x13BC]);
   (0xAB8D, [0x13BD]); (0xAB8E, [0x13BE]); (0xAB8F, [0x13BF]); (0xAB90, [0x13C0]);
   (0xAB91, [0x13C1]); (0xAB92, [0x13C2]); (0xAB93, [0x13C3]); (0xAB94, [0x13C4]);
   (0xAB95, [0x13C5]); (0xAB96, [0x13C6]); (0xAB97, [0x13C7]); (0xAB98, [0x13C8]);
   (0xAB99, [0x13C9]); (0xAB9A, [0x13CA]); (0xAB9B, [0x13CB]); (0xAB9C, [0x13CC]);
   (0xAB9D, [0x13CD]); (0xAB9E, [0x13CE]); (0xAB9F, [0x13CF]); (0xABA0, [0x13D0]);
   (0xABA1, [0x13D1]); (0xABA2, [0x13D2]); (0xABA3, [0x13D3]); (0xABA4, [0x13D4]);
   (0xABA5, [0x13D5]); (0xABA6, [0x13D6]); (0xABA7, [0x13D7]); (0xABA8, [0x13D8]);
   (0xABA9, [0x13D9]); (0xABAA, [0x13DA]); (0xABAB, [0x13DB]); (0xABAC, [0x13DC]);
   (0xABAD, [0x13DD]); (0xABAE, [0x13DE]); (0xABAF, [0x13DF]); (0xABB0, [0x13E0]);
   (0xABB1, [0x13E1]); (0xABB2, [0x13E2]); (0xABB3, [0x13E3]); (0xABB4, [0x13E4]);
   (0xABB5, [0x13E5]); (0xABB6, [0x13E6]); (0xABB7, [0x13E7]); (0xABB8, [0x13E8]);
   (0xABB9, [0x13E9]); (0xABBA, [0x13EA]); (0xABBB, [0x13EB]); (0xABBC, [0x13EC]);
   (0xABBD, [0x13ED]); (0xABBE, [0x13EE]); (0xABBF, [0x13EF]); (0xFB00, [0x0046; 0x0046]);
   (0xFB01, [0x0046; 0x0049]); (0xFB02, [0x0046; 0x004C]); (0xFB03, [0x0046; 0x0046; 0x0049]); (0xFB04, [0x0046; 0x0046; 0x004C]);
   (0xFB05, [0x0053; 0x0054]); (0xFB06, [0x0053; 0x0054]); (0xFB13, [0x0544; 0x0546]); (0xFB14, [0x0544; 0x0535]);
   (0xFB15, [0x0544; 0x053B]); (0xFB16, [0x054E; 0x0546]); (0xFB17, [0x0544; 0x053D]); (0xFF41, [0xFF21]);
   (0xFF42, [0xFF22]); (0xFF43, [0xFF23]); (0xFF44, [0xFF24]); (0xFF45, [0xFF25]);
   (0xFF46, [0xFF26]); (0xFF47, [0xFF27]); (0xFF48, [0xFF28]); (0xFF49, [0xFF29]);
   (0xFF4A, [0xFF2A]); (0xFF4B, [0xFF2B]); (0xFF4C, [0xFF2C]); (0xFF4D, [0xFF2D]);
   (0xFF4E, [0xFF2E]); (0xFF4F, [0xFF2F]); (0xFF50, [0xFF30]); (0xFF51, [0xFF31]);
   (0xFF52, [0xFF32]); (0xFF53, [0xFF33]); (0xFF54, [0xFF34]); (0xFF55, [0xFF35]);
   (0xFF56, [0xFF36]); (0xFF57, [0xFF37]); (0xFF58, [0xFF38]); (0xFF59, [0xFF39]);
   (0xFF5A, [0xFF3A]); (0x10428, [0x10400]); (0x10429, [0x10401]); (0x1042A, [0x10402]);
   (0x1042B, [0x10403]); (0x1042C, [0x10404]); (0x1042D, [0x10405]); (0x1042E, [0x10406]);
   (0x1042F, [0x10407]); (0x10430, [0x10408]); (0x10431, [0x10409]); (0x10432, [0x1040A]);
   (0x10433, [0x1040B]); (0x10434, [0x1040C]); (0x10435, [0x1040D]); (0x10436, [0x1040E]);
   (0x10437, [0x1040F]); (0x10438, [0x10410]); (0x10439, [0x10411]); (0x1043A, [0x10412]);
   (0x1043B, [0x10413]); (0x1043C, [0x10414]); (0x1043D, [0x10415]); (0x1043E, [0x10416]);
   (0x1043F, [0x10417]); (0x10440, [0x10418]); (0x10441, [0x10419]); (0x10442, [0x1041A]);
   (0x10443, [0x1041B]); (0x10444, [0x1041C]); (0x10445, [0x1041D]); (0x10446, [0x1041E]);
   (0x10447, [0x1041F]); (0x10448, [0x10420]); (0x10449, [0x10421]); (0x1044A, [0x10422]);
   (0x1044B, [0x10423]); (0x1044C, [0x10424]); (0x1044D, [0x10425]); (0x1044E, [0x10426]);
   (0x1044F, [0x10427]); (0x104D8, [0x104B0]); (0x104D9, [0x104B1]); (0x104DA, [0x104B2]);
   (0x104DB, [0x104B3]); (0x104DC, [0x104B4]); (0x104DD, [0x104B5]); (0x104DE, [0x104B6]);
   (0x104DF, [0x104B7]); (0x104E0, [0x104B8]); (0x104E1, [0x104B9]); (0x104E2, [0x104BA]);
   (0x104E3, [0x104BB]); (0x104E4, [0x104BC]); (0x104E5, [0x104BD]); (0x104E6, [0x104BE]);
   (0x104E7, [0x104BF]); (0x104E8, [0x104C0]); (0x104E9, [0x104C1]); (0x104EA, [0x104C2]);
   (0x104EB, [0x104C3]); (0x104EC, [0x104C4]); (0x104ED, [0x104C5]); (0x104EE, [0x104C6]);
   (0x104EF, [0x104C7]); (0x104F0, [0x104C8]); (0x104F1, [0x104C9]); (0x104F2, [0x104CA]);
   (0x104F3, [0x104CB]); (0x104F4, [0x104CC]); (0x104F5, [0x104CD]); (0x104F6, [0x104CE]);
   (0x104F7, [0x104CF]); (0x104F8, [0x104D0]); (0x104F9, [0x104D1]); (0x104FA, [0x104D2]);
   (0x104FB, [0x104D3]); (0x10597, [0x10570]); (0x10598, [0x10571]); (0x10599, [0x10572]);
   (0x1059A, [0x10573]); (0x1059B, [0x10574]); (0x1059C, [0x10575]); (0x1059D, [0x10576]);
   (0x1059E, [0x10577]); (0x1059F, [0x10578]); (0x105A0, [0x10579]); (0x105A1, [0x1057A]);
   (0x105A3, [0x1057C]); (0x105A4, [0x1057D]); (0x105A5, [0x1057E]); (0x105A6, [0x1057F]);
   (0x105A7, [0x10580]); (0x105A8, [0x10581]); (0x105A9, [0x10582]); (0x105AA, [0x10583]);
   (0x105AB, [0x10584]); (0x105AC, [0x10585]); (0x105AD, [0x10586]); (0x105AE, [0x10587]);
   (0x105AF, [0x10588]); (0x105B0, [0x10589]); (0x105B1, [0x1058A]); (0x105B3, [0x1058C]);
   (0x105B4, [0x1058D]); (0x105B5, [0x1058E]); (0x105B6, [0x1058F]); (0x105B7, [0x10590]);
   (0x105B8, [0x10591]); (0x105B9, [0x10592]); (0x105BB, [0x10594]); (0x105BC, [0x10595]);
   (0x10CC0, [0x10C80]); (0x10CC1, [0x10C81]); (0x10CC2, [0x10C82]); (0x10CC3, [0x10C83]);
   (0x10CC4, [0x10C84]); (0x10CC5, [0x10C85]); (0x10CC6, [0x10C86]); (0x10CC7, [0x10C87]);
   (0x10CC8, [0x10C88]); (0x10CC9, [0x10C89]); (0x10CCA, [0x10C8A]); (0x10CCB, [0x10C8B]);
   (0x10CCC, [0x10C8C]); (0x10CCD, [0x10C8D]); (0x10CCE, [0x10C8E]); (0x10CCF, [0x10C8F]);
   (0x10CD0, [0x10C90]); (0x10CD1, [0x10C91]); (0x10CD2, [0x10C92]); (0x10CD3, [0x10C93]);
   (0x10CD4, [0x10C94]); (0x10CD5, [0x10C95]); (0x10CD6, [0x10C96]); (0x10CD7, [0x10C97]);
   (0x10CD8, [0x10C98]); (0x10CD9, [0x10C99]); (0x10CDA, [0x10C9A]); (0x10CDB, [0x10C9B]);
   (0x10CDC, [0x10C9C]); (0x10CDD, [0x10C9D]); (0x10CDE, [0x10C9E]); (0x10CDF, [0x10C9F]);
   (0x10CE0, [0x10CA0]); (0x10CE1, [0x10CA1]); (0x10CE2, [0x10CA2]); (0x10CE3, [0x10CA3]);
   (0x10CE4, [0x10CA4]); (0x10CE5, [0x10CA5]); (0x10CE6, [0x10CA6]); (0x10CE7, [0x10CA7]);
   (0x10CE8, [0x10CA8]); (0x10CE9, [0x10CA9]); (0x10CEA, [0x10CAA]); (0x10CEB, [0x10CAB]);
   (0x10CEC, [0x10CAC]); (0x10CED, [0x10CAD]); (0x10CEE, [0x10CAE]); (0x10CEF, [0x10CAF]);
   (0x10CF0, [0x10CB0]); (0x10CF1, [0x10CB1]); (0x10CF2, [0x10CB2]); (0x118C0, [0x118A0]);
   (0x118C1, [0x118A1]); (0x118C2, [0x118A2]); (0x118C3, [0x118A3]); (0x118C4, [0x118A4]);
   (0x118C5, [0x118A5]); (0x118C6, [0x118A6]); (0x118C7, [0x118A7]); (0x118C8, [0x118A8]);
   (0x118C9, [0x118A9]); (0x118CA, [0x118AA]); (0x118CB, [0x118AB]); (0x118CC, [0x118AC]);
   (0x118CD, [0x118AD]); (0x118CE, [0x118AE]); (0x118CF, [0x118AF]); (0x118D0, [0x118B0]);
   (0x118D1, [0x118B1]); (0x118D2, [0x118B2]); (0x118D3, [0x118B3]); (0x118D4, [0x118B4]);
   (0x118D5, [0x118B5]); (0x118D6, [0x118B6]); (0x118D7, [0x118B7]); (0x118D8, [0x118B8]);
   (0x118D9, [0x118B9]); (0x118DA, [0x118BA]); (0x118DB, [0x118BB]); (0x118DC, [0x118BC]);
   (0x118DD, [0x118BD]); (0x118DE, [0x118BE]); (0x118DF, [0x118BF]); (0x16E60, [0x16E40]);
   (0x16E61, [0x16E41]); (0x16E62, [0x16E42]); (0x16E63, [0x16E43]); (0x16E64, [0x16E44]);
   (0x16E65, [0x16E45]); (0x16E66, [0x16E46]); (0x16E67, [0x16E47]); (0x16E68, [0x16E48]);
   (0x16E69, [0x16E49]); (0x16E6A, [0x16E4A]); (0x16E6B, [0x16E4B]); (0x16E6C, [0x16E4C]);
   (0x16E6D, [0x16E4D]); (0x16E6E, [0x16E4E]); (0x16E6F, [0x16E4F]); (0x16E70, [0x16E50]);
   (0x16E71, [0x16E51]); (0x16E72, [0x16E52]); (0x16E73, [0x16E53]); (0x16E74, [0x16E54]);
   (0x16E75, [0x16E55]); (0x16E76, [0x16E56]); (0x16E77, [0x16E57]); (0x16E78, [0x16E58]);
   (0x16E79, [0x16E59]); (0x16E7A, [0x16E5A]); (0x16E7B, [0x16E5B]); (0x16E7C, [0x16E5C]);
   (0x16E7D, [0x16E5D]); (0x16E7E, [0x16E5E]); (0x16E7F, [0x16E5F]); (0x1E922, [0x1E900]);
   (0x1E923, [0x1E901]); (0x1E924, [0x1E902]); (0x1E925, [0x1E903]); (0x1E926, [0x1E904]);
   (0x1E927, [0x1E905]); (0x1E928, [0x1E906]); (0x1E929, [0x1E907]); (0x1E92A, [0x1E908]);
   (0x1E92B, [0x1E909]); (0x1E92C, [0x1E90A]); (0x1E92D, [0x1E90B]); (0x1E92E, [0x1E90C]);
   (0x1E92F, [0x1E90D]); (0x1E930, [0x1E90E]); (0x1E931, [0x1E90F]); (0x1E932, [0x1E910]);
   (0x1E933, [0x1E911]); (0x1E934, [0x1E912]); (0x1E935, [0x1E913]); (0x1E936, [0x1E914]);
   (0x1E937, [0x1E915]); (0x1E938, [0x1E916]); (0x1E939, [0x1E917]); (0x1E93A, [0x1E918]);
   (0x1E93B, [0x1E919]); (0x1E93C, [0x1E91A]); (0x1E93D, [0x1E91B]); (0x1E93E, [0x1E91C]);
   (0x1E93F, [0x1E91D]); (0x1E940, [0x1E91E]); (0x1E941, [0x1E91F]); (0x1E942, [0x1E920]);
   (0x1E943, [0x1E921])]%N.

Definition whitespace_table : list string :=
  Eval vm_compute in map utf8 whitespace_code_points.

Definition decimal_table : list (string * ascii) :=
  Eval vm_compute in
    flat_map (fun zero =>
                map (fun d => (utf8 (zero + N.of_nat d), ascii_of_nat (48 + d)))
                    (seq 0 10))
             decimal_zero_code_points.

Definition uppercase_table : list (string * string) :=
  Eval vm_compute in
    map (fun e => (utf8 (fst e), join (map utf8 (snd e)))) uppercase_code_points.

(** [str.isspace()] of one character. *)
Definition isspace (t : string) : bool :=
  existsb (String.eqb t) whitespace_table.

(** The ASCII digit with the decimal value of the character [t]. *)
Definition decimal_digit (t : string) : option ascii :=
  option_map snd (find (fun e => String.eqb (fst e) t) decimal_table).

(** [str.upper()] of one character. *)
Definition to_upper (t : string) : string :=
  match find (fun e => String.eqb (fst e) t) uppercase_table with
  | Some e => snd e
  | None => t
  end.

(** *** The methods *)

(** [str.upper()]. *)
Definition upper (s : string) : string := join (map to_upper (chars s)).

Fixpoint lstrip_chars (l : list string) : list string :=
  match l with
  | [] => []
  | t :: r => if isspace t then lstrip_chars r else l
  end.

Fixpoint rstrip_chars (l : list string) : list string :=
  match l with
  | [] => []
  | t :: r =>
      match rstrip_chars r with
      | [] => if isspace t then [] else [t]
      | r' => t :: r'
      end
  end.

(** [str.strip()]: the white space at both ends goes. *)
Definition strip (s : string) : string :=
  join (rstrip_chars (lstrip_chars (chars s))).

(** [s.endswith(suffix)]. *)
Definition endswith (s suffix : string) : bool :=
  let n := String.length s in
  let m := String.length suffix in
  (m <=? n)%nat && String.eqb (substring (n - m) m s) suffix.

(** The slice [s[:-1]] of a text whose last character is one byte; the
    program takes it of a text that ends with "d" or with "h". *)
Definition drop_last (s : string) : string :=
  substring 0 (String.length s - 1) s.

(** ** [int(text)] *)

(** The default of [sys.get_int_max_str_digits()]. *)
Definition int_max_str_digits : nat := 4300.

Section Strip.
Variable space : ascii -> bool.

Fixpoint lstrip_with (s : string) : string :=
  match s with
  | EmptyString => EmptyString
  | String c r => if space c then lstrip_with r else s
  end.

Fixpoint rstrip_with (s : string) : string :=
  match s with
  | EmptyString => EmptyString
  | String c r =>
      match rstrip_with r with
      | EmptyString => if space c then EmptyString else String c EmptyString
      | r' => String c r'
      end
  end.

Definition strip_with (s : string) : string := rstrip_with (lstrip_with s).
End Strip.

(** The digits of a literal's body: it starts and ends with a digit, and a
    single underscore may separate two digits.  [prev_digit] tells whether
    the character before was a digit. *)
Fixpoint literal_digits (prev_digit : bool) (s : string) : option string :=
  match s with
  | EmptyString => if prev_digit then Some EmptyString else None
  | String c r =>
      if Ascii.eqb c "_" then
        if prev_digit then literal_digits false r else None
      else if is_digit c then option_map (String c) (literal_digits true r)
      else None
  end.

Definition split_sign (s : string) : bool * string :=
  match s with
  | String c r =>
      if Ascii.eqb c "-" then (true, r)
      else if Ascii.eqb c "+" then (false, r)
      else (false, s)
  | EmptyString => (false, s)
  end.

(** The base-10 literal in the ASCII text [s]: surrounding white space is
    skipped, one sign is allowed, then decimal digits; a text with more than
    [int_max_str_digits] digits is refused. *)
Definition long_from_string (s : string) : result Z :=
  let (negative, body) := split_sign (strip_with is_literal_space s) in
  match literal_digits false body with
  | None => Raise ValueError
  | Some ds =>
      match NilEmpty.uint_of_string ds with
      | None => Raise ValueError
      | Some u =>
          if (int_max_str_digits <? Decimal.nb_digits u)%nat then Raise ValueError
          else Ok (if negative then - Z.of_uint u else Z.of_uint u)
      end
  end.

(** An ASCII character below DEL. *)
Definition is_plain (t : string) : bool :=
  match t with
  | String b EmptyString => ascii_in 0 126 b
  | _ => false
  end.

(** What [int()] makes of a text that is not all ASCII before it reads the
    literal: a character below DEL stays, white space becomes a space, a
    decimal digit of any script the ASCII digit of its value, and the text
    is cut off with a "?" at the first character that is none of these. *)
Fixpoint decimal_and_space_to_ascii (l : list string) : string :=
  match l with
  | [] => EmptyString
  | t :: r =>
      if is_plain t then (t ++ decimal_and_space_to_ascii r)%string
      else if isspace t then String " " (decimal_and_space_to_ascii r)
      else
        match decimal_digit t with
        | Some d => String d (decimal_and_space_to_ascii r)
        | None => "?"
        end
  end.

(** [int(s)] in base 10. *)
Definition py_int (s : string) : result Z :=
  long_from_string
    (if ascii_text s then s else decimal_and_space_to_ascii (chars s)).

(** ** The database *)

(** A row of [tasks].  [status] is TEXT, so any string can stand there;
    [snooze_until] is NULL ([None]) until a snooze writes it. *)
Record task : Type := mk_task {
  task_id : Z;
  description : string;
  status : string;
  snooze_until : option datetime;
  created_at : datetime
}.

(** A row of [weather_logs]. *)
Record weather_log : Type := mk_weather_log {
  log_id : Z;
  timestamp : datetime;
  temp : Q;
  condition_met : Z
}.

(** The committed database: both tables with their AUTOINCREMENT counters
    (the rows of [sqlite_sequence]). *)
Record db : Type := mk_db {
  tasks : list task;
  tasks_seq : Z;
  weather_logs : list weather_log;
  weather_logs_seq : Z
}.

(** The database after the idempotent schema script on a new file. *)
Definition empty_db : db := mk_db [] 0 [] 0.

(** AUTOINCREMENT: one more than the largest rowid the table ever held.
    Failures of the storage itself (no disk space, no rowid left) are not
    modelled. *)
Definition next_rowid (seq : Z) (ids : list Z) : Z :=
  1 + fold_right Z.max seq ids.

Definition set_tasks (s : db) (ts : list task) (seq : Z) : db :=
  mk_db ts seq (weather_logs s) (weather_logs_seq s).

Definition set_weather_logs (s : db) (ls : list weather_log) (seq : Z) : db :=
  mk_db (tasks s) (tasks_seq s) ls seq.

(** ** Operations thread the database and may raise *)

Definition M (A : Type) : Type := db -> result A * db.

Definition ret {A} (a : A) : M A := fun s => (Ok a, s).

Definition bind {A B} (m : M A) (k : A -> M B) : M B :=
  fun s =>
    match m s with
    | (Ok a, s') => k a s'
    | (Raise e, s') => (Raise e, s')
    end.

Definition lift {A} (r : result A) : M A := fun s => (r, s).

Declare Scope db_scope.
Delimit Scope db_scope with db.
Notation "x <- m ;; k" := (bind m (fun x => k))
  (at level 100, m at next level, right associativity) : db_scope.
Local Open Scope db_scope.

(** ** The SQL statements *)

Definition Qltb (a b : Q) : bool :=
  (Qnum a * QDen b <? Qnum b * QDen a)%Z.

(** sqlite3 binds a Python int as a 64-bit INTEGER and raises
    [OverflowError] when it does not fit. *)
Definition sqlite_bind_int (n : Z) : result Z :=
  if (- 2 ^ 63 <=? n) && (n <? 2 ^ 63) then Ok n else Raise OverflowError.

(** [INSERT INTO weather_logs (temp) VALUES (?)]: [id] is assigned,
    [timestamp] defaults to CURRENT_TIMESTAMP (the reading [utc_now] of the
    database clock) and [condition_met] to 0. *)
Definition insert_weather_log (utc_now : datetime) (t : Q) : M unit :=
  fun s =>
    let id := next_rowid (weather_logs_seq s) (map log_id (weather_logs s)) in
    (Ok tt, set_weather_logs s (weather_logs s ++ [mk_weather_log id utc_now t 0]) id).

(** The WHERE clause [temp > ? AND timestamp > ?]. *)
Definition warm_since (threshold : Q) (since : datetime) (r : weather_log) : bool :=
  Qltb threshold (temp r) && (since <? timestamp r).

(** [SELECT COUNT( * ) FROM weather_logs WHERE temp > ? AND timestamp > ?]. *)
Definition count_since (threshold : Q) (since : datetime) : M Z :=
  fun s => (Ok (Z.of_nat (List.length (filter (warm_since threshold since) (weather_logs s)))), s).

(** [INSERT INTO tasks (description) VALUES (?) RETURNING id]: [status]
    defaults to 'pending', [snooze_until] to NULL, [created_at] to
    CURRENT_TIMESTAMP. *)
Definition insert_task (utc_now : datetime) (d : string) : M Z :=
  fun s =>
    let id := next_rowid (tasks_seq s) (map task_id (tasks s)) in
    (Ok id, set_tasks s (tasks s ++ [mk_task id d "pending" None utc_now]) id).

(** [SELECT description FROM tasks WHERE id=?] followed by [fetchone()]. *)
Definition select_description (id : Z) : M (option string) :=
  id' <- lift (sqlite_bind_int id) ;;
  fun s => (Ok (option_map description (find (fun t => task_id t =? id') (tasks s))), s).

Definition snooze_row (until : datetime) (id : Z) (t : task) : task :=
  if task_id t =? id
  then mk_task (task_id t) (description t) "snoozed" (Some until) (created_at t)
  else t.

(** [UPDATE tasks SET status='snoozed', snooze_until=? WHERE id=?]. *)
Definition update_snooze (until : datetime) (id : Z) : M unit :=
  id' <- lift (sqlite_bind_int id) ;;
  fun s => (Ok tt, set_tasks s (map (snooze_row until id') (tasks s)) (tasks_seq s)).

Definition is_open (t : task) : bool :=
  String.eqb (status t) "pending" || String.eqb (status t) "snoozed".

(** ORDER BY created_at DESC: insertion into a list kept in descending
    order.  SQL leaves the order of rows with equal keys open; this sort
    keeps them in table order. *)
Fixpoint insert_desc (t : task) (l : list task) : list task :=
  match l with
  | [] => [t]
  | u :: r => if created_at u <=? created_at t then t :: l else u :: insert_desc t r
  end.

Definition order_by_created_at_desc (l : list task) : list task :=
  fold_right insert_desc [] l.

Definition report_row (t : task) : Z * string * string :=
  (task_id t, status t, description t).

(** [SELECT id, status, description FROM tasks
     WHERE status IN ('pending', 'snoozed')
     ORDER BY created_at DESC LIMIT n]. *)
Definition open_tasks (n : nat) (s : db) : list task :=
  firstn n (order_by_created_at_desc (filter is_open (tasks s))).

Definition list_open (n : nat) : M (list (Z * string * string)) :=
  fun s => (Ok (map report_row (open_tasks n s)), s).

(** ** The program *)

(** The settings read from the environment that the modelled code uses. *)
Record config : Type := mk_config {
  TEMP_THRESHOLD : Q;
  DURATION_CHECKS : Z
}.

(** What one run takes from outside: the temperature the weather API
    answers, the text [llm.invoke] returns, and the clock readings, in the
    order the run takes them ([utc_*] by CURRENT_TIMESTAMP in the database,
    [now_*] by [datetime.now()] in the process).  A world is one in which
    the API answered: [api_temp] is the number found at
    [resp["main"]["temp"]], one that a REAL holds as it is (any float, any
    integer up to 2^53). *)
Record world : Type := mk_world {
  api_temp : Q;
  llm_reply : string;
  utc_log : datetime;
  now_check : datetime;
  utc_task : datetime;
  now_snooze : datetime
}.

(** [get_weather()] from the point where the request has returned the
    temperature: the reading is logged, committed and returned.  A request
    that fails or an answer without a temperature ends the call before that
    point, with nothing written; such a call is not a [world]. *)
Definition get_weather (w : world) : M Q :=
  _ <- insert_weather_log (utc_log w) (api_temp w) ;;
  ret (api_temp w).

(** [check_sustained_warmth()]. *)
Definition check_sustained_warmth (cfg : config) (now : datetime) : M bool :=
  delta <- lift (timedelta_minutes (30 * DURATION_CHECKS cfg)) ;;
  since <- lift (datetime_sub now delta) ;;
  count <- count_since (TEMP_THRESHOLD cfg) since ;;
  ret (DURATION_CHECKS cfg <=? count).

(** [llm_reasoning or 'weather trigger']. *)
Definition or_default (s default : string) : string :=
  match s with
  | EmptyString => default
  | _ => s
  end.

(** [create_task(llm_reasoning)]. *)
Definition create_task (utc_now : datetime) (llm_reasoning : string) : M Z :=
  let description :=
    ("Test outside camera setup (reasoning: "
       ++ or_default llm_reasoning "weather trigger" ++ ")")%string in
  insert_task utc_now description.

(** [send_reminder(task_id)]: [fetchone()[0]] raises [TypeError] when no row
    has that id. *)
Definition send_reminder (id : Z) : M bool :=
  row <- select_description id ;;
  match row with
  | Some _ => ret true
  | None => lift (Raise TypeError)
  end.

(** The duration [snooze_task] derives from its text. *)
Definition snooze_delta (duration_str : string) : result timedelta :=
  if endswith duration_str "d" then
    result_bind (py_int (drop_last duration_str)) timedelta_days
  else if endswith duration_str "h" then
    result_bind (py_int (drop_last duration_str)) timedelta_hours
  else timedelta_days 1.

(** [snooze_task(task_id, duration_str)]. *)
Definition snooze_task (now : datetime) (id : Z) (duration_str : string) : M unit :=
  delta <- lift (snooze_delta duration_str) ;;
  until <- lift (datetime_add now delta) ;;
  update_snooze until id.

(** The test on the model's answer:
    ["Y" in reasoning.upper() or "YES" in reasoning.upper()]. *)
Definition affirmed (reasoning : string) : bool :=
  contains "Y" (upper reasoning) || contains "YES" (upper reasoning).

(** The [check] branch of the script; its value is the list it prints. *)
Definition run_check (cfg : config) (w : world) : M (list (Z * string * string)) :=
  _ <- get_weather w ;;
  met <- check_sustained_warmth cfg (now_check w) ;;
  _ <- (if met then
          let reasoning := strip (llm_reply w) in
          if affirmed reasoning then
            id <- create_task (utc_task w) reasoning ;;
            _ <- send_reminder id ;;
            ret tt
          else ret tt
        else ret tt) ;;
  list_open 5.

(** The parsed command line. *)
Inductive mode : Type := Check | Snooze.

Record args : Type := mk_args {
  arg_mode : mode;
  arg_task_id : option Z;
  arg_duration : option string
}.

(** What the final [if]/[elif] selects.  [args.task_id] is false when it is
    [None] or 0, [args.duration] when it is [None] or empty. *)
Inductive action : Type :=
| RunCheck
| RunSnooze (id : Z) (duration_str : string)
| RunNothing.

Definition dispatch (a : args) : action :=
  match arg_mode a with
  | Check => RunCheck
  | Snooze =>
      match arg_task_id a, arg_duration a with
      | Some id, Some d =>
          if negb (id =? 0) && negb (String.eqb d "") then RunSnooze id d
          else RunNothing
      | _, _ => RunNothing
      end
  end.

Definition main (cfg : config) (w : world) (a : args) : M unit :=
  match dispatch a with
  | RunCheck => _ <- run_check cfg w ;; ret tt
  | RunSnooze id d => snooze_task (now_snooze w) id d
  | RunNothing => ret tt
  end.

(** ** Notions of the specification *)

(** The number of observations with value strictly greater than [threshold]
    and timestamp strictly greater than [since], by the propositions
    themselves. *)
Fixpoint qualifying_count (threshold : Q) (since : datetime) (l : list weather_log) : Z :=
  match l with
  | [] => 0
  | r :: l' =>
      (if Qlt_le_dec threshold (temp r)
       then if Z_lt_dec since (timestamp r) then 1 else 0
       else 0)
      + qualifying_count threshold since l'
  end.

(** The instant [now] minus 30 minutes times [required_count], as a number:
    it need not be a [datetime] Python can represent. *)
Definition window_start (now : datetime) (required_count : Z) : Z :=
  now - 30 * required_count * us_per_minute.

(** A reading of [value] logged at [at_time]. *)
Definition reading (id : Z) (at_time : datetime) (value : Q) : weather_log :=
  mk_weather_log id at_time value 0.

(** Noon of 2026-11-04, a reading of [datetime.now()]. *)
Definition noon_2026_11_04 : datetime :=
  (739924 - 1) * us_per_day + 12 * us_per_hour.

(** A setting of DURATION_CHECKS whose window reaches back 57 centuries. *)
Definition wide_config : config := mk_config 50 100000000.

(** [n] readings of 60 degrees, one per second from [from] on, with the ids
    1 to [n]. *)
Definition warm_rows (from : datetime) (n : nat) : list weather_log :=
  map (fun i => reading (Z.of_nat i) (from + Z.of_nat i * us_per_second) 60)
      (seq 1 n).

(** A log of 10^8 warm readings, the last one at [noon_2026_11_04]. *)
Definition wide_store : db :=
  mk_db [] 0
        (warm_rows (noon_2026_11_04 - 100000000 * us_per_second) (Z.to_nat 100000000))
        100000000.

(** [sub] occurs in [s]: some text before it and some text after it make up
    [s]. *)
Definition Substring (sub s : string) : Prop :=
  exists pre post : string, s = (pre ++ sub ++ post)%string.

(** The small y with a ring above, U+1E99, whose uppercase is "Y" followed
    by the combining ring. *)
Definition y_with_ring_above : string := Eval vm_compute in utf8 0x1E99.

(** The no-break space, U+00A0, and the Arabic-Indic digit three, U+0663. *)
Definition no_break_space : string := Eval vm_compute in utf8 0xA0.
Definition arabic_indic_three : string := Eval vm_compute in utf8 0x663.

(** The characters whose uppercase holds "Y". *)
Definition affirming (t : string) : bool :=
  String.eqb t "y" || String.eqb t "Y" || String.eqb t y_with_ring_above.

(** One character: a first byte and the continuation bytes it took. *)
Definition one_char (t : string) : Prop :=
  exists b r, t = String b r
              /\ mentions (fun c => negb (is_continuation c)) r = false
              /\ (trail_length b = 0%nat -> r = "").

(** The description [create_task] gives a task. *)
Definition task_description (llm_reasoning : string) : string :=
  ("Test outside camera setup (reasoning: "
     ++ or_default llm_reasoning "weather trigger" ++ ")")%string.

(** The row a new task gets in [s]. *)
Definition new_task (s : db) (utc_now : datetime) (llm_reasoning : string) : task :=
  mk_task (next_rowid (tasks_seq s) (map task_id (tasks s)))
          (task_description llm_reasoning) "pending" None utc_now.

(** The scenario of the specification: threshold 50, four checks. *)
Definition scenario_config : config := mk_config 50 4.

(** Three warm readings of the last forty minutes before [noon_2026_11_04]. *)
Definition scenario_store : db :=
  mk_db [] 0
        [reading 1 (noon_2026_11_04 - 40 * us_per_minute) 52;
         reading 2 (noon_2026_11_04 - 30 * us_per_minute) 55;
         reading 3 (noon_2026_11_04 - 20 * us_per_minute) 60]
        3.

(** A run at noon that reads 65 degrees and whose model answers [reply];
    the database clock is ten seconds behind. *)
Definition scenario_world (reply : string) : world :=
  mk_world 65 reply
           (noon_2026_11_04 - 10 * us_per_second) noon_2026_11_04
           (noon_2026_11_04 - 5 * us_per_second) noon_2026_11_04.

(** A database with one pending task, created at [noon_2026_11_04]. *)
Definition one_task_store : db :=
  mk_db [mk_task 1 "Test outside camera setup (reasoning: Yes, test it)" "pending" None
                 noon_2026_11_04]
        1 [] 0.

(** Some row of [tasks] has the identifier [id]. *)
Definition task_exists (id : Z) (s : db) : Prop :=
  exists t, In t (tasks s) /\ task_id t = id.

(** [id] fits SQLite's 64-bit INTEGER, as every rowid does. *)
Definition fits_int64 (id : Z) : Prop := - 2 ^ 63 <= id < 2 ^ 63.

(** What a snooze of [id] may do to a row: nothing unless the row has that
    identifier, and then only to [status] and [snooze_until]. *)
Definition only_snooze_fields_differ (id : Z) (t t' : task) : Prop :=
  task_id t' = task_id t
  /\ description t' = description t
  /\ created_at t' = created_at t
  /\ (task_id t <> id -> t' = t).

(** Most recently created first: no row is followed by a newer one. *)
Definition newest_first (l : list task) : Prop :=
  StronglySorted (fun a b => created_at b <= created_at a) l.

(** The status of [t] is "pending" or "snoozed". *)
Definition open_status (t : task) : Prop :=
  status t = "pending" \/ status t = "snoozed".

(** The operations in scope: the functions of the script, its [check]
    branch, and the whole script on a parsed command line. *)
Inductive operation : Type :=
| OpGetWeather (w : world)
| OpCheckSustainedWarmth (cfg : config) (now : datetime)
| OpCreateTask (utc_now : datetime) (llm_reasoning : string)
| OpSendReminder (id : Z)
| OpSnoozeTask (now : datetime) (id : Z) (duration_str : string)
| OpListOpen (n : nat)
| OpRunCheck (cfg : config) (w : world)
| OpMain (cfg : config) (w : world) (a : args).

(** The database an operation leaves, whether it returns or raises. *)
Definition perform (o : operation) (s : db) : db :=
  match o with
  | OpGetWeather w => snd (get_weather w s)
  | OpCheckSustainedWarmth cfg now => snd (check_sustained_warmth cfg now s)
  | OpCreateTask utc_now llm_reasoning => snd (create_task utc_now llm_reasoning s)
  | OpSendReminder id => snd (send_reminder id s)
  | OpSnoozeTask now id duration_str => snd (snooze_task now id duration_str s)
  | OpListOpen n => snd (list_open n s)
  | OpRunCheck cfg w => snd (run_check cfg w s)
  | OpMain cfg w a => snd (main cfg w a s)
  end.

(** The operations that reach [snooze_task]. *)
Definition snoozes (o : operation) : bool :=
  match o with
  | OpSnoozeTask _ _ _ => true
  | OpMain _ _ a =>
      match dispatch a with
      | RunSnooze _ _ => true
      | _ => false
      end
  | _ => false
  end.

(** The databases the program can produce from an empty one. *)
Inductive reachable : db -> Prop :=
| reachable_empty : reachable empty_db
| reachable_step (o : operation) (s : db) : reachable s -> reachable (perform o s).

(** Snooze-until is set if and only if the status is "snoozed". *)
Definition snooze_consistent (t : task) : Prop :=
  snooze_until t <> None <-> status t = "snoozed".

Definition tasks_consistent (s : db) : Prop :=
  Forall snooze_consistent (tasks s).

(** A row as [create_task] writes it. *)
Definition fresh_task (t : task) : Prop :=
  status t = "pending" /\ snooze_until t = None.

(** A row after a snooze: untouched, or snoozed with a deadline. *)
Definition same_or_snoozed (t t' : task) : Prop :=
  t' = t \/ (status t' = "snoozed" /\ exists until, snooze_until t' = Some until).

(** The condition-met flag of an observation is 0. *)
Definition flag_unset (r : weather_log) : Prop := condition_met r = 0.

(** Eight tasks created on the eight days before [noon_2026_11_04], two of
    them with a status that is neither "pending" nor "snoozed". *)
Definition busy_store : db :=
  mk_db [mk_task 1 "a" "pending" None (noon_2026_11_04 - 7 * us_per_day);
         mk_task 2 "b" "done" None (noon_2026_11_04 - 6 * us_per_day);
         mk_task 3 "c" "snoozed" (Some noon_2026_11_04) (noon_2026_11_04 - 5 * us_per_day);
         mk_task 4 "d" "pending" None (noon_2026_11_04 - 4 * us_per_day);
         mk_task 5 "e" "pending" None (noon_2026_11_04 - 3 * us_per_day);
         mk_task 6 "f" "resolved" None (noon_2026_11_04 - 2 * us_per_day);
         mk_task 7 "g" "pending" None (noon_2026_11_04 - 1 * us_per_day);
         mk_task 8 "h" "snoozed" (Some noon_2026_11_04) (noon_2026_11_04 - 8 * us_per_day)]
        8 [] 0.

(** The three statements of the script that write: the INSERT of each table
    and the UPDATE. *)
Inductive write (s : db) : db -> Prop :=
| write_log (utc_now : datetime) (t : Q) :
    write s (snd (insert_weather_log utc_now t s))
| write_task (utc_now : datetime) (d : string) :
    write s (snd (insert_task utc_now d s))
| write_snooze (until : datetime) (id : Z) :
    write s (set_tasks s (map (snooze_row until id) (tasks s)) (tasks_seq s)).

(** Any number of writes, one after the other. *)
Inductive writes : db -> db -> Prop :=
| writes_none (s : db) : writes s s
| writes_more (s s1 s2 : db) : write s s1 -> writes s1 s2 -> writes s s2.

(** The rowids [ids] of a table, in table order, are 1, 2, ..., n and the
    AUTOINCREMENT counter stands at n. *)
Definition counts_from_one (ids : list Z) (counter : Z) : Prop :=
  ids = map Z.of_nat (seq 1 (List.length ids))
  /\ counter = Z.of_nat (List.length ids).

Definition rowids_in_sequence (s : db) : Prop :=
  counts_from_one (map task_id (tasks s)) (tasks_seq s)
  /\ counts_from_one (map log_id (weather_logs s)) (weather_logs_seq s).

(** The number of readings above [threshold] in a log, whenever taken. *)
Definition warm_readings (threshold : Q) (l : list weather_log) : nat :=
  List.length (filter (fun r => Qltb threshold (temp r)) l).

(** An ASCII character no integer literal can hold: neither a digit, an
    underscore, a sign, nor white space that [int()] skips. *)
Definition foreign_to_int (c : ascii) : bool :=
  ascii_in 0 127 c
  && negb (is_digit c || Ascii.eqb c "_" || Ascii.eqb c "+" || Ascii.eqb c "-"
           || is_literal_space c).

(** What no operation changes in a task that exists, and the one status
    that is never left. *)
Definition same_task_still_snoozed (t t' : task) : Prop :=
  task_id t' = task_id t
  /\ description t' = description t
  /\ created_at t' = created_at t
  /\ (status t = "snoozed" -> status t' = "snoozed").

(** ** The [check] branch with its MLflow calls *)

(** The value of a logged parameter: LOCATION is a string, the threshold a
    float, the number of checks an int. *)
Inductive param_value : Type :=
| PStr (s : string)
| PReal (q : Q)
| PInt (z : Z).

(** One call to MLflow: [mlflow.log_param(key, value)],
    [mlflow.log_metric(key, value)], [mlflow.log_text(text, artifact_file)],
    with the arguments in the order of the call. *)
Inductive logged : Type :=
| log_param (key : string) (value : param_value)
| log_metric (key : string) (value : Q)
| log_text (text artifact_file : string).

(** Operations that also append to the list of MLflow calls made so far;
    the calls made before an exception are kept. *)
Definition L (A : Type) : Type :=
  db -> list logged -> result A * db * list logged.

Definition bindL {A B} (m : L A) (k : A -> L B) : L B :=
  fun s calls =>
    match m s calls with
    | (Ok a, s', calls') => k a s' calls'
    | (Raise e, s', calls') => (Raise e, s', calls')
    end.

Definition run_db {A} (m : M A) : L A :=
  fun s calls => let (r, s') := m s in (r, s', calls).

Definition emit (e : logged) : L unit :=
  fun s calls => (Ok tt, s, calls ++ [e]).

Declare Scope log_scope.
Delimit Scope log_scope with log.
Notation "x <-- m ;; k" := (bindL m (fun x => k))
  (at level 100, m at next level, right associativity) : log_scope.

(** The [check] branch of the script, line by line, inside
    [mlflow.start_run]; [location] is the setting LOCATION. *)
Definition run_check_logged (location : string) (cfg : config) (w : world)
  : L (list (Z * string * string)) :=
  (_ <-- emit (log_param "location" (PStr location)) ;;
   _ <-- emit (log_param "temp_threshold" (PReal (TEMP_THRESHOLD cfg))) ;;
   _ <-- emit (log_param "duration_checks" (PInt (DURATION_CHECKS cfg))) ;;
   temp <-- run_db (get_weather w) ;;
   _ <-- emit (log_metric "current_temp" temp) ;;
   met <-- run_db (check_sustained_warmth cfg (now_check w)) ;;
   _ <-- (if met then
            let reasoning := strip (llm_reply w) in
            _ <-- emit (log_text "llm_reasoning" reasoning) ;;
            if affirmed reasoning then
              id <-- run_db (create_task (utc_task w) reasoning) ;;
              _ <-- run_db (send_reminder id) ;;
              _ <-- emit (log_metric "tasks_created" 1) ;;
              emit (log_metric "reminders_sent" 1)
            else emit (log_metric "tasks_created" 0)
          else emit (log_metric "tasks_created" 0)) ;;
   run_db (list_open 5))%log.

(** The values logged under the metric [key], in the order of the calls. *)
Fixpoint metric_values (key : string) (calls : list logged) : list Q :=
  match calls with
  | [] => []
  | log_metric k v :: rest =>
      if String.eqb k key then v :: metric_values key rest
      else metric_values key rest
  | _ :: rest => metric_values key rest
  end.

(** * Properties *)

(** ** The monad *)

Lemma bind_ok {A B} (m : M A) (k : A -> M B) s a s' :
  m s = (Ok a, s') -> bind m k s = k a s'.
Proof. unfold bind; intros ->; reflexivity. Qed.

Lemma bind_raise {A B} (m : M A) (k : A -> M B) s e s' :
  m s = (Raise e, s') -> bind m k s = (Raise e, s').
Proof. unfold bind; intros ->; reflexivity. Qed.

(** The state after [bind m k] when [k] only reads. *)
Lemma snd_bind_reader {A B} (m : M A) (k : A -> M B) s :
  (forall a s', snd (k a s') = s') -> snd (bind m k s) = snd (m s).
Proof.
  intros Hk. unfold bind. destruct (m s) as [[a|e] s']; [apply Hk|reflexivity].
Qed.

(** The state after [bind m k] when [m] only reads. *)
Lemma snd_bind_after_reader {A B} (m : M A) (k : A -> M B) s :
  snd (m s) = s ->
  snd (bind m k s) = match fst (m s) with
                     | Ok a => snd (k a s)
                     | Raise _ => s
                     end.
Proof.
  intros Hm. unfold bind. destruct (m s) as [[a|e] s']; cbn in *; subst; reflexivity.
Qed.

(** ** Comparisons *)

Lemma Qltb_lt (a b : Q) : Qltb a b = true <-> (a < b)%Q.
Proof. unfold Qltb, Qlt. apply Z.ltb_lt. Qed.

Lemma warm_since_true threshold since r :
  warm_since threshold since r = true <->
  (threshold < temp r)%Q /\ since < timestamp r.
Proof.
  unfold warm_since. rewrite andb_true_iff, Qltb_lt, Z.ltb_lt. reflexivity.
Qed.

(** ** The count of the window *)

Lemma filter_count_qualifying threshold since l :
  Z.of_nat (List.length (filter (warm_since threshold since) l))
  = qualifying_count threshold since l.
Proof.
  induction l as [|r l IH]; [reflexivity|].
  cbn [filter qualifying_count].
  destruct (warm_since threshold since r) eqn:E.
  - apply warm_since_true in E as [Ht Hs].
    destruct (Qlt_le_dec threshold (temp r)) as [_|Hle];
      [|exfalso; exact (Qlt_not_le _ _ Ht Hle)].
    destruct (Z_lt_dec since (timestamp r)); [|lia].
    cbn [List.length]. lia.
  - destruct (Qlt_le_dec threshold (temp r)) as [Ht|_]; [|lia].
    destruct (Z_lt_dec since (timestamp r)) as [Hs|_]; [|lia].
    assert (warm_since threshold since r = true) as E'
      by (apply warm_since_true; split; assumption).
    congruence.
Qed.

Lemma qualifying_count_app threshold since l1 l2 :
  qualifying_count threshold since (l1 ++ l2)
  = qualifying_count threshold since l1 + qualifying_count threshold since l2.
Proof.
  induction l1 as [|r l1 IH]; cbn [app qualifying_count]; [reflexivity|].
  rewrite IH. lia.
Qed.

(** A row at or before [since] counts for nothing, whatever its value. *)
Lemma qualifying_count_old_row threshold since r :
  timestamp r <= since -> qualifying_count threshold since [r] = 0.
Proof.
  intros H. cbn [qualifying_count].
  destruct (Qlt_le_dec threshold (temp r)); [destruct (Z_lt_dec since (timestamp r))|]; lia.
Qed.

(** A row at or below [threshold] counts for nothing, whenever it was
    written. *)
Lemma qualifying_count_cool_row threshold since r :
  (temp r <= threshold)%Q -> qualifying_count threshold since [r] = 0.
Proof.
  intros H. cbn [qualifying_count].
  destruct (Qlt_le_dec threshold (temp r)) as [Hlt|_]; [|lia].
  exfalso; exact (Qlt_not_le _ _ Hlt H).
Qed.

Lemma qualifying_count_warm_row threshold since r :
  (threshold < temp r)%Q -> since < timestamp r ->
  qualifying_count threshold since [r] = 1.
Proof.
  intros Ht Hs. cbn [qualifying_count].
  destruct (Qlt_le_dec threshold (temp r)) as [_|Hle];
    [|exfalso; exact (Qlt_not_le _ _ Ht Hle)].
  destruct (Z_lt_dec since (timestamp r)); lia.
Qed.

Lemma qualifying_count_all_old threshold since l :
  Forall (fun r => timestamp r <= since) l -> qualifying_count threshold since l = 0.
Proof.
  induction 1 as [|r l Hr _ IH]; [reflexivity|].
  change (r :: l) with ([r] ++ l).
  rewrite qualifying_count_app, IH, qualifying_count_old_row by assumption. reflexivity.
Qed.

(** C5: [count_since] returns the number of rows with value strictly above
    the threshold and timestamp strictly after [since], and leaves the
    database as it is; a row whose timestamp is at or before [since] adds
    nothing to the count whatever its value, and a row whose value equals
    the threshold adds nothing whatever its timestamp: the count is the same
    with the row as without it. *)
Theorem count_since_counts_warm_rows_after_since :
  forall (threshold : Q) (since : datetime) (s : db),
    count_since threshold since s
    = (Ok (qualifying_count threshold since (weather_logs s)), s)
    /\ (forall l1 r l2 seq,
          timestamp r <= since ->
          fst (count_since threshold since (set_weather_logs s (l1 ++ r :: l2) seq))
          = fst (count_since threshold since (set_weather_logs s (l1 ++ l2) seq)))
    /\ (forall l1 r l2 seq,
          (temp r == threshold)%Q ->
          fst (count_since threshold since (set_weather_logs s (l1 ++ r :: l2) seq))
          = fst (count_since threshold since (set_weather_logs s (l1 ++ l2) seq))).
Proof.
  intros threshold since s.
  assert (forall s', count_since threshold since s'
          = (Ok (qualifying_count threshold since (weather_logs s')), s')) as Hc.
  { intros s'. unfold count_since. rewrite filter_count_qualifying. reflexivity. }
  split; [apply Hc|].
  split; intros l1 r l2 seq Hr; rewrite !Hc; cbn [fst set_weather_logs weather_logs];
    f_equal; change (r :: l2) with ([r] ++ l2); rewrite !qualifying_count_app.
  - rewrite qualifying_count_old_row by assumption. lia.
  - rewrite qualifying_count_cool_row; [lia|]. rewrite Hr. apply Qle_refl.
Qed.

(** A reading of 99 degrees taken three hours before noon does not count
    for the two hours before noon. *)
Lemma count_since_counts_warm_rows_after_since_witness :
  fst (count_since 50 (noon_2026_11_04 - 2 * us_per_hour)
         (set_weather_logs scenario_store
            ([reading 1 (noon_2026_11_04 - 40 * us_per_minute) 52]
               ++ reading 9 (noon_2026_11_04 - 3 * us_per_hour) 99
               :: [reading 2 (noon_2026_11_04 - 30 * us_per_minute) 55]) 9))
  = fst (count_since 50 (noon_2026_11_04 - 2 * us_per_hour)
           (set_weather_logs scenario_store
              ([reading 1 (noon_2026_11_04 - 40 * us_per_minute) 52]
                 ++ [reading 2 (noon_2026_11_04 - 30 * us_per_minute) 55]) 9)).
Proof.
  apply (proj1 (proj2 (count_since_counts_warm_rows_after_since
                         50 (noon_2026_11_04 - 2 * us_per_hour) scenario_store))).
  discriminate.
Defined.

(** ** The sustained-warmth check *)

Lemma us_per_day_eq : us_per_day = 86400000000.
Proof. reflexivity. Qed.

Lemma us_per_minute_eq : us_per_minute = 60000000.
Proof. reflexivity. Qed.

Lemma datetime_end_eq : datetime_end = 315537897600000000.
Proof. reflexivity. Qed.

Lemma timedelta_in_range_iff us :
  timedelta_in_range us = true <->
  - MAX_DELTA_DAYS * us_per_day <= us < (MAX_DELTA_DAYS + 1) * us_per_day.
Proof.
  unfold timedelta_in_range.
  rewrite andb_true_iff, !Z.leb_le.
  assert (0 < us_per_day) as Hd by reflexivity.
  pose proof (Z.div_mod us us_per_day ltac:(lia)) as Hdm.
  pose proof (Z.mod_pos_bound us us_per_day Hd) as Hm.
  nia.
Qed.

Lemma timedelta_new_ok us :
  - MAX_DELTA_DAYS * us_per_day <= us < (MAX_DELTA_DAYS + 1) * us_per_day ->
  timedelta_new us = Ok us.
Proof.
  intros H. apply timedelta_in_range_iff in H.
  unfold timedelta_new. rewrite H. reflexivity.
Qed.

Lemma timedelta_new_cases us :
  timedelta_new us = Ok us \/ timedelta_new us = Raise OverflowError.
Proof. unfold timedelta_new. destruct (timedelta_in_range us); auto. Qed.

Lemma datetime_sub_ok t d :
  0 <= t - d < datetime_end -> datetime_sub t d = Ok (t - d).
Proof.
  intros [H1 H2]. unfold datetime_sub, datetime_in_range.
  apply Z.leb_le in H1. apply Z.ltb_lt in H2. rewrite H1, H2. reflexivity.
Qed.

Lemma datetime_sub_overflow t d :
  t - d < 0 \/ datetime_end <= t - d -> datetime_sub t d = Raise OverflowError.
Proof.
  intros H. unfold datetime_sub, datetime_in_range.
  destruct H as [H|H].
  - apply Z.leb_gt in H. rewrite H. reflexivity.
  - apply Z.ltb_ge in H. rewrite H, andb_false_r. reflexivity.
Qed.

Lemma datetime_add_ok t d :
  0 <= t + d < datetime_end -> datetime_add t d = Ok (t + d).
Proof.
  intros [H1 H2]. unfold datetime_add, datetime_in_range.
  apply Z.leb_le in H1. apply Z.ltb_lt in H2. rewrite H1, H2. reflexivity.
Qed.

Lemma datetime_add_overflow t d :
  t + d < 0 \/ datetime_end <= t + d -> datetime_add t d = Raise OverflowError.
Proof.
  intros H. unfold datetime_add, datetime_in_range.
  destruct H as [H|H].
  - apply Z.leb_gt in H. rewrite H. reflexivity.
  - apply Z.ltb_ge in H. rewrite H, andb_false_r. reflexivity.
Qed.

(** When the start of the window is an instant Python can represent, the
    check returns whether the window holds enough warm rows. *)
Lemma check_sustained_warmth_returns threshold required_count now s :
  0 < required_count -> now < datetime_end ->
  0 <= window_start now required_count ->
  check_sustained_warmth (mk_config threshold required_count) now s
  = (Ok (required_count <=?
         qualifying_count threshold (window_start now required_count) (weather_logs s)), s).
Proof.
  intros Hrc Hnow Hstart. unfold window_start in *.
  rewrite us_per_minute_eq, datetime_end_eq in *.
  unfold check_sustained_warmth, timedelta_minutes.
  cbn [DURATION_CHECKS TEMP_THRESHOLD].
  rewrite (bind_ok _ _ s (30 * required_count * us_per_minute) s).
  2:{ unfold lift. rewrite timedelta_new_ok; [reflexivity|].
      rewrite us_per_day_eq, us_per_minute_eq. unfold MAX_DELTA_DAYS. lia. }
  rewrite (bind_ok _ _ s (now - 30 * required_count * us_per_minute) s).
  2:{ unfold lift. rewrite datetime_sub_ok; [reflexivity|].
      rewrite us_per_minute_eq, datetime_end_eq. lia. }
  unfold bind, count_since, ret. rewrite filter_count_qualifying.
  rewrite us_per_minute_eq. reflexivity.
Qed.

(** When the start of the window lies before [datetime.min], the
    subtraction raises and the count is never taken. *)
Lemma check_sustained_warmth_raises threshold required_count now s :
  0 <= now < datetime_end ->
  window_start now required_count < 0 ->
  check_sustained_warmth (mk_config threshold required_count) now s
  = (Raise OverflowError, s).
Proof.
  intros Hnow Hstart. unfold window_start in *.
  rewrite us_per_minute_eq, datetime_end_eq in *.
  unfold check_sustained_warmth, timedelta_minutes.
  cbn [DURATION_CHECKS TEMP_THRESHOLD].
  destruct (timedelta_new_cases (30 * required_count * us_per_minute)) as [E|E].
  - rewrite (bind_ok _ _ s (30 * required_count * us_per_minute) s)
      by (unfold lift; rewrite E; reflexivity).
    apply bind_raise. unfold lift. rewrite datetime_sub_overflow; [reflexivity|].
    rewrite us_per_minute_eq. lia.
  - apply bind_raise. unfold lift. rewrite E. reflexivity.
Qed.

Lemma qualifying_count_all_warm threshold since l :
  Forall (fun r => (threshold < temp r)%Q /\ since < timestamp r) l ->
  qualifying_count threshold since l = Z.of_nat (List.length l).
Proof.
  induction 1 as [|r l [Ht Hs] _ IH]; [reflexivity|].
  change (r :: l) with ([r] ++ l).
  rewrite qualifying_count_app, IH, qualifying_count_warm_row by assumption.
  cbn [List.length app]. lia.
Qed.

Lemma qualifying_count_warm_rows threshold since from n :
  (threshold < 60)%Q -> since < from ->
  qualifying_count threshold since (warm_rows from n) = Z.of_nat n.
Proof.
  intros Ht Hs.
  rewrite qualifying_count_all_warm.
  - unfold warm_rows. rewrite length_map, length_seq. reflexivity.
  - unfold warm_rows. apply Forall_map, Forall_forall. intros i _.
    cbn [reading temp timestamp]. split; [assumption|].
    unfold us_per_second. lia.
Qed.

(** C1, as the code has it: whenever the start of the window, [now] minus
    30 minutes times [required_count], is an instant Python can represent
    (not before 0001-01-01), the check returns a boolean, true if and only
    if at least [required_count] rows have a value strictly above the
    threshold and a timestamp strictly after that start, and it leaves the
    database as it is; when the start lies before 0001-01-01 the check
    raises [OverflowError].  With threshold 50 and required count 4, the
    readings 52, 55, 60, 65 inside the two-hour window give true and the
    readings 52, 40, 60, 65 give false, whatever older rows the log holds. *)
Theorem check_sustained_warmth_counts_the_window :
  (forall s threshold required_count now,
      0 < required_count -> now < datetime_end ->
      0 <= window_start now required_count ->
      exists met,
        check_sustained_warmth (mk_config threshold required_count) now s = (Ok met, s)
        /\ (met = true <->
            required_count
            <= qualifying_count threshold (window_start now required_count)
                                (weather_logs s)))
  /\ (forall s threshold required_count now,
        0 <= now < datetime_end ->
        window_start now required_count < 0 ->
        check_sustained_warmth (mk_config threshold required_count) now s
        = (Raise OverflowError, s))
  /\ (forall s now old i1 i2 i3 i4 t1 t2 t3 t4,
        now < datetime_end -> 0 <= window_start now 4 ->
        Forall (fun r => timestamp r <= window_start now 4) old ->
        window_start now 4 < t1 -> window_start now 4 < t2 ->
        window_start now 4 < t3 -> window_start now 4 < t4 ->
        (weather_logs s
         = old ++ [reading i1 t1 52; reading i2 t2 55; reading i3 t3 60; reading i4 t4 65] ->
         check_sustained_warmth (mk_config 50 4) now s = (Ok true, s))
        /\ (weather_logs s
            = old ++ [reading i1 t1 52; reading i2 t2 40; reading i3 t3 60; reading i4 t4 65] ->
            check_sustained_warmth (mk_config 50 4) now s = (Ok false, s))).
Proof.
  split; [|split].
  - intros s threshold rc now Hrc Hnow Hstart.
    eexists. split; [apply check_sustained_warmth_returns; assumption|].
    apply Z.leb_le.
  - intros s threshold rc now Hnow Hstart.
    apply check_sustained_warmth_raises; assumption.
  - intros s now old i1 i2 i3 i4 t1 t2 t3 t4 Hnow Hstart Hold H1 H2 H3 H4.
    assert (forall v : Q, (50 < v)%Q -> forall i t, window_start now 4 < t ->
              qualifying_count 50 (window_start now 4) [reading i t v] = 1) as Hwarm.
    { intros v Hv i t Ht. apply qualifying_count_warm_row; assumption. }
    assert (qualifying_count 50 (window_start now 4) [reading i2 t2 40] = 0) as Hcool.
    { apply qualifying_count_cool_row. cbn [reading temp]. discriminate. }
    split; intros Hlogs;
      rewrite check_sustained_warmth_returns by (assumption || lia);
      rewrite Hlogs, qualifying_count_app, (qualifying_count_all_old _ _ old Hold).
    + change [reading i1 t1 52; reading i2 t2 55; reading i3 t3 60; reading i4 t4 65]
        with ([reading i1 t1 52] ++ [reading i2 t2 55] ++ [reading i3 t3 60]
                ++ [reading i4 t4 65]).
      rewrite !qualifying_count_app, !Hwarm by (assumption || reflexivity).
      reflexivity.
    + change [reading i1 t1 52; reading i2 t2 40; reading i3 t3 60; reading i4 t4 65]
        with ([reading i1 t1 52] ++ [reading i2 t2 40] ++ [reading i3 t3 60]
                ++ [reading i4 t4 65]).
      rewrite !qualifying_count_app, Hcool, !Hwarm by (assumption || reflexivity).
      reflexivity.
Qed.

(** The four readings of the scenario, taken at ten-minute steps up to
    [noon_2026_11_04], in an otherwise empty log. *)
Lemma check_sustained_warmth_counts_the_window_witness :
  check_sustained_warmth (mk_config 50 4) noon_2026_11_04
    (mk_db [] 0
       [reading 1 (noon_2026_11_04 - 40 * us_per_minute) 52;
        reading 2 (noon_2026_11_04 - 30 * us_per_minute) 55;
        reading 3 (noon_2026_11_04 - 20 * us_per_minute) 60;
        reading 4 (noon_2026_11_04 - 10 * us_per_minute) 65] 4)
  = (Ok true,
     mk_db [] 0
       [reading 1 (noon_2026_11_04 - 40 * us_per_minute) 52;
        reading 2 (noon_2026_11_04 - 30 * us_per_minute) 55;
        reading 3 (noon_2026_11_04 - 20 * us_per_minute) 60;
        reading 4 (noon_2026_11_04 - 10 * us_per_minute) 65] 4).
Proof.
  refine (proj1 (proj2 (proj2 check_sustained_warmth_counts_the_window)
                   _ noon_2026_11_04 [] 1 2 3 4
                   (noon_2026_11_04 - 40 * us_per_minute)
                   (noon_2026_11_04 - 30 * us_per_minute)
                   (noon_2026_11_04 - 20 * us_per_minute)
                   (noon_2026_11_04 - 10 * us_per_minute) _ _ _ _ _ _ _) _);
    try reflexivity; try discriminate.
  constructor.
Defined.

(** C1 as stated fails for a large required count: with
    DURATION_CHECKS = 10^8 the window would start before 0001-01-01, and
    the check raises [OverflowError] on every database.  On the empty log it
    raises where the claim has it return false; on a log of 10^8 warm
    readings, all after the start of the window, it raises where the claim
    has it return true. *)
Lemma check_sustained_warmth_wide_window_raises :
  0 < DURATION_CHECKS wide_config
  /\ qualifying_count (TEMP_THRESHOLD wide_config)
       (window_start noon_2026_11_04 (DURATION_CHECKS wide_config))
       (weather_logs empty_db)
     < DURATION_CHECKS wide_config
  /\ check_sustained_warmth wide_config noon_2026_11_04 empty_db
     = (Raise OverflowError, empty_db)
  /\ DURATION_CHECKS wide_config
     <= qualifying_count (TEMP_THRESHOLD wide_config)
          (window_start noon_2026_11_04 (DURATION_CHECKS wide_config))
          (weather_logs wide_store)
  /\ check_sustained_warmth wide_config noon_2026_11_04 wide_store
     = (Raise OverflowError, wide_store).
Proof.
  assert (0 <= noon_2026_11_04 < datetime_end) as Hnow by (split; [discriminate|reflexivity]).
  assert (window_start noon_2026_11_04 100000000 < 0) as Hstart by reflexivity.
  split; [reflexivity|]. split; [reflexivity|].
  split; [apply (check_sustained_warmth_raises 50 100000000); assumption|].
  split; [|apply (check_sustained_warmth_raises 50 100000000); assumption].
  unfold wide_store. cbn [weather_logs wide_config DURATION_CHECKS TEMP_THRESHOLD].
  rewrite qualifying_count_warm_rows.
  - rewrite Z2Nat.id; lia.
  - reflexivity.
  - reflexivity.
Qed.

(** ** Texts *)

Lemma prefix_empty (s : string) : prefix "" s = true.
Proof. destruct s; reflexivity. Qed.

Lemma prefix_iff (a s : string) :
  prefix a s = true <-> exists post, s = (a ++ post)%string.
Proof.
  revert a. induction s as [|c s IH]; intros [|x a]; cbn.
  - split; [exists ""; reflexivity|reflexivity].
  - split; [discriminate|intros [post H]; discriminate].
  - split; [exists (String c s); reflexivity|reflexivity].
  - destruct (ascii_dec x c) as [->|Hne].
    + rewrite IH. split; intros [post H]; exists post; congruence.
    + split; [discriminate|intros [post H]; congruence].
Qed.

(** [contains] decides [Substring]. *)
Lemma contains_iff (sub s : string) :
  contains sub s = true <-> Substring sub s.
Proof.
  unfold Substring. induction s as [|c s IH]; cbn [contains].
  - rewrite orb_false_r, prefix_iff. split.
    + intros [post H]. exists "", post. exact H.
    + intros [[|x pre] [post H]]; [exists post; exact H|discriminate].
  - rewrite orb_true_iff, prefix_iff, IH. split.
    + intros [[post H]|[pre [post H]]].
      * exists "", post. exact H.
      * exists (String c pre), post. cbn. rewrite H. reflexivity.
    + intros [[|x pre] [post H]].
      * left. exists post. exact H.
      * right. exists pre, post. cbn in H. congruence.
Qed.

Lemma contains_char (c : ascii) (s : string) :
  contains (String c "") s = mentions (Ascii.eqb c) s.
Proof.
  induction s as [|a s IH]; cbn; [reflexivity|].
  rewrite IH. destruct (ascii_dec c a) as [->|Hne].
  - rewrite prefix_empty, Ascii.eqb_refl. reflexivity.
  - apply Ascii.eqb_neq in Hne. rewrite Hne. reflexivity.
Qed.

Section StripKeeps.
Variables space p : ascii -> bool.
Hypothesis space_not_p : forall c, space c = true -> p c = false.

Lemma mentions_lstrip s : mentions p (lstrip_with space s) = mentions p s.
Proof.
  induction s as [|a s IH]; cbn; [reflexivity|].
  destruct (space a) eqn:E; [|reflexivity].
  rewrite IH, (space_not_p a E). reflexivity.
Qed.

Lemma mentions_rstrip s : mentions p (rstrip_with space s) = mentions p s.
Proof.
  induction s as [|a s IH]; cbn; [reflexivity|].
  rewrite <- IH. destruct (rstrip_with space s) as [|b r]; [|reflexivity].
  destruct (space a) eqn:E; cbn; [|reflexivity].
  rewrite (space_not_p a E). reflexivity.
Qed.

Lemma mentions_strip s : mentions p (strip_with space s) = mentions p s.
Proof. unfold strip_with. rewrite mentions_rstrip, mentions_lstrip. reflexivity. Qed.
End StripKeeps.

(** A text that shows "YES" shows "Y". *)
Lemma contains_YES_Y (s : string) :
  contains "YES" s = true -> contains "Y" s = true.
Proof.
  rewrite !contains_iff. intros [pre [post H]].
  exists pre, ("ES" ++ post)%string. exact H.
Qed.

(** *** Bytes and characters *)

Lemma append_empty_r (a : string) : (a ++ "")%string = a.
Proof. induction a as [|x a IH]; cbn; [reflexivity|]. rewrite IH. reflexivity. Qed.

Lemma append_assoc (a b c : string) : ((a ++ b) ++ c)%string = (a ++ (b ++ c))%string.
Proof. induction a as [|x a IH]; cbn; [reflexivity|]. rewrite IH. reflexivity. Qed.

Lemma mentions_append (p : ascii -> bool) (a b : string) :
  mentions p (a ++ b) = mentions p a || mentions p b.
Proof.
  induction a as [|x a IH]; cbn; [reflexivity|]. rewrite IH. apply orb_assoc.
Qed.

Lemma mentions_weaken (p q : ascii -> bool) (s : string) :
  (forall c, p c = true -> q c = true) ->
  mentions q s = false -> mentions p s = false.
Proof.
  intros Hpq. induction s as [|x s IH]; cbn; [reflexivity|].
  intros H. apply orb_false_iff in H as [Hx Hs]. rewrite (IH Hs), orb_false_r.
  destruct (p x) eqn:E; [|reflexivity]. rewrite (Hpq x E) in Hx. discriminate.
Qed.

Lemma mentions_witness (p : ascii -> bool) (s : string) :
  mentions p s = true -> exists c, p c = true /\ mentions (Ascii.eqb c) s = true.
Proof.
  induction s as [|x s IH]; cbn; [discriminate|].
  destruct (p x) eqn:E.
  - intros _. exists x. rewrite Ascii.eqb_refl. auto.
  - cbn. intros H. destruct (IH H) as [c [Hc Hin]].
    exists c. rewrite Hin, orb_true_r. auto.
Qed.

Lemma join_app (l1 l2 : list string) :
  join (l1 ++ l2) = (join l1 ++ join l2)%string.
Proof.
  induction l1 as [|t l1 IH]; cbn; [reflexivity|]. rewrite IH, append_assoc. reflexivity.
Qed.

Lemma mentions_join (p : ascii -> bool) (l : list string) :
  mentions p (join l) = existsb (mentions p) l.
Proof.
  induction l as [|t l IH]; cbn; [reflexivity|]. rewrite mentions_append, IH. reflexivity.
Qed.

Lemma join_singles (s : string) : join (singles s) = s.
Proof. induction s as [|x s IH]; cbn; [reflexivity|]. rewrite IH. reflexivity. Qed.

Lemma split_at_append (n : nat) (s : string) :
  (fst (split_at n s) ++ snd (split_at n s))%string = s.
Proof.
  revert s. induction n as [|n IH]; intros s; [reflexivity|].
  destruct s as [|x s]; cbn [split_at]; [reflexivity|].
  specialize (IH s). destruct (split_at n s) as [a c]. cbn in *. rewrite IH. reflexivity.
Qed.

Lemma join_attach (b : ascii) (following : string) :
  join (attach b following) = String b following.
Proof.
  unfold attach. destruct (trail_length b <=? String.length following)%nat.
  - pose proof (split_at_append (trail_length b) following) as H.
    destruct (split_at (trail_length b) following) as [taken left].
    cbn in *. rewrite join_singles, H. reflexivity.
  - cbn. rewrite join_singles. reflexivity.
Qed.

Lemma split_chars_join (s : string) :
  (fst (split_chars s) ++ join (snd (split_chars s)))%string = s.
Proof.
  induction s as [|b s IH]; cbn [split_chars]; [reflexivity|].
  destruct (split_chars s) as [following cs]. cbn [fst snd] in IH.
  destruct (is_continuation b); cbn [fst snd].
  - cbn. rewrite IH. reflexivity.
  - rewrite join_app, join_attach. cbn. rewrite IH. reflexivity.
Qed.

(** The characters of a text make up the text. *)
Lemma join_chars (s : string) : join (chars s) = s.
Proof.
  unfold chars. pose proof (split_chars_join s) as H.
  destruct (split_chars s) as [following cs]. cbn [fst snd] in H.
  rewrite join_app, join_singles. exact H.
Qed.

Lemma substring_of_member (t : string) (l : list string) :
  In t l -> Substring t (join l).
Proof.
  intros H. apply in_split in H as [l1 [l2 ->]].
  exists (join l1), (join l2). rewrite join_app. reflexivity.
Qed.

Lemma in_chars_substring (t s : string) : In t (chars s) -> Substring t s.
Proof. intros H. rewrite <- (join_chars s). apply substring_of_member, H. Qed.

Lemma substring_trans (a b c : string) : Substring a b -> Substring b c -> Substring a c.
Proof.
  intros [p1 [q1 ->]] [p2 [q2 ->]]. exists (p2 ++ p1)%string, (q1 ++ q2)%string.
  rewrite !append_assoc. reflexivity.
Qed.

Lemma continuation_not_ascii (b : ascii) :
  is_continuation b = true -> ascii_in 0 127 b = false.
Proof. destruct b as [[] [] [] [] [] [] [] []]; intros H; try reflexivity; discriminate H. Qed.

Lemma ascii_no_trail (b : ascii) : ascii_in 0 127 b = true -> trail_length b = 0%nat.
Proof. destruct b as [[] [] [] [] [] [] [] []]; intros H; try reflexivity; discriminate H. Qed.

Lemma split_chars_following (s : string) :
  mentions (fun c => negb (is_continuation c)) (fst (split_chars s)) = false.
Proof.
  induction s as [|b s IH]; cbn [split_chars]; [reflexivity|].
  destruct (split_chars s) as [following cs]. cbn [fst] in IH.
  destruct (is_continuation b) eqn:E; cbn [fst mentions]; [|reflexivity].
  rewrite E, IH. reflexivity.
Qed.

Lemma in_snd_split_chars (t : string) (s : string) :
  In t (snd (split_chars s)) -> In t (chars s).
Proof.
  unfold chars. destruct (split_chars s) as [following cs]. cbn [snd].
  intros H. apply in_or_app. right. exact H.
Qed.

Lemma in_split_chars_later (t pre s : string) :
  In t (snd (split_chars s)) -> In t (snd (split_chars (pre ++ s))).
Proof.
  intros H. induction pre as [|b pre IH]; cbn [append split_chars]; [exact H|].
  destruct (split_chars (pre ++ s)) as [following cs]. cbn [snd] in IH.
  destruct (is_continuation b); cbn [snd]; [exact IH|].
  apply in_or_app. right. exact IH.
Qed.

(** An ASCII byte is a character wherever it stands. *)
Lemma ascii_char_in_chars (c : ascii) (s : string) :
  ascii_in 0 127 c = true -> mentions (Ascii.eqb c) s = true ->
  In (String c "") (chars s).
Proof.
  intros Hc H. apply in_snd_split_chars.
  induction s as [|b s IH]; cbn [mentions split_chars] in *; [discriminate|].
  destruct (split_chars s) as [following cs]. cbn [snd] in IH.
  destruct (Ascii.eqb c b) eqn:E.
  - apply Ascii.eqb_eq in E. subst b.
    destruct (is_continuation c) eqn:K.
    + rewrite (continuation_not_ascii c K) in Hc. discriminate.
    + cbn [snd]. unfold attach. rewrite (ascii_no_trail c Hc). cbn. left. reflexivity.
  - cbn in H. destruct (is_continuation b); cbn [snd]; [exact (IH H)|].
    apply in_or_app. right. exact (IH H).
Qed.

Lemma substring_char_mentions (c : ascii) (s : string) :
  Substring (String c "") s <-> mentions (Ascii.eqb c) s = true.
Proof. rewrite <- contains_char. symmetry. apply contains_iff. Qed.

(** So is the small y with a ring above. *)
Lemma y_with_ring_above_in_chars (s : string) :
  Substring y_with_ring_above s -> In y_with_ring_above (chars s).
Proof.
  intros [pre [post ->]]. apply in_snd_split_chars, in_split_chars_later.
  unfold y_with_ring_above. cbn [append split_chars].
  destruct (split_chars post) as [following cs]. cbn. left. reflexivity.
Qed.

Lemma singles_one_char (s : string) : Forall one_char (singles s).
Proof.
  induction s as [|b s IH]; cbn; constructor; [|exact IH].
  exists b, "". auto.
Qed.

Lemma attach_one_char (b : ascii) (following : string) :
  mentions (fun c => negb (is_continuation c)) following = false ->
  Forall one_char (attach b following).
Proof.
  intros H. unfold attach.
  destruct (trail_length b <=? String.length following)%nat.
  - pose proof (split_at_append (trail_length b) following) as Hs.
    destruct (split_at (trail_length b) following) as [taken left] eqn:E.
    cbn [fst snd] in Hs. constructor; [|apply singles_one_char].
    exists b, taken. split; [reflexivity|]. split.
    + rewrite <- Hs, mentions_append in H. apply orb_false_iff in H. tauto.
    + intros H0. rewrite H0 in E. cbn in E. congruence.
  - constructor; [|apply singles_one_char]. exists b, "". auto.
Qed.

Lemma chars_one_char (s : string) : Forall one_char (chars s).
Proof.
  unfold chars. pose proof (split_chars_following s) as Hf.
  assert (Forall one_char (snd (split_chars s))) as Hcs.
  { clear Hf. induction s as [|b s IH]; cbn [split_chars]; [constructor|].
    pose proof (split_chars_following s) as Hf.
    destruct (split_chars s) as [following cs]. cbn [fst snd] in *.
    destruct (is_continuation b); cbn [snd]; [exact IH|].
    apply Forall_app. split; [apply attach_one_char, Hf|exact IH]. }
  destruct (split_chars s) as [following cs]. cbn [fst snd] in *.
  apply Forall_app. split; [apply singles_one_char|exact Hcs].
Qed.

(** The characters of an ASCII text are its bytes. *)
Lemma chars_ascii (s : string) : ascii_text s = true -> chars s = singles s.
Proof.
  unfold ascii_text. intros H. apply negb_true_iff in H.
  assert (split_chars s = ("", singles s)) as E.
  { induction s as [|b s IH]; cbn [split_chars mentions singles] in *; [reflexivity|].
    apply orb_false_iff in H as [Hb Hs]. rewrite (IH Hs).
    apply negb_false_iff in Hb.
    destruct (is_continuation b) eqn:K.
    - rewrite (continuation_not_ascii b K) in Hb. discriminate.
    - unfold attach. rewrite (ascii_no_trail b Hb). reflexivity. }
  unfold chars. rewrite E. reflexivity.
Qed.

(** *** The case mapping and the letter Y *)

Lemma uppercase_table_Y :
  forallb (fun e => Bool.eqb (mentions (Ascii.eqb "Y") (snd e)) (affirming (fst e)))
          uppercase_table = true.
Proof. vm_compute. reflexivity. Qed.

(** The uppercase of a character holds "Y" exactly for y, Y and the y with
    a ring above. *)
Lemma to_upper_Y (t : string) :
  one_char t -> mentions (Ascii.eqb "Y") (to_upper t) = affirming t.
Proof.
  intros [b [r [-> [Hr Hb]]]]. unfold to_upper.
  destruct (find _ uppercase_table) as [e|] eqn:F.
  - apply find_some in F as [Hin He]. apply String.eqb_eq in He. rewrite <- He.
    apply eqb_prop.
    exact (proj1 (forallb_forall _ _) uppercase_table_Y e Hin).
  - unfold affirming.
    destruct (String.eqb (String b r) "y") eqn:E1.
    { apply String.eqb_eq in E1. rewrite E1 in F. vm_compute in F. discriminate. }
    destruct (String.eqb (String b r) y_with_ring_above) eqn:E2.
    { apply String.eqb_eq in E2. rewrite E2 in F. vm_compute in F. discriminate. }
    rewrite orb_false_r, orb_false_l. cbn [mentions String.eqb].
    rewrite (mentions_weaken (Ascii.eqb "Y") _ r
               (fun c Hc => f_equal (fun x => negb (is_continuation x))
                                    (eq_sym (proj1 (Ascii.eqb_eq _ _) Hc))) Hr).
    rewrite orb_false_r, (Ascii.eqb_sym b "Y").
    destruct (Ascii.eqb "Y" b) eqn:E; [|reflexivity].
    apply Ascii.eqb_eq in E. subst b. rewrite (Hb eq_refl). reflexivity.
Qed.

Lemma affirmed_contains_Y (reasoning : string) :
  affirmed reasoning = contains "Y" (upper reasoning).
Proof.
  unfold affirmed. destruct (contains "YES" (upper reasoning)) eqn:E.
  - rewrite (contains_YES_Y _ E). reflexivity.
  - apply orb_false_r.
Qed.

(** The verdict, character by character. *)
Lemma affirmed_chars (text : string) : affirmed text = existsb affirming (chars text).
Proof.
  rewrite affirmed_contains_Y, contains_char. unfold upper. rewrite mentions_join.
  pose proof (chars_one_char text) as H.
  induction H as [|t l Ht _ IH]; cbn [map existsb]; [reflexivity|].
  rewrite IH, (to_upper_Y t Ht). reflexivity.
Qed.

Lemma affirming_cases (t : string) :
  affirming t = true <-> t = "y" \/ t = "Y" \/ t = y_with_ring_above.
Proof.
  unfold affirming. rewrite !orb_true_iff, !String.eqb_eq. tauto.
Qed.

(** The gate in terms of the answer as written: it is affirmed exactly when
    a y of either case, or the y with a ring above, stands in it. *)
Lemma affirmed_letters (text : string) :
  affirmed text = true
  <-> Substring "y" text \/ Substring "Y" text \/ Substring y_with_ring_above text.
Proof.
  rewrite affirmed_chars, existsb_exists. split.
  - intros [t [Hin Ht]]. apply in_chars_substring in Hin.
    apply affirming_cases in Ht as [E|[E|E]]; subst t; auto.
  - intros [H|[H|H]].
    + exists "y". split; [|reflexivity].
      apply ascii_char_in_chars; [reflexivity|apply substring_char_mentions, H].
    + exists "Y". split; [|reflexivity].
      apply ascii_char_in_chars; [reflexivity|apply substring_char_mentions, H].
    + exists y_with_ring_above. split; [|reflexivity].
      apply y_with_ring_above_in_chars, H.
Qed.

(** *** Stripping *)

Lemma lstrip_chars_suffix (l : list string) : exists a, l = a ++ lstrip_chars l.
Proof.
  induction l as [|t l [a IH]]; cbn [lstrip_chars]; [exists []; reflexivity|].
  destruct (isspace t).
  - exists (t :: a). cbn [app]. f_equal. exact IH.
  - exists []. reflexivity.
Qed.

Lemma rstrip_chars_prefix (l : list string) : exists b, l = rstrip_chars l ++ b.
Proof.
  induction l as [|t l [b IH]]; cbn [rstrip_chars]; [exists []; reflexivity|].
  destruct (rstrip_chars l) as [|u r].
  - destruct (isspace t).
    + exists (t :: l). reflexivity.
    + exists l. reflexivity.
  - exists b. cbn [app]. f_equal. exact IH.
Qed.

Lemma lstrip_chars_keeps (t : string) (l : list string) :
  isspace t = false -> In t l -> In t (lstrip_chars l).
Proof.
  intros Ht. induction l as [|u l IH]; cbn [lstrip_chars In]; [auto|].
  destruct (isspace u) eqn:E; [|auto].
  intros [H|H]; [subst u; congruence|auto].
Qed.

Lemma rstrip_chars_keeps (t : string) (l : list string) :
  isspace t = false -> In t l -> In t (rstrip_chars l).
Proof.
  intros Ht. induction l as [|u l IH]; cbn [rstrip_chars In]; [auto|].
  intros [H|H].
  - subst u. destruct (rstrip_chars l); [rewrite Ht|]; left; reflexivity.
  - specialize (IH H). destruct (rstrip_chars l) as [|v r]; [destruct IH|].
    right. exact IH.
Qed.

(** What [strip] leaves stands in the text. *)
Lemma strip_substring (s : string) : Substring (strip s) s.
Proof.
  unfold strip. destruct (lstrip_chars_suffix (chars s)) as [a Ha].
  destruct (rstrip_chars_prefix (lstrip_chars (chars s))) as [b Hb].
  exists (join a), (join b).
  rewrite <- (join_chars s) at 1. rewrite Ha, Hb at 1.
  rewrite !join_app. reflexivity.
Qed.

(** Stripping the answer does not change the verdict. *)
Lemma affirmed_strip (text : string) :
  affirmed (strip text) = affirmed text.
Proof.
  apply eq_true_iff_eq. split.
  - rewrite !affirmed_letters.
    pose proof (strip_substring text) as H.
    intros [K|[K|K]]; [left|right; left|right; right];
      exact (substring_trans _ _ _ K H).
  - rewrite (affirmed_chars text), existsb_exists. intros [t [Hin Ht]].
    assert (isspace t = false) as Hs
      by (apply affirming_cases in Ht as [E|[E|E]]; subst t; vm_compute; reflexivity).
    assert (Substring t (strip text)) as Hsub
      by (apply substring_of_member, rstrip_chars_keeps, lstrip_chars_keeps; assumption).
    apply affirmed_letters.
    apply affirming_cases in Ht as [E|[E|E]]; subst t; auto.
Qed.

(** ** What each operation does to the database *)

Lemma get_weather_eq w s :
  get_weather w s
  = (Ok (api_temp w),
     set_weather_logs s
       (weather_logs s
          ++ [mk_weather_log (next_rowid (weather_logs_seq s) (map log_id (weather_logs s)))
                             (utc_log w) (api_temp w) 0])
       (next_rowid (weather_logs_seq s) (map log_id (weather_logs s)))).
Proof. reflexivity. Qed.

Lemma create_task_eq utc_now reasoning s :
  create_task utc_now reasoning s
  = (Ok (task_id (new_task s utc_now reasoning)),
     set_tasks s (tasks s ++ [new_task s utc_now reasoning])
               (task_id (new_task s utc_now reasoning))).
Proof. reflexivity. Qed.

Lemma check_sustained_warmth_state cfg now s :
  snd (check_sustained_warmth cfg now s) = s.
Proof.
  unfold check_sustained_warmth, bind, lift, count_since, ret.
  destruct (timedelta_minutes _); [|reflexivity].
  destruct (datetime_sub _ _); reflexivity.
Qed.

Lemma select_description_state id s :
  snd (select_description id s) = s.
Proof.
  unfold select_description, bind, lift.
  destruct (sqlite_bind_int id); reflexivity.
Qed.

Lemma send_reminder_state id s :
  snd (send_reminder id s) = s.
Proof.
  unfold send_reminder, bind.
  pose proof (select_description_state id s) as H.
  destruct (select_description id s) as [[[d|]|e] s']; cbn in H; subst s'; reflexivity.
Qed.

Lemma update_snooze_cases until id s :
  (- 2 ^ 63 <= id < 2 ^ 63
   /\ update_snooze until id s
      = (Ok tt, set_tasks s (map (snooze_row until id) (tasks s)) (tasks_seq s)))
  \/ ((id < - 2 ^ 63 \/ 2 ^ 63 <= id)
      /\ update_snooze until id s = (Raise OverflowError, s)).
Proof.
  unfold update_snooze, bind, lift, sqlite_bind_int.
  destruct (Z.leb_spec (- 2 ^ 63) id); destruct (Z.ltb_spec id (2 ^ 63)); cbn [andb];
    [left; split; [lia|reflexivity] | right; split; [lia|reflexivity] ..].
Qed.

(** A snooze either raises before it touches the database, or rewrites the
    rows of [tasks] with [snooze_row] for one instant [until]. *)
Lemma snooze_task_cases now id duration_str s :
  (exists e, snooze_task now id duration_str s = (Raise e, s))
  \/ (exists until,
        snooze_task now id duration_str s
        = (Ok tt, set_tasks s (map (snooze_row until id) (tasks s)) (tasks_seq s))).
Proof.
  unfold snooze_task, bind, lift.
  destruct (snooze_delta duration_str) as [delta|e]; [|left; exists e; reflexivity].
  destruct (datetime_add now delta) as [until|e]; [|left; exists e; reflexivity].
  destruct (update_snooze_cases until id s) as [[_ H]|[_ H]]; rewrite H.
  - right. exists until. reflexivity.
  - left. exists OverflowError. reflexivity.
Qed.

(** The block that creates the task and sends the reminder leaves the
    database with the new row, whether or not the reminder raises. *)
Lemma create_and_remind_state utc_now reasoning s :
  snd ((id <- create_task utc_now reasoning ;; _ <- send_reminder id ;; ret tt) s)
  = set_tasks s (tasks s ++ [new_task s utc_now reasoning])
              (task_id (new_task s utc_now reasoning)).
Proof.
  rewrite (bind_ok _ _ _ _ _ (create_task_eq utc_now reasoning s)).
  rewrite snd_bind_reader by reflexivity.
  apply send_reminder_state.
Qed.

(** The database after a [check] run: the reading is logged, and one
    pending task is added when the check was met and the answer affirmed. *)
Lemma run_check_state cfg w s :
  snd (run_check cfg w s)
  = let s1 := snd (get_weather w s) in
    match fst (check_sustained_warmth cfg (now_check w) s1) with
    | Ok true =>
        if affirmed (strip (llm_reply w))
        then set_tasks s1 (tasks s1 ++ [new_task s1 (utc_task w) (strip (llm_reply w))])
                       (task_id (new_task s1 (utc_task w) (strip (llm_reply w))))
        else s1
    | _ => s1
    end.
Proof.
  unfold run_check.
  rewrite (bind_ok _ _ _ _ _ (get_weather_eq w s)), get_weather_eq.
  cbn [snd]. set (s1 := set_weather_logs s _ _). cbv zeta.
  rewrite snd_bind_after_reader by apply check_sustained_warmth_state.
  destruct (fst (check_sustained_warmth cfg (now_check w) s1)) as [[|]|e];
    try reflexivity.
  rewrite snd_bind_reader by reflexivity.
  destruct (affirmed (strip (llm_reply w))); [|reflexivity].
  apply create_and_remind_state.
Qed.

Lemma run_check_tasks cfg w s :
  tasks (snd (run_check cfg w s))
  = match fst (check_sustained_warmth cfg (now_check w) (snd (get_weather w s))) with
    | Ok true =>
        if affirmed (strip (llm_reply w))
        then tasks s ++ [new_task s (utc_task w) (strip (llm_reply w))]
        else tasks s
    | _ => tasks s
    end.
Proof.
  rewrite run_check_state. cbv zeta.
  destruct (fst (check_sustained_warmth _ _ _)) as [[|]|e]; try reflexivity.
  destruct (affirmed _); reflexivity.
Qed.

Lemma run_check_weather_logs cfg w s :
  weather_logs (snd (run_check cfg w s)) = weather_logs (snd (get_weather w s)).
Proof.
  rewrite run_check_state. cbv zeta.
  destruct (fst (check_sustained_warmth _ _ _)) as [[|]|e]; try reflexivity.
  destruct (affirmed _); reflexivity.
Qed.

(** ** The decision gate *)

(** C2: the gate takes the answer of the model as affirmed if and only if
    the uppercased answer contains "Y"; the test the code writes, "Y" or
    "YES" in the uppercased text, says the same.  The case of the letter
    does not matter: an answer is affirmed exactly when a y stands in it,
    small or capital, or the y with a ring above (U+1E99), the one other
    character whose uppercase holds a "Y".  "No, conditions are fine." is
    not affirmed, "Yes, test it" and "yes, test it" are; and in a run whose
    sustained check was met, so that the model is consulted, one task is
    added when the answer is affirmed and none when it is not. *)
Theorem affirmed_iff_upper_answer_contains_Y :
  (forall text, affirmed (strip text) = true <-> Substring "Y" (upper text))
  /\ (forall text,
        affirmed text = true
        <-> Substring "Y" (upper text) \/ Substring "YES" (upper text))
  /\ (forall text,
        affirmed text = true
        <-> Substring "y" text \/ Substring "Y" text
            \/ Substring y_with_ring_above text)
  /\ upper "Yes, test it" = "YES, TEST IT"
  /\ affirmed (strip "No, conditions are fine.") = false
  /\ affirmed (strip "Yes, test it") = true
  /\ affirmed (strip "yes, test it") = true
  /\ (forall cfg w s,
        fst (check_sustained_warmth cfg (now_check w) (snd (get_weather w s))) = Ok true ->
        (affirmed (strip (llm_reply w)) = true ->
         tasks (snd (run_check cfg w s))
         = tasks s ++ [new_task s (utc_task w) (strip (llm_reply w))])
        /\ (affirmed (strip (llm_reply w)) = false ->
            tasks (snd (run_check cfg w s)) = tasks s)).
Proof.
  split; [|split; [|split; [|split; [|split; [|split; [|split]]]]]].
  - intros text. rewrite affirmed_strip, affirmed_contains_Y. apply contains_iff.
  - intros text. unfold affirmed. rewrite orb_true_iff, !contains_iff. reflexivity.
  - exact affirmed_letters.
  - vm_compute. reflexivity.
  - vm_compute. reflexivity.
  - vm_compute. reflexivity.
  - vm_compute. reflexivity.
  - intros cfg w s Hmet. rewrite run_check_tasks, Hmet.
    split; intros ->; reflexivity.
Qed.

(** The fourth warm reading arrives and the model answers "yes, test it",
    in small letters: the run adds task 1. *)
Lemma affirmed_iff_upper_answer_contains_Y_witness :
  tasks (snd (run_check scenario_config (scenario_world "yes, test it") scenario_store))
  = [mk_task 1 "Test outside camera setup (reasoning: yes, test it)" "pending" None
             (noon_2026_11_04 - 5 * us_per_second)].
Proof.
  refine (proj1 (proj2 (proj2 (proj2 (proj2 (proj2 (proj2 (proj2
            affirmed_iff_upper_answer_contains_Y))))))
                   scenario_config (scenario_world "yes, test it") scenario_store _) _);
    vm_compute; reflexivity.
Defined.

(** ** Suffixes and slices *)

Lemma length_append (a b : string) :
  String.length (a ++ b) = (String.length a + String.length b)%nat.
Proof. induction a as [|x a IH]; cbn; [reflexivity|]. rewrite IH. reflexivity. Qed.

Lemma substring_all (s : string) : substring 0 (String.length s) s = s.
Proof. induction s as [|x s IH]; cbn; [reflexivity|]. rewrite IH. reflexivity. Qed.

Lemma substring_skip (a b : string) (m : nat) :
  substring (String.length a) m (a ++ b) = substring 0 m b.
Proof. induction a as [|x a IH]; cbn; [reflexivity|]. exact IH. Qed.

Lemma substring_take (a b : string) :
  substring 0 (String.length a) (a ++ b) = a.
Proof.
  induction a as [|x a IH]; cbn; [destruct b; reflexivity|]. rewrite IH. reflexivity.
Qed.

Lemma drop_last_append (a : string) (c : ascii) :
  drop_last (a ++ String c "") = a.
Proof.
  unfold drop_last. rewrite length_append. cbn [String.length].
  replace (String.length a + 1 - 1)%nat with (String.length a) by lia.
  apply substring_take.
Qed.

(** ** [int()] on a plain decimal numeral *)

Lemma lstrip_numeral (u : Decimal.uint) :
  lstrip_with is_literal_space (NilEmpty.string_of_uint u) = NilEmpty.string_of_uint u.
Proof. destruct u; reflexivity. Qed.

Lemma rstrip_numeral (u : Decimal.uint) :
  rstrip_with is_literal_space (NilEmpty.string_of_uint u) = NilEmpty.string_of_uint u.
Proof.
  induction u as [|u IH|u IH|u IH|u IH|u IH|u IH|u IH|u IH|u IH|u IH];
    [reflexivity|..];
    cbn [NilEmpty.string_of_uint rstrip_with]; rewrite IH;
    destruct (NilEmpty.string_of_uint u); reflexivity.
Qed.

Lemma split_sign_numeral (u : Decimal.uint) :
  split_sign (NilEmpty.string_of_uint u) = (false, NilEmpty.string_of_uint u).
Proof. destruct u; reflexivity. Qed.

Lemma literal_digits_numeral_tail (u : Decimal.uint) :
  literal_digits true (NilEmpty.string_of_uint u) = Some (NilEmpty.string_of_uint u).
Proof.
  induction u as [|u IH|u IH|u IH|u IH|u IH|u IH|u IH|u IH|u IH|u IH];
    [reflexivity|..];
    cbn [NilEmpty.string_of_uint literal_digits]; cbn [Ascii.eqb Bool.eqb];
    change (is_digit _) with true; cbv iota; rewrite IH; reflexivity.
Qed.

Lemma literal_digits_numeral (u : Decimal.uint) :
  u <> Decimal.Nil ->
  literal_digits false (NilEmpty.string_of_uint u) = Some (NilEmpty.string_of_uint u).
Proof.
  destruct u; [congruence|..]; intros _;
    cbn [NilEmpty.string_of_uint literal_digits]; cbn [Ascii.eqb Bool.eqb];
    change (is_digit _) with true; cbv iota;
    rewrite literal_digits_numeral_tail; reflexivity.
Qed.

Lemma ascii_text_append (a b : string) :
  ascii_text (a ++ b) = ascii_text a && ascii_text b.
Proof. unfold ascii_text. rewrite mentions_append. apply negb_orb. Qed.

Lemma ascii_text_numeral (u : Decimal.uint) :
  ascii_text (NilEmpty.string_of_uint u) = true.
Proof.
  unfold ascii_text.
  induction u as [|u IH|u IH|u IH|u IH|u IH|u IH|u IH|u IH|u IH|u IH];
    [reflexivity|..];
    cbn [NilEmpty.string_of_uint mentions]; apply negb_true_iff in IH; rewrite IH;
    reflexivity.
Qed.

(** An ASCII text is read as it stands. *)
Lemma py_int_ascii (s : string) :
  ascii_text s = true -> py_int s = long_from_string s.
Proof. intros H. unfold py_int. rewrite H. reflexivity. Qed.

Lemma long_from_string_numeral (u : Decimal.uint) :
  u <> Decimal.Nil -> (Decimal.nb_digits u <= int_max_str_digits)%nat ->
  long_from_string (NilEmpty.string_of_uint u) = Ok (Z.of_uint u).
Proof.
  intros Hu Hlen. unfold long_from_string, strip_with.
  rewrite lstrip_numeral, rstrip_numeral, split_sign_numeral.
  rewrite (literal_digits_numeral u Hu), NilEmpty.usu.
  apply Nat.ltb_ge in Hlen. rewrite Hlen. reflexivity.
Qed.

(** [int()] reads a non-empty numeral of at most 4300 digits as its value. *)
Lemma py_int_numeral (u : Decimal.uint) :
  u <> Decimal.Nil -> (Decimal.nb_digits u <= int_max_str_digits)%nat ->
  py_int (NilEmpty.string_of_uint u) = Ok (Z.of_uint u).
Proof.
  intros Hu Hlen. rewrite py_int_ascii by apply ascii_text_numeral.
  apply long_from_string_numeral; assumption.
Qed.

(** *** Characters no literal holds *)

Lemma literal_space_not_foreign (c : ascii) :
  is_literal_space c = true -> foreign_to_int c = false.
Proof.
  intros H. unfold foreign_to_int. rewrite H, !orb_true_r. apply andb_false_r.
Qed.

Lemma literal_digits_foreign prev s :
  mentions foreign_to_int s = true -> literal_digits prev s = None.
Proof.
  revert prev. induction s as [|c r IH]; intros prev H; [discriminate|].
  cbn [mentions literal_digits] in *.
  destruct (Ascii.eqb c "_") eqn:Eu.
  - unfold foreign_to_int in H at 1.
    rewrite Eu, orb_true_r, andb_false_r in H. cbn in H.
    destruct prev; [apply IH; exact H|reflexivity].
  - destruct (is_digit c) eqn:Ed; [|reflexivity].
    unfold foreign_to_int in H at 1. rewrite Ed, andb_false_r in H. cbn in H.
    rewrite (IH true H). reflexivity.
Qed.

Lemma long_from_string_foreign s :
  mentions foreign_to_int s = true -> long_from_string s = Raise ValueError.
Proof.
  intros H. unfold long_from_string.
  rewrite <- (mentions_strip is_literal_space foreign_to_int literal_space_not_foreign) in H.
  destruct (strip_with is_literal_space s) as [|c r]; [discriminate|].
  assert (forall b body, split_sign (String c r) = (b, body) ->
                         mentions foreign_to_int body = true) as Hbody.
  { intros b body. cbn [split_sign].
    destruct (Ascii.eqb_spec c "-") as [->|_];
      [intros [= _ <-]; exact H|].
    destruct (Ascii.eqb_spec c "+") as [->|_];
      [intros [= _ <-]; exact H|].
    intros [= _ <-]. exact H. }
  destruct (split_sign (String c r)) as [b body].
  rewrite (literal_digits_foreign false body (Hbody b body eq_refl)). reflexivity.
Qed.

Lemma foreign_not_plain (c : ascii) :
  foreign_to_int c = true -> is_plain (String c "") = false ->
  isspace (String c "") = false /\ decimal_digit (String c "") = None.
Proof.
  destruct c as [[] [] [] [] [] [] [] []]; vm_compute; intros H1 H2;
    try discriminate H1; try discriminate H2; split; reflexivity.
Qed.

(** A character foreign to literals is still there, or a "?" before it,
    after the text was brought to ASCII. *)
Lemma decimal_and_space_foreign (c : ascii) (l : list string) :
  foreign_to_int c = true -> In (String c "") l ->
  mentions foreign_to_int (decimal_and_space_to_ascii l) = true.
Proof.
  intros Hc. induction l as [|t l IH]; [intros []|]. intros [E|Hin].
  - subst t. destruct (is_plain (String c "")) eqn:P.
    + cbn [decimal_and_space_to_ascii]. rewrite P. cbn [append mentions].
      rewrite Hc. reflexivity.
    + destruct (foreign_not_plain c Hc P) as [Hs Hd].
      cbn [decimal_and_space_to_ascii]. rewrite P, Hs, Hd. reflexivity.
  - specialize (IH Hin). cbn [decimal_and_space_to_ascii].
    destruct (is_plain t).
    + rewrite mentions_append, IH. apply orb_true_r.
    + destruct (isspace t); [cbn [mentions]; rewrite IH; apply orb_true_r|].
      destruct (decimal_digit t); [cbn [mentions]; rewrite IH; apply orb_true_r|].
      reflexivity.
Qed.

(** [int()] refuses a text that holds a character foreign to literals. *)
Lemma py_int_foreign s :
  mentions foreign_to_int s = true -> py_int s = Raise ValueError.
Proof.
  intros H. unfold py_int. apply long_from_string_foreign.
  destruct (ascii_text s); [exact H|].
  apply mentions_witness in H as [c [Hc Hin]].
  apply (decimal_and_space_foreign c); [exact Hc|].
  apply ascii_char_in_chars; [|exact Hin].
  unfold foreign_to_int in Hc. apply andb_true_iff in Hc. tauto.
Qed.

(** ** The deferral handler *)

Lemma endswith_last_char (a : string) (c c' : ascii) :
  endswith (a ++ String c "") (String c' "") = Ascii.eqb c c'.
Proof.
  unfold endswith. rewrite length_append. cbn [String.length].
  replace (String.length a + 1 - 1)%nat with (String.length a) by lia.
  rewrite substring_skip.
  replace (1 <=? String.length a + 1)%nat with true
    by (symmetry; apply Nat.leb_le; lia).
  cbn. destruct (Ascii.eqb c c'); reflexivity.
Qed.

Lemma of_uint_nonneg (u : Decimal.uint) : 0 <= Z.of_uint u.
Proof. unfold Z.of_uint. apply N2Z.is_nonneg. Qed.

Lemma snooze_delta_days (u : Decimal.uint) :
  u <> Decimal.Nil -> (Decimal.nb_digits u <= int_max_str_digits)%nat ->
  snooze_delta (NilEmpty.string_of_uint u ++ "d") = timedelta_days (Z.of_uint u).
Proof.
  intros Hu Hlen. unfold snooze_delta.
  rewrite endswith_last_char, drop_last_append, py_int_numeral by assumption.
  reflexivity.
Qed.

Lemma snooze_delta_hours (u : Decimal.uint) :
  u <> Decimal.Nil -> (Decimal.nb_digits u <= int_max_str_digits)%nat ->
  snooze_delta (NilEmpty.string_of_uint u ++ "h") = timedelta_hours (Z.of_uint u).
Proof.
  intros Hu Hlen. unfold snooze_delta.
  rewrite !endswith_last_char, drop_last_append, py_int_numeral by assumption.
  reflexivity.
Qed.

Lemma snooze_delta_default (text : string) :
  endswith text "d" = false -> endswith text "h" = false ->
  snooze_delta text = Ok us_per_day.
Proof. intros Hd Hh. unfold snooze_delta. rewrite Hd, Hh. reflexivity. Qed.

Lemma snooze_delta_not_a_literal (text : string) (e : exn) :
  endswith text "d" = true \/ endswith text "h" = true ->
  py_int (drop_last text) = Raise e ->
  snooze_delta text = Raise e.
Proof.
  intros H Hint. unfold snooze_delta. rewrite Hint.
  destruct (endswith text "d"); [reflexivity|].
  destruct H as [H|H]; [discriminate|]. rewrite H. reflexivity.
Qed.

Lemma snooze_task_until now id text delta s :
  snooze_delta text = Ok delta -> 0 <= now + delta < datetime_end ->
  snooze_task now id text s = update_snooze (now + delta) id s.
Proof.
  intros Hd Hrange. unfold snooze_task.
  rewrite (bind_ok _ _ s delta s) by (unfold lift; rewrite Hd; reflexivity).
  rewrite (bind_ok _ _ s (now + delta) s)
    by (unfold lift; rewrite datetime_add_ok by assumption; reflexivity).
  reflexivity.
Qed.

Lemma snooze_task_raises now id text e s :
  snooze_delta text = Raise e ->
  snooze_task now id text s = (Raise e, s).
Proof.
  intros Hd. unfold snooze_task. apply bind_raise. unfold lift. rewrite Hd. reflexivity.
Qed.

Lemma snooze_task_whole_units now id text n unit s :
  0 < unit -> unit <= us_per_day ->
  snooze_delta text = timedelta_new (n * unit) ->
  0 <= n -> 0 <= now -> now + n * unit < datetime_end ->
  snooze_task now id text s = update_snooze (now + n * unit) id s.
Proof.
  intros Hu1 Hu2 Hd Hn Hnow Hend.
  apply snooze_task_until; [|nia].
  rewrite Hd. apply timedelta_new_ok.
  rewrite datetime_end_eq, us_per_day_eq in *. unfold MAX_DELTA_DAYS. nia.
Qed.

Lemma snooze_task_out_of_range now id text us s :
  snooze_delta text = timedelta_new us -> datetime_end <= now + us ->
  snooze_task now id text s = (Raise OverflowError, s).
Proof.
  intros Hd Hend.
  destruct (timedelta_new_cases us) as [E|E]; rewrite E in Hd.
  - unfold snooze_task.
    rewrite (bind_ok _ _ s us s) by (unfold lift; rewrite Hd; reflexivity).
    apply bind_raise. unfold lift.
    rewrite datetime_add_overflow by (right; exact Hend). reflexivity.
  - apply snooze_task_raises. exact Hd.
Qed.

(** C3, as the code has it: [snooze_task] looks at the last character of
    its text.  After a numeral (at most 4300 digits) a final 'd' snoozes
    for that many days and a final 'h' for that many hours, the instant
    handed to the UPDATE being [now] plus that duration, provided that
    instant is one a datetime can hold; a text that ends in neither 'd' nor
    'h' falls back to one day; a text that ends in 'd' or 'h' after an
    ASCII character no integer literal holds (a letter, a decimal point, a
    second unit) raises [ValueError] and leaves the database as it is; a
    numeral so large that the instant would lie after the year 9999 raises
    [OverflowError].  So "1d" gives now + 1 day, "3h" now + 3 hours, "xyz"
    now + 1 day, and "xd" raises; so do the unit alone, "d" or "h", and
    "1.5h", "1xd", "1 2d", "--1d", "1__0d", "_1d", "1_d".  The magnitude is
    whatever [int()] reads: "+2d", " 2 d", "1_0d", "5" with a no-break
    space before the 'd', and an Arabic-Indic three before an 'h' give 2,
    2, 10 and 5 days and 3 hours. *)
Theorem snooze_task_reads_the_last_character :
  (forall now id u s,
      u <> Decimal.Nil -> (Decimal.nb_digits u <= int_max_str_digits)%nat ->
      0 <= now -> now + Z.of_uint u * us_per_day < datetime_end ->
      snooze_task now id (NilEmpty.string_of_uint u ++ "d") s
      = update_snooze (now + Z.of_uint u * us_per_day) id s)
  /\ (forall now id u s,
        u <> Decimal.Nil -> (Decimal.nb_digits u <= int_max_str_digits)%nat ->
        0 <= now -> now + Z.of_uint u * us_per_hour < datetime_end ->
        snooze_task now id (NilEmpty.string_of_uint u ++ "h") s
        = update_snooze (now + Z.of_uint u * us_per_hour) id s)
  /\ (forall now id text s,
        endswith text "d" = false -> endswith text "h" = false ->
        0 <= now -> now + us_per_day < datetime_end ->
        snooze_task now id text s = update_snooze (now + us_per_day) id s)
  /\ (forall now id text s,
        endswith text "d" = true \/ endswith text "h" = true ->
        mentions foreign_to_int (drop_last text) = true ->
        snooze_task now id text s = (Raise ValueError, s))
  /\ (forall now id u s,
        u <> Decimal.Nil -> (Decimal.nb_digits u <= int_max_str_digits)%nat ->
        (datetime_end <= now + Z.of_uint u * us_per_day ->
         snooze_task now id (NilEmpty.string_of_uint u ++ "d") s
         = (Raise OverflowError, s))
        /\ (datetime_end <= now + Z.of_uint u * us_per_hour ->
            snooze_task now id (NilEmpty.string_of_uint u ++ "h") s
            = (Raise OverflowError, s)))
  /\ (forall now id s,
        0 <= now -> now + us_per_day < datetime_end ->
        snooze_task now id "1d" s = update_snooze (now + us_per_day) id s
        /\ snooze_task now id "3h" s = update_snooze (now + 3 * us_per_hour) id s
        /\ snooze_task now id "xyz" s = update_snooze (now + us_per_day) id s
        /\ snooze_task now id "xd" s = (Raise ValueError, s))
  /\ (forall now id s,
        Forall (fun text => snooze_task now id text s = (Raise ValueError, s))
               ["d"; "h"; "1.5h"; "1xd"; "1 2d"; "--1d"; "1__0d"; "_1d"; "1_d"])
  /\ (forall now id s,
        0 <= now -> now + 10 * us_per_day < datetime_end ->
        snooze_task now id "+2d" s = update_snooze (now + 2 * us_per_day) id s
        /\ snooze_task now id " 2 d" s = update_snooze (now + 2 * us_per_day) id s
        /\ snooze_task now id "1_0d" s = update_snooze (now + 10 * us_per_day) id s
        /\ snooze_task now id ("5" ++ no_break_space ++ "d") s
           = update_snooze (now + 5 * us_per_day) id s
        /\ snooze_task now id (arabic_indic_three ++ "h") s
           = update_snooze (now + 3 * us_per_hour) id s).
Proof.
  assert (Hday : 0 < us_per_day /\ us_per_day <= us_per_day) by (split; [reflexivity|lia]).
  assert (Hhour : 0 < us_per_hour /\ us_per_hour <= us_per_day)
    by (split; [reflexivity|discriminate]).
  assert (us_per_day = 24 * us_per_hour) as Hdh by reflexivity.
  split; [|split; [|split; [|split; [|split; [|split; [|split]]]]]].
  - intros now id u s Hu Hlen Hnow Hend.
    apply snooze_task_whole_units; try tauto.
    + apply snooze_delta_days; assumption.
    + apply of_uint_nonneg.
  - intros now id u s Hu Hlen Hnow Hend.
    apply snooze_task_whole_units; try tauto.
    + apply snooze_delta_hours; assumption.
    + apply of_uint_nonneg.
  - intros now id text s Hd Hh Hnow Hend.
    apply snooze_task_until; [apply snooze_delta_default; assumption|lia].
  - intros now id text s Hsuffix Hforeign.
    apply snooze_task_raises, snooze_delta_not_a_literal; [exact Hsuffix|].
    apply py_int_foreign, Hforeign.
  - intros now id u s Hu Hlen. split; intros Hend.
    + apply (snooze_task_out_of_range _ _ _ (Z.of_uint u * us_per_day));
        [apply snooze_delta_days; assumption|exact Hend].
    + apply (snooze_task_out_of_range _ _ _ (Z.of_uint u * us_per_hour));
        [apply snooze_delta_hours; assumption|exact Hend].
  - intros now id s Hnow Hend.
    split; [|split; [|split]].
    + apply snooze_task_until; [reflexivity|lia].
    + apply snooze_task_until; [reflexivity|].
      rewrite Hdh in Hend. unfold us_per_hour, us_per_minute, us_per_second in *. lia.
    + apply snooze_task_until; [reflexivity|lia].
    + apply snooze_task_raises. reflexivity.
  - intros now id s.
    repeat (constructor; [apply snooze_task_raises; vm_compute; reflexivity|]).
    constructor.
  - intros now id s Hnow Hend.
    assert (forall text n unit,
               snooze_delta text = Ok (n * unit) ->
               0 <= n * unit <= 10 * us_per_day ->
               snooze_task now id text s = update_snooze (now + n * unit) id s) as H.
    { intros text n unit Hdelta Hle. apply snooze_task_until; [exact Hdelta|lia]. }
    assert (us_per_hour = 3600000000) as Hh by reflexivity.
    rewrite Hdh, Hh in *.
    split; [|split; [|split; [|split]]]; apply H;
      try (vm_compute; reflexivity); lia.
Qed.

(** "12d" on the one pending task at noon: snoozed until noon twelve days
    later. *)
Lemma snooze_task_reads_the_last_character_witness :
  snooze_task noon_2026_11_04 1 "12d" one_task_store
  = (Ok tt,
     mk_db [mk_task 1 "Test outside camera setup (reasoning: Yes, test it)" "snoozed"
                    (Some (noon_2026_11_04 + 12 * us_per_day)) noon_2026_11_04]
           1 [] 0).
Proof.
  refine (proj1 snooze_task_reads_the_last_character
            noon_2026_11_04 1 (Decimal.D1 (Decimal.D2 Decimal.Nil)) one_task_store
            _ _ _ _).
  - discriminate.
  - cbn. unfold int_max_str_digits. lia.
  - discriminate.
  - reflexivity.
Defined.

(** C3 as stated fails: "xd" has a unit but no integer before it; the
    claim has it fall back to one day, the code lets the [ValueError] of
    [int("x")] escape and snoozes nothing. *)
Lemma snooze_task_raises_on_xd :
  snooze_task noon_2026_11_04 1 "xd" one_task_store
  = (Raise ValueError, one_task_store).
Proof. reflexivity. Qed.

(** ** The task store: snooze *)

Lemma set_tasks_same s : set_tasks s (tasks s) (tasks_seq s) = s.
Proof. destruct s; reflexivity. Qed.

Lemma snooze_row_other until id t :
  task_id t <> id -> snooze_row until id t = t.
Proof. intros H. unfold snooze_row. apply Z.eqb_neq in H. rewrite H. reflexivity. Qed.

Lemma snooze_row_hit until id t :
  task_id t = id ->
  snooze_row until id t
  = mk_task (task_id t) (description t) "snoozed" (Some until) (created_at t).
Proof. intros H. unfold snooze_row. apply Z.eqb_eq in H. rewrite H. reflexivity. Qed.

Lemma map_snooze_row_absent until id l :
  (forall t, In t l -> task_id t <> id) -> map (snooze_row until id) l = l.
Proof.
  intros H. induction l as [|t l IH]; [reflexivity|].
  cbn [map]. rewrite snooze_row_other by (apply H; left; reflexivity).
  rewrite IH; [reflexivity|]. intros u Hu. apply H. right. exact Hu.
Qed.

Lemma update_snooze_ok until id s :
  fits_int64 id ->
  update_snooze until id s
  = (Ok tt, set_tasks s (map (snooze_row until id) (tasks s)) (tasks_seq s)).
Proof.
  intros H. destruct (update_snooze_cases until id s) as [[_ E]|[Hout _]];
    [exact E|unfold fits_int64 in H; lia].
Qed.

(** C4, as the code has it: the UPDATE behind snooze never reports a
    missing task.  For an identifier that fits 64 bits it completes without
    error; when no task has the identifier the database is left exactly as
    it was, and every task that has it gets status "snoozed" and
    snooze-until [until].  (An identifier that does not fit 64 bits makes
    the binding raise [OverflowError], the database unchanged.) *)
Theorem update_snooze_completes_and_sets_matching_rows :
  (forall until id s,
      fits_int64 id ->
      exists s',
        update_snooze until id s = (Ok tt, s')
        /\ (~ task_exists id s -> s' = s)
        /\ List.length (tasks s') = List.length (tasks s)
        /\ (forall i t,
              nth_error (tasks s) i = Some t -> task_id t = id ->
              exists t',
                nth_error (tasks s') i = Some t'
                /\ task_id t' = id
                /\ status t' = "snoozed"
                /\ snooze_until t' = Some until))
  /\ (forall until id s,
        ~ fits_int64 id -> update_snooze until id s = (Raise OverflowError, s)).
Proof.
  split.
  - intros u id s Hid. eexists. split; [apply update_snooze_ok; exact Hid|].
    cbn [set_tasks tasks]. split; [|split].
    + intros Habsent. rewrite map_snooze_row_absent; [apply set_tasks_same|].
      intros t Ht Heq. apply Habsent. exists t. split; assumption.
    + apply length_map.
    + intros i t Hi Ht. exists (snooze_row u id t).
      rewrite nth_error_map, Hi. cbn [option_map].
      rewrite (snooze_row_hit _ _ _ Ht). cbn. auto.
  - intros u id s Hid.
    destruct (update_snooze_cases u id s) as [[Hin _]|[_ E]];
      [exfalso; apply Hid; exact Hin|exact E].
Qed.

(** Task 1 exists: the snooze sets its two fields. *)
Lemma update_snooze_completes_and_sets_matching_rows_witness :
  exists s',
    update_snooze (noon_2026_11_04 + us_per_day) 1 one_task_store = (Ok tt, s')
    /\ (~ task_exists 1 one_task_store -> s' = one_task_store)
    /\ List.length (tasks s') = List.length (tasks one_task_store)
    /\ (forall i t,
          nth_error (tasks one_task_store) i = Some t -> task_id t = 1 ->
          exists t',
            nth_error (tasks s') i = Some t'
            /\ task_id t' = 1
            /\ status t' = "snoozed"
            /\ snooze_until t' = Some (noon_2026_11_04 + us_per_day)).
Proof.
  apply (proj1 update_snooze_completes_and_sets_matching_rows
               (noon_2026_11_04 + us_per_day) 1 one_task_store).
  unfold fits_int64. split; [discriminate|reflexivity].
Defined.

(** C4 as stated fails: no task has identifier 7, and the snooze does not
    fail with a not-found error: the UPDATE matches no row, the statement
    and the whole of [snooze_task] complete, and the database is as
    before. *)
Lemma snooze_of_missing_task_succeeds :
  ~ task_exists 7 one_task_store
  /\ update_snooze (noon_2026_11_04 + us_per_day) 7 one_task_store
     = (Ok tt, one_task_store)
  /\ snooze_task noon_2026_11_04 7 "1d" one_task_store = (Ok tt, one_task_store).
Proof.
  split; [|split; reflexivity].
  intros [t [[Ht|[]] H]]. subst t. discriminate H.
Qed.

(** ** The frame of a snooze *)

Lemma only_snooze_fields_differ_snooze_row until id t :
  only_snooze_fields_differ id t (snooze_row until id t).
Proof.
  unfold only_snooze_fields_differ, snooze_row.
  destruct (Z.eqb_spec (task_id t) id); cbn; intuition congruence.
Qed.

Lemma only_snooze_fields_differ_refl id t : only_snooze_fields_differ id t t.
Proof. unfold only_snooze_fields_differ. auto. Qed.

Lemma Forall2_map_right {A B} (R : A -> B -> Prop) (f : A -> B) l :
  (forall a, R a (f a)) -> Forall2 R l (map f l).
Proof. intros H. induction l; cbn; constructor; auto. Qed.

Lemma Forall2_same {A} (R : A -> A -> Prop) l :
  (forall a, R a a) -> Forall2 R l l.
Proof. intros H. induction l; constructor; auto. Qed.

(** C8: a snooze changes nothing but [status] and [snooze_until] of the
    tasks with the given identifier.  Row by row, the table after
    [update_snooze] and after [snooze_task], whether they complete or
    raise, has the same identifier, description and created-at as before,
    a row with another identifier is the same row, and the observation log
    and both counters are untouched. *)
Theorem snooze_changes_only_status_and_snooze_until :
  forall (now until : datetime) (id : Z) (text : string) (s : db),
    (Forall2 (only_snooze_fields_differ id)
             (tasks s) (tasks (snd (update_snooze until id s)))
     /\ weather_logs (snd (update_snooze until id s)) = weather_logs s
     /\ tasks_seq (snd (update_snooze until id s)) = tasks_seq s
     /\ weather_logs_seq (snd (update_snooze until id s)) = weather_logs_seq s)
    /\ (Forall2 (only_snooze_fields_differ id)
                (tasks s) (tasks (snd (snooze_task now id text s)))
        /\ weather_logs (snd (snooze_task now id text s)) = weather_logs s
        /\ tasks_seq (snd (snooze_task now id text s)) = tasks_seq s
        /\ weather_logs_seq (snd (snooze_task now id text s)) = weather_logs_seq s).
Proof.
  intros now until' id text s.
  assert (forall u, Forall2 (only_snooze_fields_differ id) (tasks s)
                            (map (snooze_row u id) (tasks s))) as Hmap.
  { intros u. apply Forall2_map_right. intros t.
    apply only_snooze_fields_differ_snooze_row. }
  assert (Forall2 (only_snooze_fields_differ id) (tasks s) (tasks s)) as Hsame.
  { apply Forall2_same. intros t. apply only_snooze_fields_differ_refl. }
  split.
  - destruct (update_snooze_cases until' id s) as [[_ E]|[_ E]]; rewrite E;
      cbn [snd set_tasks tasks weather_logs tasks_seq weather_logs_seq]; auto.
  - destruct (snooze_task_cases now id text s) as [[e E]|[u E]]; rewrite E;
      cbn [snd set_tasks tasks weather_logs tasks_seq weather_logs_seq]; auto.
Qed.

(** ** The report of open tasks *)

Lemma is_open_iff t : is_open t = true <-> open_status t.
Proof.
  unfold is_open, open_status. rewrite orb_true_iff, !String.eqb_eq. reflexivity.
Qed.

Lemma insert_desc_perm t l : Permutation (insert_desc t l) (t :: l).
Proof.
  induction l as [|u r IH]; cbn [insert_desc]; [reflexivity|].
  destruct (created_at u <=? created_at t); [reflexivity|].
  rewrite IH. apply perm_swap.
Qed.

Lemma order_by_created_at_desc_perm l :
  Permutation (order_by_created_at_desc l) l.
Proof.
  induction l as [|t l IH]; cbn; [reflexivity|].
  rewrite insert_desc_perm. constructor. exact IH.
Qed.

Lemma insert_desc_newest_first t l :
  newest_first l -> newest_first (insert_desc t l).
Proof.
  unfold newest_first. induction 1 as [|u r Hr IH Hu]; cbn [insert_desc].
  - constructor; constructor.
  - destruct (Z.leb_spec (created_at u) (created_at t)) as [Hle|Hlt].
    + constructor; [constructor; assumption|].
      constructor; [exact Hle|].
      eapply Forall_impl; [|exact Hu]. cbn. intros b Hb. lia.
    + constructor; [exact IH|].
      apply Forall_forall. intros b Hb.
      apply (Permutation_in _ (insert_desc_perm t r)) in Hb.
      destruct Hb as [<-|Hb]; [lia|].
      rewrite Forall_forall in Hu. apply Hu. exact Hb.
Qed.

Lemma order_by_created_at_desc_newest_first l :
  newest_first (order_by_created_at_desc l).
Proof.
  induction l as [|t l IH]; cbn.
  - constructor.
  - apply insert_desc_newest_first. exact IH.
Qed.

Lemma firstn_newest_first n l : newest_first l -> newest_first (firstn n l).
Proof.
  unfold newest_first. intros H. revert n.
  induction H as [|u r Hr IH Hu]; intros [|n]; cbn; try constructor.
  - apply IH.
  - apply Forall_forall. intros b Hb. rewrite Forall_forall in Hu.
    apply Hu. rewrite <- (firstn_skipn n r). apply in_or_app. left. exact Hb.
Qed.

(** In a list sorted newest first, what [firstn] leaves out is not newer
    than what it keeps. *)
Lemma skipped_not_newer n l a b :
  newest_first l -> In a (firstn n l) -> In b (skipn n l) ->
  created_at b <= created_at a.
Proof.
  unfold newest_first. intros H. revert n.
  induction H as [|u r Hr IH Hu]; intros [|n]; cbn; try tauto.
  intros [<-|Ha] Hb.
  - rewrite Forall_forall in Hu. apply Hu.
    rewrite <- (firstn_skipn n r). apply in_or_app. right. exact Hb.
  - apply (IH n); assumption.
Qed.

Lemma bind_list_open_report {A} (m : M A) n s report :
  fst (bind m (fun _ => list_open n) s) = Ok report ->
  report = map report_row (open_tasks n (snd (bind m (fun _ => list_open n) s))).
Proof.
  unfold bind. destruct (m s) as [[a|e] s']; cbn; [congruence|discriminate].
Qed.

(** What a [check] run prints is [list_open 5] on the database it leaves. *)
Lemma run_check_report cfg w s report :
  fst (run_check cfg w s) = Ok report ->
  report = map report_row (open_tasks 5 (snd (run_check cfg w s))).
Proof.
  unfold run_check.
  rewrite (bind_ok _ _ _ _ _ (get_weather_eq w s)).
  set (s1 := set_weather_logs s _ _).
  destruct (check_sustained_warmth cfg (now_check w) s1) as [[met|e] s2] eqn:E.
  - rewrite (bind_ok _ _ _ _ _ E). apply bind_list_open_report.
  - rewrite (bind_raise _ _ _ _ _ E). discriminate.
Qed.

Lemma find_app_last {A} (p : A -> bool) (l : list A) (x : A) :
  p x = true -> exists y, find p (l ++ [x]) = Some y.
Proof.
  intros Hx. induction l as [|a l IH]; cbn.
  - rewrite Hx. exists x. reflexivity.
  - destruct (p a); [exists a; reflexivity|exact IH].
Qed.

(** The reminder finds the task that was just created. *)
Lemma create_and_remind_returns utc_now reasoning s :
  fits_int64 (task_id (new_task s utc_now reasoning)) ->
  (id <- create_task utc_now reasoning ;; _ <- send_reminder id ;; ret tt) s
  = (Ok tt,
     set_tasks s (tasks s ++ [new_task s utc_now reasoning])
               (task_id (new_task s utc_now reasoning))).
Proof.
  intros Hfits.
  rewrite (bind_ok _ _ _ _ _ (create_task_eq utc_now reasoning s)).
  set (t := new_task s utc_now reasoning) in *.
  set (s' := set_tasks s (tasks s ++ [t]) (task_id t)).
  assert (send_reminder (task_id t) s' = (Ok true, s')) as Hsend.
  { unfold send_reminder, select_description, bind, lift, sqlite_bind_int.
    destruct Hfits as [Hlo Hhi].
    apply Z.leb_le in Hlo. apply Z.ltb_lt in Hhi. rewrite Hlo, Hhi. cbn [andb].
    subst s'. cbn [set_tasks tasks].
    destruct (find_app_last (fun u => task_id u =? task_id t) (tasks s) t
                (Z.eqb_refl _)) as [y Hy].
    rewrite Hy. reflexivity. }
  rewrite (bind_ok _ _ _ _ _ Hsend). reflexivity.
Qed.

(** A [check] run returns its report whenever the sustained check does not
    raise and the rowid of a new task fits 64 bits. *)
Lemma run_check_returns cfg w s met :
  fst (check_sustained_warmth cfg (now_check w) (snd (get_weather w s))) = Ok met ->
  fits_int64 (next_rowid (tasks_seq s) (map task_id (tasks s))) ->
  exists report, fst (run_check cfg w s) = Ok report.
Proof.
  intros Hmet Hfits. unfold run_check.
  rewrite (bind_ok _ _ _ _ _ (get_weather_eq w s)).
  rewrite get_weather_eq in Hmet. cbn [snd] in Hmet.
  set (s1 := set_weather_logs s _ _) in *.
  pose proof (check_sustained_warmth_state cfg (now_check w) s1) as Hs.
  destruct (check_sustained_warmth cfg (now_check w) s1) as [r s2] eqn:E.
  cbn in Hs, Hmet. subst s2 r.
  rewrite (bind_ok _ _ _ _ _ E).
  assert (exists s3,
             (if met
              then if affirmed (strip (llm_reply w))
                   then id <- create_task (utc_task w) (strip (llm_reply w)) ;;
                        _ <- send_reminder id ;; ret tt
                   else ret tt
              else ret tt) s1 = (Ok tt, s3)) as [s3 Hblock].
  { destruct met; [|eexists; reflexivity].
    destruct (affirmed _); [|eexists; reflexivity].
    eexists. apply create_and_remind_returns. exact Hfits. }
  rewrite (bind_ok _ _ _ _ _ Hblock). eexists. reflexivity.
Qed.

(** C6: [list_open 5] reports rows of [tasks] whose status is "pending" or
    "snoozed" and no row with another status, at most 5 of them, all of them
    when there are at most 5, most recently created first, and no open task
    it leaves out was created after one it reports; the database is left as
    it is.  The same holds for every limit [n].  A [check] run returns
    whenever its sustained check does not raise (and the rowid of a new task
    fits 64 bits), and the list it prints is this report, with limit 5, of
    the database the run leaves. *)
Theorem list_open_reports_newest_open_tasks :
  forall (n : nat) (s : db),
    list_open n s = (Ok (map report_row (open_tasks n s)), s)
    /\ (List.length (map report_row (open_tasks n s)) <= n)%nat
    /\ List.length (open_tasks n s)
       = Nat.min n (List.length (filter is_open (tasks s)))
    /\ (forall t, In t (open_tasks n s) -> In t (tasks s) /\ open_status t)
    /\ (forall t, In t (tasks s) -> ~ open_status t -> ~ In t (open_tasks n s))
    /\ newest_first (open_tasks n s)
    /\ (forall a t,
          In a (open_tasks n s) -> In t (tasks s) -> open_status t ->
          ~ In t (open_tasks n s) -> created_at t <= created_at a)
    /\ (forall cfg w met,
          fst (check_sustained_warmth cfg (now_check w) (snd (get_weather w s)))
          = Ok met ->
          fits_int64 (next_rowid (tasks_seq s) (map task_id (tasks s))) ->
          exists report, fst (run_check cfg w s) = Ok report)
    /\ (forall cfg w report,
          fst (run_check cfg w s) = Ok report ->
          report = map report_row (open_tasks 5 (snd (run_check cfg w s)))).
Proof.
  intros n s. unfold open_tasks.
  set (sorted := order_by_created_at_desc (filter is_open (tasks s))).
  assert (Permutation sorted (filter is_open (tasks s))) as Hperm
    by apply order_by_created_at_desc_perm.
  assert (newest_first sorted) as Hsorted
    by apply order_by_created_at_desc_newest_first.
  assert (forall t, In t (firstn n sorted) -> In t (tasks s) /\ open_status t) as Hin.
  { intros t Ht.
    assert (In t sorted) as Ht'
      by (rewrite <- (firstn_skipn n sorted); apply in_or_app; left; exact Ht).
    apply (Permutation_in _ Hperm), filter_In in Ht'.
    rewrite <- is_open_iff. exact Ht'. }
  split; [reflexivity|].
  split; [rewrite length_map; apply firstn_le_length|].
  split; [rewrite length_firstn, (Permutation_length Hperm); reflexivity|].
  split; [exact Hin|].
  split; [intros t _ Hclosed Ht; apply Hclosed, (Hin t Ht)|].
  split; [apply firstn_newest_first; exact Hsorted|].
  split; [|split; [intros cfg w met; apply run_check_returns
                  |intros cfg w report; apply run_check_report]].
  intros a t Ha Ht Hopen Hout.
  apply (skipped_not_newer n sorted); [exact Hsorted|exact Ha|].
  assert (In t sorted) as Ht'.
  { apply (Permutation_in _ (Permutation_sym Hperm)), filter_In.
    rewrite is_open_iff. split; assumption. }
  rewrite <- (firstn_skipn n sorted) in Ht'.
  apply in_app_or in Ht'. destruct Ht' as [Ht'|Ht']; [contradiction|exact Ht'].
Qed.

(** Of the six open tasks of [busy_store] the five newest are reported,
    newest first, and a [check] run on it returns. *)
Lemma list_open_reports_newest_open_tasks_witness :
  list_open 5 busy_store
  = (Ok [(7, "pending", "g"); (5, "pending", "e"); (4, "pending", "d");
         (3, "snoozed", "c"); (1, "pending", "a")], busy_store)
  /\ exists report,
       fst (run_check scenario_config (scenario_world "Yes, test it") busy_store)
       = Ok report.
Proof.
  pose proof (list_open_reports_newest_open_tasks 5 busy_store)
    as (H1 & _ & _ & _ & _ & _ & _ & H8 & _).
  split; [exact H1|].
  apply (H8 scenario_config (scenario_world "Yes, test it") false); [reflexivity|].
  split; [discriminate|reflexivity].
Defined.

(** ** Every operation, on both tables *)

Lemma main_state cfg w a s :
  snd (main cfg w a s)
  = match dispatch a with
    | RunCheck => snd (run_check cfg w s)
    | RunSnooze id d => snd (snooze_task (now_snooze w) id d s)
    | RunNothing => s
    end.
Proof.
  unfold main. destruct (dispatch a); try reflexivity.
  apply snd_bind_reader. reflexivity.
Qed.

Lemma snooze_task_tasks now id text s :
  tasks (snd (snooze_task now id text s)) = tasks s
  \/ exists until,
       tasks (snd (snooze_task now id text s)) = map (snooze_row until id) (tasks s).
Proof.
  destruct (snooze_task_cases now id text s) as [[e E]|[u E]]; rewrite E.
  - left. reflexivity.
  - right. exists u. reflexivity.
Qed.

Lemma snooze_task_weather_logs now id text s :
  weather_logs (snd (snooze_task now id text s)) = weather_logs s.
Proof.
  destruct (snooze_task_cases now id text s) as [[e E]|[u E]]; rewrite E; reflexivity.
Qed.

Lemma new_task_fresh s utc_now reasoning : fresh_task (new_task s utc_now reasoning).
Proof. split; reflexivity. Qed.

(** The goal [exists new, l = l ++ new /\ Forall P new] when nothing was
    added. *)
Ltac nothing_added :=
  exists []; split; [symmetry; apply List.app_nil_r|constructor].

Lemma run_check_adds_fresh cfg w s :
  exists new,
    tasks (snd (run_check cfg w s)) = tasks s ++ new /\ Forall fresh_task new.
Proof.
  rewrite run_check_tasks.
  destruct (fst (check_sustained_warmth _ _ _)) as [[|]|e];
    [destruct (affirmed _)|..];
    try nothing_added.
  eexists. split; [reflexivity|].
  constructor; [apply new_task_fresh|constructor].
Qed.

(** An operation that does not snooze keeps every task and adds only
    pending ones without a deadline. *)
Lemma perform_adds_fresh o s :
  snoozes o = false ->
  exists new, tasks (perform o s) = tasks s ++ new /\ Forall fresh_task new.
Proof.
  assert (exists new, tasks s = tasks s ++ new /\ Forall fresh_task new) as Hsame
    by nothing_added.
  destruct o as [w|cfg now|utc r|id|now id text|n|cfg w|cfg w a];
    cbn [snoozes perform]; intros Hs; try discriminate.
  - exact Hsame.
  - rewrite check_sustained_warmth_state. exact Hsame.
  - rewrite create_task_eq. cbn [snd set_tasks tasks].
    eexists. split; [reflexivity|]. constructor; [apply new_task_fresh|constructor].
  - rewrite send_reminder_state. exact Hsame.
  - exact Hsame.
  - apply run_check_adds_fresh.
  - rewrite main_state. destruct (dispatch a); try discriminate.
    + apply run_check_adds_fresh.
    + exact Hsame.
Qed.

(** An operation that snoozes rewrites the rows with [snooze_row], or
    leaves them. *)
Lemma perform_snoozes o s :
  snoozes o = true ->
  tasks (perform o s) = tasks s
  \/ exists until id, tasks (perform o s) = map (snooze_row until id) (tasks s).
Proof.
  destruct o as [w|cfg now|utc r|id|now id text|n|cfg w|cfg w a];
    cbn [snoozes perform]; intros Hs; try discriminate.
  - destruct (snooze_task_tasks now id text s) as [H|[u H]]; [left; exact H|].
    right. exists u, id. exact H.
  - rewrite main_state. destruct (dispatch a) as [| id d |]; try discriminate.
    destruct (snooze_task_tasks (now_snooze w) id d s) as [H|[u H]]; [left; exact H|].
    right. exists u, id. exact H.
Qed.

(** No operation rewrites an observation; the rows it adds have the flag
    unset. *)
Lemma perform_weather_logs o s :
  exists new,
    weather_logs (perform o s) = weather_logs s ++ new /\ Forall flag_unset new.
Proof.
  assert (exists new, weather_logs s = weather_logs s ++ new /\ Forall flag_unset new)
    as Hsame by nothing_added.
  assert (forall w, exists new,
             weather_logs (snd (get_weather w s)) = weather_logs s ++ new
             /\ Forall flag_unset new) as Hget.
  { intros w. rewrite get_weather_eq. cbn [snd set_weather_logs weather_logs].
    eexists. split; [reflexivity|]. constructor; [reflexivity|constructor]. }
  destruct o as [w|cfg now|utc r|id|now id text|n|cfg w|cfg w a]; cbn [perform].
  - apply Hget.
  - rewrite check_sustained_warmth_state. exact Hsame.
  - exact Hsame.
  - rewrite send_reminder_state. exact Hsame.
  - rewrite snooze_task_weather_logs. exact Hsame.
  - exact Hsame.
  - rewrite run_check_weather_logs. apply Hget.
  - rewrite main_state. destruct (dispatch a) as [| id d |].
    + rewrite run_check_weather_logs. apply Hget.
    + rewrite snooze_task_weather_logs. exact Hsame.
    + exact Hsame.
Qed.

(** ** The snooze invariant *)

Lemma fresh_task_consistent t : fresh_task t -> snooze_consistent t.
Proof.
  intros [Hs Hu]. unfold snooze_consistent. rewrite Hs, Hu.
  split; [congruence|discriminate].
Qed.

Lemma snooze_row_consistent until id t :
  snooze_consistent t -> snooze_consistent (snooze_row until id t).
Proof.
  intros H. unfold snooze_row. destruct (task_id t =? id); [|exact H].
  unfold snooze_consistent. cbn. split; [reflexivity|discriminate].
Qed.

Lemma snooze_row_same_or_snoozed until id t :
  same_or_snoozed t (snooze_row until id t).
Proof.
  unfold same_or_snoozed, snooze_row. destruct (task_id t =? id); [|left; reflexivity].
  right. cbn. split; [reflexivity|]. exists until. reflexivity.
Qed.

Lemma perform_consistent o s :
  tasks_consistent s -> tasks_consistent (perform o s).
Proof.
  unfold tasks_consistent. intros H.
  destruct (snoozes o) eqn:Hs.
  - destruct (perform_snoozes o s Hs) as [E|[u [id E]]]; rewrite E; [exact H|].
    apply Forall_map. eapply Forall_impl; [|exact H].
    intros t. apply snooze_row_consistent.
  - destruct (perform_adds_fresh o s Hs) as [new [E Hnew]]. rewrite E.
    apply Forall_app. split; [exact H|].
    eapply Forall_impl; [|exact Hnew]. intros t. apply fresh_task_consistent.
Qed.

Lemma reachable_consistent s : reachable s -> tasks_consistent s.
Proof.
  induction 1 as [|o s _ IH].
  - constructor.
  - apply perform_consistent. exact IH.
Qed.

Lemma perform_same_or_snoozed o s :
  Forall2 same_or_snoozed (tasks s)
          (firstn (List.length (tasks s)) (tasks (perform o s))).
Proof.
  assert (Forall2 same_or_snoozed (tasks s) (tasks s)) as Hsame
    by (apply Forall2_same; intros t; left; reflexivity).
  destruct (snoozes o) eqn:Hs.
  - destruct (perform_snoozes o s Hs) as [E|[u [id E]]]; rewrite E.
    + rewrite firstn_all. exact Hsame.
    + rewrite <- (length_map (snooze_row u id)), firstn_all.
      apply Forall2_map_right. intros t. apply snooze_row_same_or_snoozed.
  - destruct (perform_adds_fresh o s Hs) as [new [E _]]. rewrite E.
    rewrite firstn_app, firstn_all, Nat.sub_diag, firstn_O, List.app_nil_r.
    exact Hsame.
Qed.

(** C7: snooze-until is set if and only if the status is "snoozed", for
    every task after every operation in scope.  The invariant holds in the
    empty database, every operation keeps it whether it returns or raises,
    so it holds in every database the program reaches; [create_task] adds
    one row with status "pending" and no snooze-until; an operation that
    does not snooze leaves every row as it was and adds only such rows; and
    whatever the operation, a row that was there is afterwards the same row
    or has status "snoozed" together with a snooze-until. *)
Theorem snooze_until_set_iff_snoozed :
  tasks_consistent empty_db
  /\ (forall o s, tasks_consistent s -> tasks_consistent (perform o s))
  /\ (forall s, reachable s -> tasks_consistent s)
  /\ (forall utc_now reasoning s,
        exists id t,
          create_task utc_now reasoning s = (Ok id, set_tasks s (tasks s ++ [t]) id)
          /\ task_id t = id /\ status t = "pending" /\ snooze_until t = None)
  /\ (forall o s,
        snoozes o = false ->
        exists new, tasks (perform o s) = tasks s ++ new /\ Forall fresh_task new)
  /\ (forall o s,
        Forall2 same_or_snoozed (tasks s)
                (firstn (List.length (tasks s)) (tasks (perform o s)))).
Proof.
  split; [constructor|].
  split; [exact perform_consistent|].
  split; [exact reachable_consistent|].
  split; [|split; [exact perform_adds_fresh|exact perform_same_or_snoozed]].
  intros utc_now reasoning s.
  exists (task_id (new_task s utc_now reasoning)), (new_task s utc_now reasoning).
  rewrite create_task_eq. auto.
Qed.

(** Snoozing the one pending task keeps the invariant. *)
Lemma snooze_until_set_iff_snoozed_witness :
  tasks_consistent (perform (OpSnoozeTask noon_2026_11_04 1 "1d") one_task_store).
Proof.
  apply (proj1 (proj2 snooze_until_set_iff_snoozed)).
  constructor; [|constructor].
  split; [intros H; exfalso; apply H; reflexivity|discriminate].
Defined.

(** ** The condition-met flag *)

Lemma reachable_flag_unset s : reachable s -> Forall flag_unset (weather_logs s).
Proof.
  induction 1 as [|o s _ IH].
  - constructor.
  - destruct (perform_weather_logs o s) as [new [E Hnew]]. rewrite E.
    apply Forall_app. split; assumption.
Qed.

(** C9: [get_weather] writes each observation with the condition-met flag
    0, whatever the value; no operation in scope rewrites an observation,
    and every row an operation adds has the flag 0, so the flag is 0 on
    every row of every database the program reaches. *)
Theorem condition_met_is_never_set :
  (forall w s,
      exists r,
        get_weather w s
        = (Ok (api_temp w), set_weather_logs s (weather_logs s ++ [r]) (log_id r))
        /\ temp r = api_temp w /\ timestamp r = utc_log w /\ condition_met r = 0)
  /\ (forall o s,
        exists new,
          weather_logs (perform o s) = weather_logs s ++ new
          /\ Forall flag_unset new)
  /\ (forall s, reachable s -> Forall flag_unset (weather_logs s)).
Proof.
  split; [|split; [exact perform_weather_logs|exact reachable_flag_unset]].
  intros w s.
  exists (mk_weather_log (next_rowid (weather_logs_seq s) (map log_id (weather_logs s)))
                         (utc_log w) (api_temp w) 0).
  rewrite get_weather_eq. cbn. auto.
Qed.

(** The database after two [check] runs is reachable: both its rows have
    the flag 0. *)
Lemma condition_met_is_never_set_witness :
  Forall flag_unset
         (weather_logs
            (perform (OpRunCheck scenario_config (scenario_world "Yes"))
               (perform (OpRunCheck scenario_config (scenario_world "No")) empty_db))).
Proof.
  apply (proj2 (proj2 condition_met_is_never_set)).
  do 2 apply reachable_step. apply reachable_empty.
Defined.

(** ** The command line *)

Lemma dispatch_snooze_iff a id d :
  dispatch a = RunSnooze id d
  <-> arg_mode a = Snooze
      /\ arg_task_id a = Some id /\ id <> 0
      /\ arg_duration a = Some d /\ d <> "".
Proof.
  unfold dispatch. destruct a as [[|] [i|] [x|]]; cbn;
    try (split; [discriminate|intros (H1 & H2 & _ & H3 & _); discriminate]).
  destruct (Z.eqb_spec i 0) as [->|Hi]; cbn.
  - split; [discriminate|]. intros (_ & H & Hne & _). congruence.
  - destruct (String.eqb_spec x "") as [->|Hx]; cbn.
    + split; [discriminate|]. intros (_ & _ & _ & H & Hne). congruence.
    + split.
      * intros H. injection H as <- <-. auto.
      * intros (_ & H1 & _ & H2 & _). congruence.
Qed.

(** C10: in snooze mode with the task identifier absent or 0, or the
    duration absent, nothing is selected: the script returns without error
    and the database is what it was.  [snooze_task] is selected only in
    snooze mode with an identifier other than 0 and a duration, which must
    in fact be a non-empty text, and then the script is that call. *)
Theorem snooze_mode_needs_task_id_and_duration :
  (forall cfg w a s,
      arg_mode a = Snooze ->
      arg_task_id a = None \/ arg_task_id a = Some 0 \/ arg_duration a = None ->
      dispatch a = RunNothing /\ main cfg w a s = (Ok tt, s))
  /\ (forall a id d,
        dispatch a = RunSnooze id d
        <-> arg_mode a = Snooze
            /\ arg_task_id a = Some id /\ id <> 0
            /\ arg_duration a = Some d /\ d <> "")
  /\ (forall cfg w a id d,
        dispatch a = RunSnooze id d ->
        main cfg w a = snooze_task (now_snooze w) id d).
Proof.
  split; [|split; [exact dispatch_snooze_iff|]].
  - intros cfg w a s Hmode Hmissing.
    assert (dispatch a = RunNothing) as Hd.
    { unfold dispatch. rewrite Hmode.
      destruct Hmissing as [H|[H|H]]; rewrite H; [reflexivity| |].
      - destruct (arg_duration a); reflexivity.
      - destruct (arg_task_id a); reflexivity. }
    split; [exact Hd|]. unfold main. rewrite Hd. reflexivity.
  - intros cfg w a id d Hd. unfold main. rewrite Hd. reflexivity.
Qed.

(** Snooze mode with task id 0 and a duration: nothing happens. *)
Lemma snooze_mode_needs_task_id_and_duration_witness :
  dispatch (mk_args Snooze (Some 0) (Some "1d")) = RunNothing
  /\ main scenario_config (scenario_world "") (mk_args Snooze (Some 0) (Some "1d"))
          one_task_store
     = (Ok tt, one_task_store).
Proof.
  apply (proj1 snooze_mode_needs_task_id_and_duration); [reflexivity|].
  right. left. reflexivity.
Defined.

(** * Further properties of the script *)

(** ** Every operation is a sequence of the three writes *)

Lemma writes_one s s1 : write s s1 -> writes s s1.
Proof. intros H. eapply writes_more; [exact H|apply writes_none]. Qed.

Lemma writes_trans s s1 s2 : writes s s1 -> writes s1 s2 -> writes s s2.
Proof.
  induction 1 as [|s sa sb Hw _ IH]; [auto|].
  intros H. eapply writes_more; [exact Hw|apply IH, H].
Qed.

Lemma get_weather_writes w s : writes s (snd (get_weather w s)).
Proof. apply writes_one. exact (write_log s (utc_log w) (api_temp w)). Qed.

Lemma create_task_writes utc_now reasoning s :
  writes s (snd (create_task utc_now reasoning s)).
Proof. apply writes_one. exact (write_task s utc_now (task_description reasoning)). Qed.

Lemma snooze_task_writes now id text s :
  writes s (snd (snooze_task now id text s)).
Proof.
  destruct (snooze_task_cases now id text s) as [[e E]|[u E]]; rewrite E; cbn [snd].
  - apply writes_none.
  - apply writes_one. apply write_snooze.
Qed.

Lemma run_check_writes cfg w s : writes s (snd (run_check cfg w s)).
Proof.
  rewrite run_check_state. cbv zeta.
  apply (writes_trans _ _ _ (get_weather_writes w s)).
  destruct (fst (check_sustained_warmth _ _ _)) as [[|]|e]; try apply writes_none.
  destruct (affirmed _); [|apply writes_none].
  apply (create_task_writes (utc_task w) (strip (llm_reply w))).
Qed.

Lemma perform_writes o s : writes s (perform o s).
Proof.
  destruct o as [w|cfg now|utc r|id|now id text|n|cfg w|cfg w a]; cbn [perform].
  - apply get_weather_writes.
  - rewrite check_sustained_warmth_state. apply writes_none.
  - apply create_task_writes.
  - rewrite send_reminder_state. apply writes_none.
  - apply snooze_task_writes.
  - apply writes_none.
  - apply run_check_writes.
  - rewrite main_state. destruct (dispatch a) as [| id d |].
    + apply run_check_writes.
    + apply snooze_task_writes.
    + apply writes_none.
Qed.

(** A property of databases that the empty database has and every write
    keeps holds wherever the program gets. *)
Lemma reachable_by_writes (P : db -> Prop) :
  P empty_db ->
  (forall s s', write s s' -> P s -> P s') ->
  forall s, reachable s -> P s.
Proof.
  intros H0 Hstep.
  assert (forall s s', writes s s' -> P s -> P s') as Hsteps.
  { induction 1 as [|s sa sb Hw _ IH]; [auto|]. intros H. apply IH, (Hstep _ _ Hw H). }
  induction 1 as [|o s _ IH]; [exact H0|].
  exact (Hsteps _ _ (perform_writes o s) IH).
Qed.

(** ** Rowids *)

Lemma fold_max_bounded (c : Z) (l : list Z) :
  Forall (fun x => x <= c) l -> fold_right Z.max c l = c.
Proof.
  induction 1 as [|x l Hx _ IH]; cbn; [reflexivity|]. rewrite IH. lia.
Qed.

Lemma fold_max_ge (c : Z) (l : list Z) :
  c <= fold_right Z.max c l /\ Forall (fun x => x <= fold_right Z.max c l) l.
Proof.
  induction l as [|x l [IH1 IH2]]; cbn; [split; [lia|constructor]|].
  split; [lia|]. constructor; [lia|].
  eapply Forall_impl; [|exact IH2]. cbn. intros y Hy. lia.
Qed.

(** The rowid AUTOINCREMENT assigns is above the counter and above every
    rowid of the table. *)
Lemma next_rowid_fresh (c : Z) (ids : list Z) :
  c < next_rowid c ids /\ Forall (fun x => x < next_rowid c ids) ids.
Proof.
  unfold next_rowid. destruct (fold_max_ge c ids) as [H1 H2].
  split; [lia|]. rewrite Forall_forall in *. intros y Hy. specialize (H2 y Hy). lia.
Qed.

Lemma counts_from_one_next ids counter :
  counts_from_one ids counter ->
  next_rowid counter ids = counter + 1
  /\ counts_from_one (ids ++ [counter + 1]) (counter + 1).
Proof.
  intros [Hids Hc]. split.
  - unfold next_rowid. rewrite fold_max_bounded; [lia|].
    rewrite Hids, Hc. apply Forall_map, Forall_forall.
    intros i Hi. apply in_seq in Hi. lia.
  - unfold counts_from_one. rewrite length_app. cbn [List.length].
    rewrite Nat.add_1_r, seq_S, map_app, <- Hids. cbn [map].
    split; [f_equal; f_equal; lia|lia].
Qed.

Lemma map_task_id_snooze_row until id l :
  map task_id (map (snooze_row until id) l) = map task_id l.
Proof.
  rewrite map_map. apply map_ext. intros t.
  unfold snooze_row. destruct (task_id t =? id); reflexivity.
Qed.

Lemma write_rowids_in_sequence s s' :
  write s s' -> rowids_in_sequence s -> rowids_in_sequence s'.
Proof.
  intros Hw [Ht Hl]. destruct Hw as [utc t|utc d|u id]; unfold rowids_in_sequence;
    cbn [snd insert_weather_log insert_task set_weather_logs set_tasks
         tasks tasks_seq weather_logs weather_logs_seq].
  - split; [exact Ht|]. destruct (counts_from_one_next _ _ Hl) as [E H].
    rewrite map_app, E. exact H.
  - split; [|exact Hl]. destruct (counts_from_one_next _ _ Ht) as [E H].
    rewrite map_app, E. exact H.
  - split; [|exact Hl]. rewrite map_task_id_snooze_row. exact Ht.
Qed.

Lemma counts_from_one_NoDup ids counter : counts_from_one ids counter -> NoDup ids.
Proof.
  intros [H _]. rewrite H. apply Finite.Injective_map_NoDup; [|apply seq_NoDup].
  intros a b. apply Nat2Z.inj.
Qed.

Lemma counts_from_one_In ids counter id :
  counts_from_one ids counter -> (In id ids <-> 1 <= id <= counter).
Proof.
  intros [H Hc]. rewrite H at 1. rewrite in_map_iff. split.
  - intros [i [<- Hi]]. apply in_seq in Hi. lia.
  - intros Hid. exists (Z.to_nat id). split; [lia|]. apply in_seq. lia.
Qed.

(** X1: in every database the program reaches from the empty one, the
    identifiers of the tasks are 1, 2, ..., n in table order and those of
    the observations likewise, with each AUTOINCREMENT counter at the number
    of rows: no identifier is shared, none is skipped, no row is ever
    deleted, and a task with identifier [id] exists exactly when [id] lies
    between 1 and the number of tasks. *)
Theorem reachable_rowids_count_from_one :
  forall s,
    reachable s ->
    rowids_in_sequence s
    /\ NoDup (map task_id (tasks s))
    /\ NoDup (map log_id (weather_logs s))
    /\ (forall id, task_exists id s <-> 1 <= id <= Z.of_nat (List.length (tasks s))).
Proof.
  intros s Hs.
  assert (rowids_in_sequence s) as [Ht Hl].
  { apply (reachable_by_writes rowids_in_sequence); [|exact write_rowids_in_sequence|exact Hs].
    split; split; reflexivity. }
  split; [split; assumption|].
  split; [exact (counts_from_one_NoDup _ _ Ht)|].
  split; [exact (counts_from_one_NoDup _ _ Hl)|].
  intros id. rewrite <- (length_map task_id).
  destruct Ht as [Hids Hc].
  rewrite <- (counts_from_one_In _ _ id (conj Hids eq_refl)).
  unfold task_exists. rewrite in_map_iff. split.
  - intros [t [Hin Hid]]. exists t. split; assumption.
  - intros [t [Hid Hin]]. exists t. split; assumption.
Qed.

(** Two [check] runs, the second of which opens a task, then a snooze. *)
Lemma reachable_rowids_count_from_one_witness :
  rowids_in_sequence
    (perform (OpSnoozeTask noon_2026_11_04 1 "2h")
       (perform (OpRunCheck (mk_config 50 2) (scenario_world "Yes"))
          (perform (OpRunCheck (mk_config 50 2) (scenario_world "Yes")) empty_db))).
Proof.
  apply reachable_rowids_count_from_one.
  do 3 apply reachable_step. apply reachable_empty.
Defined.

(** ** The reminder *)

Lemma find_task_none id l :
  find (fun t => task_id t =? id) l = None <-> (forall t, In t l -> task_id t <> id).
Proof.
  split.
  - intros H t Ht Hid. apply (find_none _ _ H) in Ht. cbn in Ht.
    apply Z.eqb_neq in Ht. contradiction.
  - intros H. induction l as [|t l IH]; [reflexivity|]. cbn.
    destruct (Z.eqb_spec (task_id t) id) as [E|_].
    + exfalso. apply (H t); [left; reflexivity|exact E].
    + apply IH. intros u Hu. apply H. right. exact Hu.
Qed.

Lemma find_task_exists id s :
  task_exists id s <-> exists t, find (fun t => task_id t =? id) (tasks s) = Some t.
Proof.
  unfold task_exists. split.
  - intros [t [Ht Hid]].
    destruct (find (fun t => task_id t =? id) (tasks s)) as [u|] eqn:E;
      [exists u; reflexivity|].
    exfalso. exact (proj1 (find_task_none id (tasks s)) E t Ht Hid).
  - intros [t Ht]. apply find_some in Ht as [Hin Hid]. cbn in Hid.
    exists t. split; [exact Hin|]. apply Z.eqb_eq. exact Hid.
Qed.

Lemma fits_int64_dec id : {fits_int64 id} + {~ fits_int64 id}.
Proof.
  unfold fits_int64.
  destruct (Z_le_dec (- 2 ^ 63) id); destruct (Z_lt_dec id (2 ^ 63));
    [left; split; assumption|right; lia..].
Qed.

Lemma sqlite_bind_int_cases id :
  (fits_int64 id /\ sqlite_bind_int id = Ok id)
  \/ (~ fits_int64 id /\ sqlite_bind_int id = Raise OverflowError).
Proof.
  unfold sqlite_bind_int, fits_int64.
  destruct (Z.leb_spec (- 2 ^ 63) id); destruct (Z.ltb_spec id (2 ^ 63)); cbn [andb];
    [left; split; [lia|reflexivity]|right; split; [lia|reflexivity]..].
Qed.

(** [send_reminder] by cases. *)
Lemma send_reminder_cases id s :
  (fits_int64 id /\ task_exists id s /\ send_reminder id s = (Ok true, s))
  \/ (fits_int64 id /\ ~ task_exists id s /\ send_reminder id s = (Raise TypeError, s))
  \/ (~ fits_int64 id /\ send_reminder id s = (Raise OverflowError, s)).
Proof.
  unfold send_reminder, select_description, bind, lift.
  destruct (sqlite_bind_int_cases id) as [[Hfits E]|[Hfits E]]; rewrite E.
  - destruct (find (fun t => task_id t =? id) (tasks s)) as [t|] eqn:F; cbn [option_map].
    + left. split; [exact Hfits|]. split; [|reflexivity].
      apply find_task_exists. exists t. exact F.
    + right. left. split; [exact Hfits|]. split; [|reflexivity].
      intros H. apply find_task_exists in H as [t H]. congruence.
  - right. right. split; [exact Hfits|reflexivity].
Qed.

(** X2: [send_reminder] never writes, and its outcome is decided by the
    identifier alone: it returns True exactly when a task with that
    identifier exists, raises [TypeError] (from subscripting the None of
    [fetchone()]) exactly when the identifier fits 64 bits and no task has
    it, and raises [OverflowError] exactly when the identifier does not fit
    SQLite's 64-bit integers. *)
Theorem send_reminder_finds_the_task_or_raises :
  forall id s,
    snd (send_reminder id s) = s
    /\ (fst (send_reminder id s) = Ok true <-> fits_int64 id /\ task_exists id s)
    /\ (fst (send_reminder id s) = Raise TypeError
        <-> fits_int64 id /\ ~ task_exists id s)
    /\ (fst (send_reminder id s) = Raise OverflowError <-> ~ fits_int64 id).
Proof.
  intros id s. split; [apply send_reminder_state|].
  destruct (send_reminder_cases id s) as [(Hf & He & E)|[(Hf & He & E)|(Hf & E)]];
    rewrite E; cbn [fst];
    (split; [|split]); split; try discriminate; try tauto.
Qed.

Lemma find_after_misses {A} (p : A -> bool) (l : list A) (x : A) :
  (forall a, In a l -> p a = false) -> p x = true -> find p (l ++ [x]) = Some x.
Proof.
  intros Hl Hx. induction l as [|a l IH]; cbn.
  - rewrite Hx. reflexivity.
  - rewrite (Hl a) by (left; reflexivity). apply IH.
    intros b Hb. apply Hl. right. exact Hb.
Qed.

Lemma new_task_id_unused s utc_now reasoning :
  forall t, In t (tasks s) -> task_id t <> task_id (new_task s utc_now reasoning).
Proof.
  intros t Ht. cbn [new_task task_id].
  destruct (next_rowid_fresh (tasks_seq s) (map task_id (tasks s))) as [_ H].
  rewrite Forall_forall in H. specialize (H (task_id t) (in_map task_id _ _ Ht)). lia.
Qed.

(** X3: the identifier [create_task] returns was held by no task before,
    lies above the AUTOINCREMENT counter, and names the row just written:
    looking the description up under it gives back the description that was
    stored, and [send_reminder] on it returns True, in every database,
    provided the new rowid fits 64 bits. *)
Theorem create_task_then_lookup_finds_it :
  forall utc_now reasoning s,
    fits_int64 (next_rowid (tasks_seq s) (map task_id (tasks s))) ->
    exists id s',
      create_task utc_now reasoning s = (Ok id, s')
      /\ tasks_seq s < id
      /\ ~ task_exists id s
      /\ select_description id s' = (Ok (Some (task_description reasoning)), s')
      /\ send_reminder id s' = (Ok true, s').
Proof.
  intros utc_now reasoning s Hfits.
  set (t := new_task s utc_now reasoning).
  exists (task_id t), (set_tasks s (tasks s ++ [t]) (task_id t)).
  split; [apply create_task_eq|].
  split; [apply next_rowid_fresh|].
  split.
  { intros [u [Hu Hid]]. exact (new_task_id_unused s utc_now reasoning u Hu Hid). }
  assert (find (fun u => task_id u =? task_id t) (tasks s ++ [t]) = Some t) as Hfind.
  { apply find_after_misses; [|apply Z.eqb_refl].
    intros u Hu. apply Z.eqb_neq. exact (new_task_id_unused s utc_now reasoning u Hu). }
  assert (sqlite_bind_int (task_id t) = Ok (task_id t)) as Hbind.
  { destruct (sqlite_bind_int_cases (task_id t)) as [[_ E]|[Hn _]];
      [exact E|contradiction]. }
  split.
  - unfold select_description, bind, lift. rewrite Hbind.
    cbn [set_tasks tasks]. rewrite Hfind. reflexivity.
  - unfold send_reminder, select_description, bind, lift. rewrite Hbind.
    cbn [set_tasks tasks]. rewrite Hfind. reflexivity.
Qed.

(** A ninth task in [busy_store]: it gets identifier 9 and is found. *)
Lemma create_task_then_lookup_finds_it_witness :
  exists id s',
    create_task noon_2026_11_04 "Yes" busy_store = (Ok id, s')
    /\ tasks_seq busy_store < id
    /\ ~ task_exists id busy_store
    /\ select_description id s' = (Ok (Some (task_description "Yes")), s')
    /\ send_reminder id s' = (Ok true, s').
Proof.
  apply create_task_then_lookup_finds_it.
  split; [discriminate|reflexivity].
Defined.

(** ** Snoozing again *)

(** Whether a snooze raises, and the deadline it writes, do not depend on
    the database. *)
Lemma snooze_task_shape now id text :
  (exists e, forall s, snooze_task now id text s = (Raise e, s))
  \/ (exists until, forall s,
         snooze_task now id text s
         = (Ok tt, set_tasks s (map (snooze_row until id) (tasks s)) (tasks_seq s))).
Proof.
  unfold snooze_task, update_snooze, bind, lift.
  destruct (snooze_delta text) as [delta|e]; [|left; exists e; reflexivity].
  destruct (datetime_add now delta) as [u|e]; [|left; exists e; reflexivity].
  destruct (sqlite_bind_int_cases id) as [[_ E]|[_ E]]; rewrite E.
  - right. exists u. reflexivity.
  - left. exists OverflowError. reflexivity.
Qed.

Lemma snooze_row_again u1 u2 id t :
  snooze_row u2 id (snooze_row u1 id t) = snooze_row u2 id t.
Proof.
  unfold snooze_row. destruct (Z.eqb_spec (task_id t) id) as [E|E]; cbn [task_id].
  - apply Z.eqb_eq in E. rewrite E. reflexivity.
  - apply Z.eqb_neq in E. rewrite E. reflexivity.
Qed.

Lemma snooze_row_swap u1 u2 id1 id2 t :
  id1 <> id2 ->
  snooze_row u2 id2 (snooze_row u1 id1 t) = snooze_row u1 id1 (snooze_row u2 id2 t).
Proof.
  intros Hne. unfold snooze_row.
  destruct (Z.eqb_spec (task_id t) id1) as [E1|E1];
    destruct (Z.eqb_spec (task_id t) id2) as [E2|E2]; cbn [task_id];
    try (exfalso; congruence);
    repeat match goal with
           | H : task_id t = _ |- _ => apply Z.eqb_eq in H; rewrite H
           | H : task_id t <> _ |- _ => apply Z.eqb_neq in H; rewrite H
           end; reflexivity.
Qed.

Lemma set_tasks_set_tasks s l1 c1 l2 c2 :
  set_tasks (set_tasks s l1 c1) l2 c2 = set_tasks s l2 c2.
Proof. reflexivity. Qed.

(** X4: a later snooze of the same task replaces the earlier one without
    trace: when the second call completes, the database is the one it would
    have left had the first call never been made.  Snoozes of two different
    tasks can be made in either order, whether or not they raise. *)
Theorem later_snooze_overwrites_earlier :
  forall now1 now2 id1 id2 text1 text2 s,
    (id1 = id2 ->
     fst (snooze_task now2 id2 text2 s) = Ok tt ->
     snd (snooze_task now2 id2 text2 (snd (snooze_task now1 id1 text1 s)))
     = snd (snooze_task now2 id2 text2 s))
    /\ (id1 <> id2 ->
        snd (snooze_task now2 id2 text2 (snd (snooze_task now1 id1 text1 s)))
        = snd (snooze_task now1 id1 text1 (snd (snooze_task now2 id2 text2 s)))).
Proof.
  intros now1 now2 id1 id2 text1 text2 s.
  destruct (snooze_task_shape now1 id1 text1) as [[e1 E1]|[u1 E1]];
    destruct (snooze_task_shape now2 id2 text2) as [[e2 E2]|[u2 E2]];
    split; intros Hid; try intros Hok;
    rewrite ?E1, ?E2 in *; cbn [fst snd] in *; rewrite ?E1, ?E2; cbn [fst snd];
    try discriminate; try reflexivity.
  - subst id2. unfold set_tasks; cbn [tasks tasks_seq weather_logs weather_logs_seq].
    f_equal. rewrite map_map. apply map_ext. intros t. apply snooze_row_again.
  - unfold set_tasks; cbn [tasks tasks_seq weather_logs weather_logs_seq].
    f_equal. rewrite !map_map. apply map_ext. intros t. apply snooze_row_swap. exact Hid.
Qed.

(** Task 1 snoozed for twelve days, then for three hours: only the three
    hours remain. *)
Lemma later_snooze_overwrites_earlier_witness :
  snd (snooze_task noon_2026_11_04 1 "3h"
         (snd (snooze_task noon_2026_11_04 1 "12d" one_task_store)))
  = snd (snooze_task noon_2026_11_04 1 "3h" one_task_store).
Proof.
  apply (proj1 (later_snooze_overwrites_earlier
                  noon_2026_11_04 noon_2026_11_04 1 1 "12d" "3h" one_task_store));
    reflexivity.
Defined.

(** ** The report after a snooze *)

Lemma insert_desc_map (f : task -> task) t l :
  (forall u, created_at (f u) = created_at u) ->
  insert_desc (f t) (map f l) = map f (insert_desc t l).
Proof.
  intros Hf. induction l as [|u r IH]; cbn [map insert_desc]; [reflexivity|].
  rewrite !Hf. destruct (created_at u <=? created_at t); cbn [map]; [reflexivity|].
  rewrite IH. reflexivity.
Qed.

Lemma order_by_created_at_desc_map (f : task -> task) l :
  (forall u, created_at (f u) = created_at u) ->
  order_by_created_at_desc (map f l) = map f (order_by_created_at_desc l).
Proof.
  intros Hf. induction l as [|t l IH]; cbn; [reflexivity|].
  change (fold_right insert_desc [] (map f l)) with (order_by_created_at_desc (map f l)).
  rewrite IH. apply insert_desc_map. exact Hf.
Qed.

Lemma filter_map_same {A} (p : A -> bool) (f : A -> A) l :
  (forall a, In a l -> p (f a) = p a) ->
  filter p (map f l) = map f (filter p l).
Proof.
  intros H. induction l as [|a l IH]; cbn; [reflexivity|].
  rewrite (H a) by (left; reflexivity).
  rewrite IH by (intros b Hb; apply H; right; exact Hb).
  destruct (p a); reflexivity.
Qed.

Lemma created_at_snooze_row until id t :
  created_at (snooze_row until id t) = created_at t.
Proof. unfold snooze_row. destruct (task_id t =? id); reflexivity. Qed.

Lemma is_open_snooze_row until id t :
  is_open (snooze_row until id t) = is_open t || (task_id t =? id).
Proof.
  unfold snooze_row. destruct (task_id t =? id); [|rewrite orb_false_r; reflexivity].
  rewrite orb_true_r. reflexivity.
Qed.

(** X5: a snooze does not take a task off the list the [check] run prints.
    When [snooze_task] completes, every task with the given identifier has
    status "snoozed" and so counts as open, whatever its status was; and if
    the tasks with that identifier were open before, the open tasks after
    the snooze are the same rows in the same order, for every limit, the
    snoozed ones differing only as [snooze_row] makes them. *)
Theorem snoozed_task_stays_on_the_list :
  forall now id text n s,
    fst (snooze_task now id text s) = Ok tt ->
    (forall t, In t (tasks (snd (snooze_task now id text s))) ->
               task_id t = id -> status t = "snoozed" /\ is_open t = true)
    /\ ((forall t, In t (tasks s) -> task_id t = id -> open_status t) ->
        exists until,
          open_tasks n (snd (snooze_task now id text s))
          = map (snooze_row until id) (open_tasks n s)).
Proof.
  intros now id text n s Hok.
  destruct (snooze_task_shape now id text) as [[e E]|[u E]];
    rewrite E in *; cbn [fst snd set_tasks tasks] in *; [discriminate|].
  split.
  - intros t Ht Hid. apply in_map_iff in Ht as [t0 [<- _]].
    unfold snooze_row in *. destruct (Z.eqb_spec (task_id t0) id) as [_|Hne];
      [split; reflexivity|contradiction].
  - intros Hopen. exists u. unfold open_tasks. cbn [set_tasks tasks].
    rewrite filter_map_same.
    + rewrite order_by_created_at_desc_map by (intros t; apply created_at_snooze_row).
      apply firstn_map.
    + intros t Ht. rewrite is_open_snooze_row.
      destruct (Z.eqb_spec (task_id t) id) as [Hid|_]; [|apply orb_false_r].
      rewrite orb_true_r. symmetry. apply is_open_iff. exact (Hopen t Ht Hid).
Qed.

(** Task 3 of [busy_store] snoozed for a day: the report lists the same five
    tasks. *)
Lemma snoozed_task_stays_on_the_list_witness :
  exists until,
    open_tasks 5 (snd (snooze_task noon_2026_11_04 3 "1d" busy_store))
    = map (snooze_row until 3) (open_tasks 5 busy_store).
Proof.
  apply (proj2 (snoozed_task_stays_on_the_list
                  noon_2026_11_04 3 "1d" 5 busy_store eq_refl)).
  intros t Ht Hid. cbn in Ht.
  repeat (destruct Ht as [<-|Ht]; [try discriminate Hid; auto|]);
    try contradiction.
  right. reflexivity.
Defined.

(** ** The description of a task *)

Lemma affirmed_not_empty reasoning : affirmed reasoning = true -> reasoning <> "".
Proof. intros H ->. discriminate H. Qed.

(** X6: a task opened by a [check] run always quotes the stripped answer of
    the model in its description (the answer without the white space, of
    any kind Unicode knows, at its two ends) and never the 'weather
    trigger' default of [create_task]: the default stands in for an empty
    answer only, and an affirmed answer is not empty.  The row is pending,
    has no snooze-until, and carries the database clock of the insert. *)
Theorem check_run_task_quotes_the_answer :
  forall cfg w s t,
    tasks (snd (run_check cfg w s)) = tasks s ++ [t] ->
    strip (llm_reply w) <> ""
    /\ description t
       = ("Test outside camera setup (reasoning: " ++ strip (llm_reply w) ++ ")")%string
    /\ status t = "pending"
    /\ snooze_until t = None
    /\ created_at t = utc_task w.
Proof.
  intros cfg w s t H. rewrite run_check_tasks in H.
  assert (forall l : list task, l <> l ++ [t]) as Hno.
  { intros l E. apply (f_equal (@List.length task)) in E.
    rewrite length_app in E. cbn in E. lia. }
  destruct (fst (check_sustained_warmth _ _ _)) as [[|]|e];
    try (exfalso; exact (Hno _ H)).
  destruct (affirmed (strip (llm_reply w))) eqn:A; [|exfalso; exact (Hno _ H)].
  apply app_inv_head in H. injection H as <-.
  pose proof (affirmed_not_empty _ A) as Hne.
  split; [exact Hne|]. cbn [new_task description status snooze_until created_at].
  unfold task_description. destruct (strip (llm_reply w)); [contradiction|auto].
Qed.

(** The fourth warm reading and the answer " Yes, test it" followed by a
    no-break space: task 1 quotes the answer without the blank and without
    the no-break space. *)
Lemma check_run_task_quotes_the_answer_witness :
  strip (" Yes, test it" ++ no_break_space) = "Yes, test it"
  /\ description
       (mk_task 1 "Test outside camera setup (reasoning: Yes, test it)" "pending" None
                (noon_2026_11_04 - 5 * us_per_second))
     = ("Test outside camera setup (reasoning: "
          ++ strip (" Yes, test it" ++ no_break_space) ++ ")")%string.
Proof.
  split; [vm_compute; reflexivity|].
  apply (check_run_task_quotes_the_answer
           scenario_config (scenario_world (" Yes, test it" ++ no_break_space))
           scenario_store).
  vm_compute. reflexivity.
Defined.

(** ** How many readings the check needs *)

Lemma qualifying_count_le_warm threshold since l :
  qualifying_count threshold since l <= Z.of_nat (warm_readings threshold l).
Proof.
  unfold warm_readings. induction l as [|r l IH]; cbn [qualifying_count filter]; [lia|].
  destruct (Qlt_le_dec threshold (temp r)) as [Ht|Ht].
  - apply Qltb_lt in Ht. rewrite Ht. cbn [List.length].
    destruct (Z_lt_dec since (timestamp r)); lia.
  - destruct (Qltb threshold (temp r)); cbn [List.length]; lia.
Qed.

(** Whatever the check returns is the comparison of the required count
    with the count of some window. *)
Lemma check_sustained_warmth_result cfg now s met :
  fst (check_sustained_warmth cfg now s) = Ok met ->
  exists since,
    met = (DURATION_CHECKS cfg
           <=? qualifying_count (TEMP_THRESHOLD cfg) since (weather_logs s)).
Proof.
  unfold check_sustained_warmth, bind, lift, count_since, ret.
  destruct (timedelta_minutes _) as [d|e]; [|discriminate].
  destruct (datetime_sub now d) as [since|e]; [|discriminate].
  cbn [fst]. intros [= <-]. exists since. rewrite filter_count_qualifying. reflexivity.
Qed.

(** X7: the sustained check is never met while the log holds fewer readings
    above the threshold than DURATION_CHECKS, whenever they were taken; so a
    [check] run that, after logging its own reading, finds fewer warm
    readings than that opens no task, whatever the model would answer. *)
Theorem too_few_warm_readings_open_no_task :
  forall cfg w s,
    Z.of_nat (warm_readings (TEMP_THRESHOLD cfg) (weather_logs (snd (get_weather w s))))
    < DURATION_CHECKS cfg ->
    fst (check_sustained_warmth cfg (now_check w) (snd (get_weather w s))) <> Ok true
    /\ tasks (snd (run_check cfg w s)) = tasks s.
Proof.
  intros cfg w s Hfew.
  assert (fst (check_sustained_warmth cfg (now_check w) (snd (get_weather w s)))
          <> Ok true) as Hnot.
  { intros H. apply check_sustained_warmth_result in H as [since H].
    symmetry in H. apply Z.leb_le in H.
    pose proof (qualifying_count_le_warm (TEMP_THRESHOLD cfg) since
                  (weather_logs (snd (get_weather w s)))). lia. }
  split; [exact Hnot|]. rewrite run_check_tasks.
  destruct (fst (check_sustained_warmth _ _ _)) as [[|]|e]; [contradiction|reflexivity..].
Qed.

(** Three warm readings in the log, a fourth reading of 65 degrees, five
    checks required: no task, even though the model says yes. *)
Lemma too_few_warm_readings_open_no_task_witness :
  fst (check_sustained_warmth (mk_config 50 5) noon_2026_11_04
         (snd (get_weather (scenario_world "Yes") scenario_store)))
  <> Ok true
  /\ tasks (snd (run_check (mk_config 50 5) (scenario_world "Yes") scenario_store))
     = tasks scenario_store.
Proof.
  apply (too_few_warm_readings_open_no_task
           (mk_config 50 5) (scenario_world "Yes") scenario_store).
  reflexivity.
Defined.

(** ** A required count that is not positive *)

Lemma check_sustained_warmth_value threshold required_count now s :
  0 <= now < datetime_end ->
  0 <= window_start now required_count < datetime_end ->
  check_sustained_warmth (mk_config threshold required_count) now s
  = (Ok (required_count <=?
         qualifying_count threshold (window_start now required_count) (weather_logs s)), s).
Proof.
  intros Hnow Hstart. unfold window_start in *.
  rewrite us_per_minute_eq, datetime_end_eq in *.
  unfold check_sustained_warmth, timedelta_minutes.
  cbn [DURATION_CHECKS TEMP_THRESHOLD].
  rewrite (bind_ok _ _ s (30 * required_count * us_per_minute) s).
  2:{ unfold lift. rewrite timedelta_new_ok; [reflexivity|].
      rewrite us_per_day_eq, us_per_minute_eq. unfold MAX_DELTA_DAYS. lia. }
  rewrite (bind_ok _ _ s (now - 30 * required_count * us_per_minute) s).
  2:{ unfold lift. rewrite datetime_sub_ok; [reflexivity|].
      rewrite us_per_minute_eq, datetime_end_eq. lia. }
  unfold bind, count_since, ret. rewrite filter_count_qualifying.
  rewrite us_per_minute_eq. reflexivity.
Qed.

Lemma qualifying_count_nonneg threshold since l :
  0 <= qualifying_count threshold since l.
Proof.
  induction l as [|r l IH]; cbn [qualifying_count]; [lia|].
  destruct (Qlt_le_dec threshold (temp r)); [destruct (Z_lt_dec since (timestamp r))|]; lia.
Qed.

(** X8: with DURATION_CHECKS set to 0 or to a negative number the check is
    met on every log, the empty one included, as long as the start of the
    window, which then is [now] or lies after it, is an instant a datetime
    can hold: a count is never below such a requirement. *)
Theorem nonpositive_required_count_is_always_met :
  forall threshold required_count now s,
    required_count <= 0 ->
    0 <= now ->
    window_start now required_count < datetime_end ->
    check_sustained_warmth (mk_config threshold required_count) now s = (Ok true, s).
Proof.
  intros threshold rc now s Hrc Hnow Hend.
  assert (now <= window_start now rc) as Hle.
  { unfold window_start. rewrite us_per_minute_eq. lia. }
  rewrite check_sustained_warmth_value by lia.
  pose proof (qualifying_count_nonneg threshold (window_start now rc) (weather_logs s)).
  replace (rc <=? _) with true by (symmetry; apply Z.leb_le; lia).
  reflexivity.
Qed.

(** DURATION_CHECKS = 0 on the empty database. *)
Lemma nonpositive_required_count_is_always_met_witness :
  check_sustained_warmth (mk_config 50 0) noon_2026_11_04 empty_db = (Ok true, empty_db).
Proof.
  apply nonpositive_required_count_is_always_met; [reflexivity|discriminate|reflexivity].
Defined.

(** ** Signed and malformed magnitudes *)

Lemma rstrip_numeral_nonempty (u : Decimal.uint) :
  u <> Decimal.Nil -> NilEmpty.string_of_uint u <> "".
Proof. destruct u; [congruence|discriminate..]. Qed.

Lemma py_int_negative_numeral (u : Decimal.uint) :
  u <> Decimal.Nil -> (Decimal.nb_digits u <= int_max_str_digits)%nat ->
  py_int ("-" ++ NilEmpty.string_of_uint u) = Ok (- Z.of_uint u).
Proof.
  intros Hu Hlen.
  rewrite py_int_ascii by (rewrite ascii_text_append, ascii_text_numeral; reflexivity).
  unfold long_from_string, strip_with.
  change ("-" ++ NilEmpty.string_of_uint u)%string
    with (String "-" (NilEmpty.string_of_uint u)).
  cbn [lstrip_with]. change (is_literal_space "-") with false. cbv iota.
  cbn [rstrip_with]. rewrite rstrip_numeral.
  destruct (NilEmpty.string_of_uint u) as [|c r] eqn:E;
    [exfalso; exact (rstrip_numeral_nonempty u Hu E)|].
  rewrite <- E. cbn [split_sign]. change (Ascii.eqb "-" "-") with true. cbv iota.
  rewrite (literal_digits_numeral u Hu), NilEmpty.usu.
  apply Nat.ltb_ge in Hlen. rewrite Hlen. reflexivity.
Qed.

(** X9: [snooze_task] accepts a negative magnitude and then writes a
    deadline that lies before [now]: a minus sign, a numeral and 'd' (resp.
    'h') hand the UPDATE the instant [now] minus that many days (resp.
    hours), provided that instant is not before the year 1. *)
Theorem negative_duration_snoozes_into_the_past :
  forall now id u s,
    u <> Decimal.Nil -> (Decimal.nb_digits u <= int_max_str_digits)%nat ->
    now < datetime_end ->
    (0 <= now - Z.of_uint u * us_per_day ->
     snooze_task now id ("-" ++ NilEmpty.string_of_uint u ++ "d") s
     = update_snooze (now - Z.of_uint u * us_per_day) id s)
    /\ (0 <= now - Z.of_uint u * us_per_hour ->
        snooze_task now id ("-" ++ NilEmpty.string_of_uint u ++ "h") s
        = update_snooze (now - Z.of_uint u * us_per_hour) id s).
Proof.
  intros now id u s Hu Hlen Hend.
  pose proof (of_uint_nonneg u) as Hn.
  assert (forall c, ("-" ++ NilEmpty.string_of_uint u ++ String c "")%string
                    = (("-" ++ NilEmpty.string_of_uint u) ++ String c "")%string) as Hassoc
    by reflexivity.
  split; intros Hstart.
  - replace (now - Z.of_uint u * us_per_day) with (now + (- Z.of_uint u) * us_per_day) by lia.
    apply snooze_task_until.
    + unfold snooze_delta. rewrite Hassoc, endswith_last_char, drop_last_append.
      change (Ascii.eqb "d" "d") with true. cbv iota.
      rewrite py_int_negative_numeral by assumption. cbn [result_bind].
      apply timedelta_new_ok.
      rewrite datetime_end_eq, us_per_day_eq in *. unfold MAX_DELTA_DAYS. lia.
    + rewrite us_per_day_eq in *. lia.
  - assert (us_per_hour = 3600000000) as Hh by reflexivity.
    replace (now - Z.of_uint u * us_per_hour) with (now + (- Z.of_uint u) * us_per_hour) by lia.
    apply snooze_task_until.
    + unfold snooze_delta. rewrite Hassoc, !endswith_last_char, drop_last_append.
      change (Ascii.eqb "h" "d") with false. change (Ascii.eqb "h" "h") with true.
      cbv iota. rewrite py_int_negative_numeral by assumption. cbn [result_bind].
      apply timedelta_new_ok.
      rewrite datetime_end_eq, us_per_day_eq, Hh in *. unfold MAX_DELTA_DAYS. lia.
    + rewrite Hh in *. lia.
Qed.

(** "-2d" at noon: the deadline is noon two days earlier. *)
Lemma negative_duration_snoozes_into_the_past_witness :
  snooze_task noon_2026_11_04 1 "-2d" one_task_store
  = update_snooze (noon_2026_11_04 - 2 * us_per_day) 1 one_task_store.
Proof.
  apply (proj1 (negative_duration_snoozes_into_the_past
                  noon_2026_11_04 1 (Decimal.D2 Decimal.Nil) one_task_store
                  ltac:(discriminate) ltac:(cbn; unfold int_max_str_digits; lia)
                  eq_refl)).
  discriminate.
Defined.


(** X10: a duration that ends in 'd' or 'h' is refused as soon as an ASCII
    character before the unit is no part of an integer literal, that is,
    neither a digit, an underscore, a sign nor white space: a decimal point,
    a letter, a second unit.  [snooze_task] then raises [ValueError] and the database
    stays as it is; it never guesses a magnitude and never falls back to
    one day for such a text. *)
Theorem foreign_character_in_magnitude_raises :
  forall now id text s,
    endswith text "d" = true \/ endswith text "h" = true ->
    mentions foreign_to_int (drop_last text) = true ->
    snooze_task now id text s = (Raise ValueError, s).
Proof.
  intros now id text s Hunit Hforeign.
  apply snooze_task_raises, snooze_delta_not_a_literal; [exact Hunit|].
  apply py_int_foreign. exact Hforeign.
Qed.

(** "1.5h": the decimal point is foreign to [int()]. *)
Lemma foreign_character_in_magnitude_raises_witness :
  snooze_task noon_2026_11_04 1 "1.5h" one_task_store
  = (Raise ValueError, one_task_store).
Proof.
  apply foreign_character_in_magnitude_raises; [right; reflexivity|reflexivity].
Defined.

(** ** What a [check] run leaves behind *)

Lemma run_check_raises cfg w s e :
  fst (check_sustained_warmth cfg (now_check w) (snd (get_weather w s))) = Raise e ->
  fst (run_check cfg w s) = Raise e.
Proof.
  rewrite get_weather_eq. cbn [snd]. intros H. unfold run_check.
  rewrite (bind_ok _ _ _ _ _ (get_weather_eq w s)).
  destruct (check_sustained_warmth cfg (now_check w) _) as [r s2] eqn:E.
  cbn [fst] in H. subst r.
  rewrite (bind_raise _ _ _ _ _ E). reflexivity.
Qed.

(** X11: a [check] run that fails in the sustained check leaves its reading
    behind.  When [get_weather] has returned, the reading is logged and
    committed; when the sustained check then raises, the run raises the
    same exception and opens no task, and the new reading stays in the log,
    at the database clock of its insert and under a rowid above all earlier
    ones. *)
Theorem check_run_logs_one_reading_even_if_it_fails :
  forall cfg w s reading e,
    fst (get_weather w s) = Ok reading ->
    fst (check_sustained_warmth cfg (now_check w) (snd (get_weather w s))) = Raise e ->
    fst (run_check cfg w s) = Raise e
    /\ tasks (snd (run_check cfg w s)) = tasks s
    /\ exists r,
         weather_logs (snd (run_check cfg w s)) = weather_logs s ++ [r]
         /\ timestamp r = utc_log w
         /\ Forall (fun r' => log_id r' < log_id r) (weather_logs s).
Proof.
  intros cfg w s reading e _ He.
  split; [apply run_check_raises; exact He|].
  split; [rewrite run_check_tasks, He; reflexivity|].
  rewrite run_check_weather_logs, get_weather_eq.
  cbn [snd set_weather_logs weather_logs].
  eexists. split; [reflexivity|]. cbn [timestamp log_id].
  split; [reflexivity|].
  destruct (next_rowid_fresh (weather_logs_seq s) (map log_id (weather_logs s)))
    as [_ H].
  rewrite Forall_map in H. exact H.
Qed.

(** DURATION_CHECKS = 10^8 on the scenario: the window would start before
    the year 1, the check raises [OverflowError], and the fourth reading is
    in the log all the same. *)
Lemma check_run_logs_one_reading_even_if_it_fails_witness :
  fst (run_check wide_config (scenario_world "Yes") scenario_store) = Raise OverflowError
  /\ tasks (snd (run_check wide_config (scenario_world "Yes") scenario_store)) = []
  /\ List.length
       (weather_logs (snd (run_check wide_config (scenario_world "Yes") scenario_store)))
     = 4%nat.
Proof.
  destruct (check_run_logs_one_reading_even_if_it_fails
              wide_config (scenario_world "Yes") scenario_store 65%Q OverflowError
              eq_refl eq_refl)
    as [H1 [H2 [r [H3 _]]]].
  split; [exact H1|]. split; [exact H2|]. rewrite H3. reflexivity.
Defined.

(** ** Tasks are never closed, never deleted *)

Lemma write_open_status s s' :
  write s s' -> Forall open_status (tasks s) -> Forall open_status (tasks s').
Proof.
  intros Hw H. destruct Hw as [utc t|utc d|u id];
    cbn [snd insert_weather_log insert_task set_weather_logs set_tasks tasks].
  - exact H.
  - apply Forall_app. split; [exact H|]. constructor; [left; reflexivity|constructor].
  - apply Forall_map. eapply Forall_impl; [|exact H].
    intros t Ht. unfold snooze_row. destruct (task_id t =? id); [right; reflexivity|exact Ht].
Qed.

(** X12: in every database the program reaches from the empty one, every
    task has status "pending" or "snoozed": no operation ever gives a task
    another status, so no task is ever closed and the report never filters
    one out; with limit [n] it shows [n] tasks as soon as there are that
    many, and the older ones are hidden. *)
Theorem reachable_tasks_are_all_open :
  forall s,
    reachable s ->
    Forall open_status (tasks s)
    /\ filter is_open (tasks s) = tasks s
    /\ (forall n, List.length (open_tasks n s) = Nat.min n (List.length (tasks s))).
Proof.
  intros s Hs.
  assert (Forall open_status (tasks s)) as Hopen.
  { apply (reachable_by_writes (fun s => Forall open_status (tasks s)));
      [constructor|exact write_open_status|exact Hs]. }
  assert (filter is_open (tasks s) = tasks s) as Hall.
  { apply forallb_filter_id, forallb_forall. intros t Ht.
    apply is_open_iff. rewrite Forall_forall in Hopen. exact (Hopen t Ht). }
  split; [exact Hopen|]. split; [exact Hall|].
  intros n. unfold open_tasks.
  rewrite length_firstn, (Permutation_length (order_by_created_at_desc_perm _)), Hall.
  reflexivity.
Qed.

(** After a [check] run that opened a task and a snooze of it. *)
Lemma reachable_tasks_are_all_open_witness :
  Forall open_status
    (tasks
       (perform (OpSnoozeTask noon_2026_11_04 1 "2h")
          (perform (OpRunCheck (mk_config 50 1) (scenario_world "Yes")) empty_db))).
Proof.
  apply reachable_tasks_are_all_open.
  do 2 apply reachable_step. apply reachable_empty.
Defined.

Lemma same_task_still_snoozed_refl t : same_task_still_snoozed t t.
Proof. unfold same_task_still_snoozed. auto. Qed.

Lemma same_task_still_snoozed_snooze_row until id t :
  same_task_still_snoozed t (snooze_row until id t).
Proof.
  unfold same_task_still_snoozed, snooze_row.
  destruct (task_id t =? id); cbn; auto.
Qed.

(** X13: no operation of the script deletes a task, moves it, or changes
    its identifier, description or created-at, and none takes a task out of
    the status "snoozed": the rows that were there are afterwards the first
    rows of the table, in the same order, each the same task, and a snoozed
    one is still snoozed even when its deadline has passed, since no
    operation ever reads snooze-until. *)
Theorem tasks_are_never_deleted_nor_woken :
  forall o s,
    (List.length (tasks s) <= List.length (tasks (perform o s)))%nat
    /\ Forall2 same_task_still_snoozed
               (tasks s) (firstn (List.length (tasks s)) (tasks (perform o s))).
Proof.
  intros o s.
  assert (Forall2 same_task_still_snoozed (tasks s) (tasks s)) as Hsame
    by (apply Forall2_same; exact same_task_still_snoozed_refl).
  destruct (snoozes o) eqn:Hs.
  - destruct (perform_snoozes o s Hs) as [E|[u [id E]]]; rewrite E.
    + rewrite firstn_all. split; [lia|exact Hsame].
    + rewrite length_map. split; [lia|].
      rewrite <- (length_map (snooze_row u id)), firstn_all.
      apply Forall2_map_right. intros t. apply same_task_still_snoozed_snooze_row.
  - destruct (perform_adds_fresh o s Hs) as [new [E _]]. rewrite E.
    rewrite length_app. split; [lia|].
    rewrite firstn_app, firstn_all, Nat.sub_diag, firstn_O, List.app_nil_r.
    exact Hsame.
Qed.

(** ** One task per affirmed run *)

Lemma run_check_opens_task cfg w s :
  fst (check_sustained_warmth cfg (now_check w) (snd (get_weather w s))) = Ok true ->
  affirmed (strip (llm_reply w)) = true ->
  tasks (snd (run_check cfg w s))
  = tasks s ++ [new_task s (utc_task w) (strip (llm_reply w))]
  /\ tasks_seq (snd (run_check cfg w s))
     = task_id (new_task s (utc_task w) (strip (llm_reply w))).
Proof.
  intros Hmet Haff. rewrite run_check_state. cbv zeta. rewrite Hmet, Haff.
  rewrite get_weather_eq. split; reflexivity.
Qed.

(** X14: a [check] run does not look whether a task is already open.  Two
    runs in a row whose sustained check is met and whose answer is
    affirmed open two tasks, the second with a larger identifier than the
    first, both pending, and with the same description when the model gave
    the same answer. *)
Theorem every_affirmed_run_opens_another_task :
  forall cfg w1 w2 s,
    fst (check_sustained_warmth cfg (now_check w1) (snd (get_weather w1 s))) = Ok true ->
    affirmed (strip (llm_reply w1)) = true ->
    fst (check_sustained_warmth cfg (now_check w2)
           (snd (get_weather w2 (snd (run_check cfg w1 s))))) = Ok true ->
    affirmed (strip (llm_reply w2)) = true ->
    exists t1 t2,
      tasks (snd (run_check cfg w2 (snd (run_check cfg w1 s)))) = tasks s ++ [t1; t2]
      /\ task_id t1 < task_id t2
      /\ status t1 = "pending" /\ status t2 = "pending"
      /\ (strip (llm_reply w1) = strip (llm_reply w2) -> description t1 = description t2).
Proof.
  intros cfg w1 w2 s Hm1 Ha1 Hm2 Ha2.
  destruct (run_check_opens_task cfg w1 s Hm1 Ha1) as [T1 S1].
  destruct (run_check_opens_task cfg w2 _ Hm2 Ha2) as [T2 _].
  set (s1 := snd (run_check cfg w1 s)) in *.
  exists (new_task s (utc_task w1) (strip (llm_reply w1))),
         (new_task s1 (utc_task w2) (strip (llm_reply w2))).
  split; [rewrite T2, T1, <- app_assoc; reflexivity|].
  split.
  { cbn [new_task task_id]. rewrite S1.
    destruct (next_rowid_fresh (task_id (new_task s (utc_task w1) (strip (llm_reply w1))))
                (map task_id (tasks s1))) as [H _].
    exact H. }
  split; [reflexivity|]. split; [reflexivity|].
  intros E. cbn [new_task description]. rewrite E. reflexivity.
Qed.

(** Two runs at noon on the three warm readings, both answered "Yes": tasks
    1 and 2. *)
Lemma every_affirmed_run_opens_another_task_witness :
  exists t1 t2,
    tasks (snd (run_check scenario_config (scenario_world "Yes")
                  (snd (run_check scenario_config (scenario_world "Yes") scenario_store))))
    = tasks scenario_store ++ [t1; t2]
    /\ task_id t1 < task_id t2
    /\ status t1 = "pending" /\ status t2 = "pending"
    /\ (strip (llm_reply (scenario_world "Yes")) = strip (llm_reply (scenario_world "Yes")) ->
        description t1 = description t2).
Proof.
  apply every_affirmed_run_opens_another_task; reflexivity.
Defined.

(** ** The new task on the report *)

Lemma order_by_created_at_desc_newest l x :
  (forall u, In u l -> created_at u < created_at x) ->
  order_by_created_at_desc (l ++ [x]) = x :: order_by_created_at_desc l.
Proof.
  intros H. induction l as [|a l IH]; [reflexivity|].
  cbn [app]. unfold order_by_created_at_desc in *. cbn [fold_right].
  rewrite IH by (intros u Hu; apply H; right; exact Hu).
  cbn [insert_desc].
  assert (created_at a < created_at x) as Ha by (apply H; left; reflexivity).
  apply Z.leb_gt in Ha. rewrite Ha. reflexivity.
Qed.

(** X15: when a [check] run opens a task and the database clock of that
    insert is later than the created-at of every task that was there, the
    list the run prints starts with the new task, shown as pending. *)
Theorem new_task_heads_the_report :
  forall cfg w s t report,
    tasks (snd (run_check cfg w s)) = tasks s ++ [t] ->
    (forall u, In u (tasks s) -> created_at u < utc_task w) ->
    fst (run_check cfg w s) = Ok report ->
    hd_error report = Some (task_id t, "pending", description t).
Proof.
  intros cfg w s t report Ht Hnew Hrep.
  apply run_check_report in Hrep. subst report.
  assert (status t = "pending" /\ created_at t = utc_task w) as [Hst Hcr].
  { rewrite run_check_tasks in Ht.
    assert (forall l : list task, l <> l ++ [t]) as Hno.
    { intros l E. apply (f_equal (@List.length task)) in E.
      rewrite length_app in E. cbn in E. lia. }
    destruct (fst (check_sustained_warmth _ _ _)) as [[|]|e];
      try (exfalso; exact (Hno _ Ht)).
    destruct (affirmed _); [|exfalso; exact (Hno _ Ht)].
    apply app_inv_head in Ht. injection Ht as <-. split; reflexivity. }
  unfold open_tasks. rewrite Ht, filter_app. cbn [filter].
  assert (is_open t = true) as Hopen by (apply is_open_iff; left; exact Hst).
  rewrite Hopen, order_by_created_at_desc_newest.
  - cbn [firstn map hd_error]. unfold report_row. rewrite Hst. reflexivity.
  - intros u Hu. apply filter_In in Hu as [Hu _]. rewrite Hcr. apply Hnew. exact Hu.
Qed.

(** A ninth task opened on [busy_store], whose eight tasks are older. *)
Lemma new_task_heads_the_report_witness :
  fst (run_check (mk_config 50 0) (scenario_world "Yes") busy_store)
  = Ok [(9, "pending", "Test outside camera setup (reasoning: Yes)");
        (7, "pending", "g"); (5, "pending", "e"); (4, "pending", "d");
        (3, "snoozed", "c")]
  /\ hd_error
       [(9, "pending", "Test outside camera setup (reasoning: Yes)");
        (7, "pending", "g"); (5, "pending", "e"); (4, "pending", "d");
        (3, "snoozed", "c")]
     = Some (9, "pending", "Test outside camera setup (reasoning: Yes)").
Proof.
  split; [reflexivity|].
  refine (new_task_heads_the_report
            (mk_config 50 0) (scenario_world "Yes") busy_store
            (mk_task 9 "Test outside camera setup (reasoning: Yes)" "pending" None
                     (noon_2026_11_04 - 5 * us_per_second))
            _ eq_refl _ eq_refl).
  intros u Hu. cbn in Hu.
  repeat (destruct Hu as [<-|Hu]; [reflexivity|]). contradiction.
Defined.

(** ** The letter the gate looks for *)

Lemma ascii_text_no_ring (text : string) :
  ascii_text text = true -> ~ Substring y_with_ring_above text.
Proof.
  intros H [pre [post E]]. subst text.
  rewrite !ascii_text_append in H. apply andb_true_iff in H as [_ H].
  apply andb_true_iff in H as [H _]. discriminate H.
Qed.

(** X16: an answer in which the letter y occurs anywhere, in either case,
    is affirmed, whatever else it says: "Not yet" and "any" are affirmed.
    An answer made of ASCII characters is affirmed only if that letter
    occurs in it. *)
Theorem affirmed_iff_letter_y_occurs :
  forall text,
    (forall pre post, affirmed (pre ++ "y" ++ post) = true
                      /\ affirmed (pre ++ "Y" ++ post) = true)
    /\ (ascii_text text = true ->
        (affirmed text = true <-> Substring "y" text \/ Substring "Y" text)).
Proof.
  intros text. split.
  - intros pre post. split; apply affirmed_letters; [left|right; left];
      exists pre, post; reflexivity.
  - intros Hascii. rewrite affirmed_letters. split; [|tauto].
    intros [H|[H|H]]; [tauto|tauto|].
    destruct (ascii_text_no_ring text Hascii H).
Qed.

(** "Not yet" is an ASCII answer that holds the letter: it is affirmed. *)
Lemma affirmed_iff_letter_y_occurs_witness :
  affirmed "Not yet" = true.
Proof.
  apply (proj2 (affirmed_iff_letter_y_occurs "Not yet") eq_refl).
  left. exists "Not ", "et". reflexivity.
Defined.

(** ** The MLflow calls of a [check] run *)

(** Without the calls, [run_check_logged] is [run_check]. *)
Lemma run_check_logged_erase location cfg w s calls :
  fst (run_check_logged location cfg w s calls) = run_check cfg w s.
Proof.
  unfold run_check_logged, run_check, bindL, bind, emit, run_db. cbv beta.
  rewrite !get_weather_eq. cbv iota beta.
  destruct (check_sustained_warmth cfg (now_check w) _) as [[[|]|e] s2];
    try reflexivity.
  destruct (affirmed (strip (llm_reply w))); [|reflexivity].
  rewrite !create_task_eq. cbv iota beta.
  destruct (send_reminder _ _) as [[b|e] s4]; reflexivity.
Qed.

(** X17: the metrics of a [check] run that completes tell what it did.  It
    has logged current_temp once, with the temperature [get_weather]
    returned, and tasks_created exactly once: with value 1, together with
    reminders_sent = 1, when it added a task, and with value 0 and no
    reminders_sent when it added none. *)
Theorem metrics_tell_what_the_run_did :
  forall location cfg w s report s' calls,
    run_check_logged location cfg w s [] = (Ok report, s', calls) ->
    metric_values "current_temp" calls = [api_temp w]
    /\ ((metric_values "tasks_created" calls = [1%Q]
         /\ metric_values "reminders_sent" calls = [1%Q]
         /\ List.length (tasks s') = S (List.length (tasks s)))
        \/ (metric_values "tasks_created" calls = [0%Q]
            /\ metric_values "reminders_sent" calls = []
            /\ tasks s' = tasks s)).
Proof.
  intros location cfg w s report s' calls.
  unfold run_check_logged, bindL, emit, run_db. cbv beta.
  rewrite !get_weather_eq. cbv iota beta.
  set (s1 := set_weather_logs s _ _).
  pose proof (check_sustained_warmth_state cfg (now_check w) s1) as Hs1.
  destruct (check_sustained_warmth cfg (now_check w) s1) as [[[|]|e] s2];
    cbn [snd] in Hs1; subst s2.
  - destruct (affirmed (strip (llm_reply w))).
    + rewrite !create_task_eq. cbv iota beta.
      set (s3 := set_tasks s1 _ _).
      destruct (send_reminder _ s3) as [[b|e] s4] eqn:E.
      * pose proof (send_reminder_state
                      (task_id (new_task s1 (utc_task w) (strip (llm_reply w)))) s3) as H4.
        rewrite E in H4. cbn [snd] in H4. subst s4.
        cbn. intros [= _ <- <-]. split; [reflexivity|]. left.
        split; [reflexivity|]. split; [reflexivity|].
        cbn. rewrite length_app. cbn. lia.
      * cbn. discriminate.
    + cbn. intros [= _ <- <-]. split; [reflexivity|]. right. auto.
  - cbn. intros [= _ <- <-]. split; [reflexivity|]. right. auto.
  - cbn. discriminate.
Qed.

(** The scenario with the answer "Yes, test it": the run completes, having
    logged the 65 degrees, one task and one reminder. *)
Lemma metrics_tell_what_the_run_did_witness :
  let out := run_check_logged "Park Forest,IL,US" scenario_config
               (scenario_world "Yes, test it") scenario_store [] in
  metric_values "current_temp" (snd out) = [65%Q]
  /\ metric_values "tasks_created" (snd out) = [1%Q]
  /\ metric_values "reminders_sent" (snd out) = [1%Q].
Proof.
  cbv zeta.
  destruct (metrics_tell_what_the_run_did
              "Park Forest,IL,US" scenario_config (scenario_world "Yes, test it")
              scenario_store
              [(1, "pending", "Test outside camera setup (reasoning: Yes, test it)")]
              (snd (fst (run_check_logged "Park Forest,IL,US" scenario_config
                           (scenario_world "Yes, test it") scenario_store [])))
              (snd (run_check_logged "Park Forest,IL,US" scenario_config
                      (scenario_world "Yes, test it") scenario_store []))
              ltac:(vm_compute; reflexivity))
    as [H1 H2].
  split; [exact H1|]. vm_compute. split; reflexivity.
Defined.

(** ** The reading of the run counts *)

(** X18: the sustained check of a [check] run sees the reading the run has
    just logged.  When the start of the window is an instant a datetime can
    hold, the check is met exactly when the rows that were in the log
    before, plus one if the new reading is above the threshold and its
    database timestamp is after the start of the window, reach
    DURATION_CHECKS. *)
Theorem current_reading_counts_toward_the_check :
  forall threshold required_count w s,
    0 <= now_check w < datetime_end ->
    0 <= window_start (now_check w) required_count < datetime_end ->
    fst (check_sustained_warmth (mk_config threshold required_count) (now_check w)
           (snd (get_weather w s)))
    = Ok (required_count
          <=? qualifying_count threshold (window_start (now_check w) required_count)
                (weather_logs s)
              + (if Qltb threshold (api_temp w)
                    && (window_start (now_check w) required_count <? utc_log w)
                 then 1 else 0)).
Proof.
  intros threshold rc w s Hnow Hstart.
  rewrite check_sustained_warmth_value by assumption. cbn [fst].
  rewrite get_weather_eq. cbn [snd set_weather_logs weather_logs].
  rewrite qualifying_count_app. do 3 f_equal.
  cbn [qualifying_count temp timestamp].
  destruct (Qlt_le_dec threshold (api_temp w)) as [Ht|Ht].
  - apply Qltb_lt in Ht. rewrite Ht. cbn [andb].
    destruct (Z_lt_dec _ (utc_log w)) as [Hs|Hs].
    + apply Z.ltb_lt in Hs. rewrite Hs. reflexivity.
    + apply Z.nlt_ge, Z.ltb_ge in Hs. rewrite Hs. reflexivity.
  - destruct (Qltb threshold (api_temp w)) eqn:E; [|reflexivity].
    apply Qltb_lt in E. exfalso. exact (Qlt_not_le _ _ E Ht).
Qed.

(** Three warm readings in the log and a fourth of 65 degrees in this run:
    four checks are met. *)
Lemma current_reading_counts_toward_the_check_witness :
  fst (check_sustained_warmth (mk_config 50 4) (now_check (scenario_world ""))
         (snd (get_weather (scenario_world "") scenario_store)))
  = Ok true.
Proof.
  refine (current_reading_counts_toward_the_check 50 4 (scenario_world "") scenario_store
            _ _);
    (split; [discriminate|reflexivity]).
Defined.

(** ** A snooze changes one task *)

Lemma map_snooze_row_one until id l1 t l2 :
  task_id t = id ->
  NoDup (map task_id (l1 ++ t :: l2)) ->
  map (snooze_row until id) (l1 ++ t :: l2)
  = l1 ++ mk_task id (description t) "snoozed" (Some until) (created_at t) :: l2.
Proof.
  intros Hid Hnd. rewrite map_app in Hnd. cbn [map] in Hnd.
  apply NoDup_remove_2 in Hnd. rewrite Hid in Hnd.
  rewrite map_app. cbn [map].
  rewrite (snooze_row_hit _ _ _ Hid), Hid.
  rewrite !map_snooze_row_absent; [reflexivity| |];
    intros u Hu E; apply Hnd, in_or_app; [right|left];
    rewrite <- E; apply in_map; exact Hu.
Qed.

(** X19: in a database the program has reached, a snooze that completes
    changes exactly one row when a task has the given identifier, and that
    row only in status and snooze-until; when no task has it, which is so
    exactly when the identifier is below 1 or above the number of tasks, the
    database is left as it was. *)
Theorem reachable_snooze_changes_exactly_one_task :
  forall s now id text,
    reachable s ->
    fst (snooze_task now id text s) = Ok tt ->
    (1 <= id <= Z.of_nat (List.length (tasks s)) ->
     exists until l1 t l2,
       tasks s = l1 ++ t :: l2
       /\ task_id t = id
       /\ tasks (snd (snooze_task now id text s))
          = l1 ++ mk_task id (description t) "snoozed" (Some until) (created_at t) :: l2)
    /\ (~ 1 <= id <= Z.of_nat (List.length (tasks s)) ->
        snd (snooze_task now id text s) = s).
Proof.
  intros s now id text Hreach Hok.
  assert (rowids_in_sequence s) as [Ht _].
  { apply (reachable_by_writes rowids_in_sequence);
      [split; split; reflexivity|exact write_rowids_in_sequence|exact Hreach]. }
  pose proof (counts_from_one_NoDup _ _ Ht) as Hnd.
  assert (forall t, In t (tasks s) -> 1 <= task_id t <= Z.of_nat (List.length (tasks s)))
    as Hrange.
  { intros t Hin. rewrite <- (length_map task_id).
    destruct Ht as [Hids Hc].
    apply (counts_from_one_In _ _ (task_id t) (conj Hids eq_refl)).
    apply in_map. exact Hin. }
  assert (1 <= id <= Z.of_nat (List.length (tasks s)) -> exists t, In t (tasks s) /\ task_id t = id)
    as Hfind.
  { intros Hid. rewrite <- (length_map task_id) in Hid.
    destruct Ht as [Hids Hc].
    apply (counts_from_one_In _ _ id (conj Hids eq_refl)) in Hid.
    apply in_map_iff in Hid as [t [E Hin]]. exists t. split; assumption. }
  destruct (snooze_task_shape now id text) as [[e E]|[u E]];
    rewrite E in *; cbn [fst snd set_tasks tasks] in *; [discriminate|].
  split.
  - intros Hid. destruct (Hfind Hid) as [t [Hin Htid]].
    apply in_split in Hin as [l1 [l2 Hsplit]].
    exists u, l1, t, l2. split; [exact Hsplit|]. split; [exact Htid|].
    rewrite Hsplit in *. apply map_snooze_row_one; assumption.
  - intros Hout. rewrite map_snooze_row_absent; [apply set_tasks_same|].
    intros t Hin Htid. apply Hout. rewrite <- Htid. apply Hrange. exact Hin.
Qed.

(** Two tasks opened by two runs; the snooze of task 1 leaves task 2 as it
    was. *)
Lemma reachable_snooze_changes_exactly_one_task_witness :
  exists until l1 t l2,
    tasks (perform (OpRunCheck (mk_config 50 1) (scenario_world "Yes"))
             (perform (OpRunCheck (mk_config 50 1) (scenario_world "Yes")) empty_db))
    = l1 ++ t :: l2
    /\ task_id t = 1
    /\ tasks (snd (snooze_task noon_2026_11_04 1 "3h"
                     (perform (OpRunCheck (mk_config 50 1) (scenario_world "Yes"))
                        (perform (OpRunCheck (mk_config 50 1) (scenario_world "Yes"))
                           empty_db))))
       = l1 ++ mk_task 1 (description t) "snoozed" (Some until) (created_at t) :: l2.
Proof.
  refine (proj1 (reachable_snooze_changes_exactly_one_task
                   (perform (OpRunCheck (mk_config 50 1) (scenario_world "Yes"))
                      (perform (OpRunCheck (mk_config 50 1) (scenario_world "Yes")) empty_db))
                   noon_2026_11_04 1 "3h" _ eq_refl) _).
  - do 2 apply reachable_step. apply reachable_empty.
  - split; [discriminate|vm_compute; discriminate].
Defined.
